(** * Billing core of niigaki-core: state machine, webhook dispatcher,
      reconciliation handlers, access projection and webhook ledger.

    Shallow embedding of
      - src/billing/types/billing-status.ts
      - src/billing/types/asaas-events.ts
      - src/billing/billing-errors.ts
      - src/billing/subscription-service.ts
      - src/billing/billing-service.ts
      - src/billing/webhook-handler.ts
      - src/billing/billing-enforcer.ts
      - src/utils/dates.ts
      - database/migrations/008_create_webhook_events.sql

    Conventions.  [async] functions become computations over the tenant
    store that either return a value or raise one of the billing errors;
    a raise keeps the store as it is at the throw point (there is no
    rollback in the source).  Logger calls have no effect on the store and
    are left out.  JavaScript numbers that the handlers compute with are
    integers or NaN. *)

From Stdlib Require Import ZArith String List Bool Lia DecimalString.
From stdpp Require Import base decidable option gmap strings.

Local Open Scope string_scope.
Local Open Scope Z_scope.

(** ** JavaScript values used by the billing code *)

(** A JavaScript [number] restricted to what the handlers produce:
    an integer, or NaN (the time value of an invalid [Date]). *)
Inductive JsNumber : Type :=
| JsNum (z : Z)
| JsNaN.

#[global] Instance JsNumber_eq_dec : EqDecision JsNumber.
Proof. solve_decision. Defined.

(** A JavaScript [Date]: its time value in milliseconds, NaN when invalid. *)
Definition JsDate : Type := JsNumber.

(** [a >= b] on numbers: false as soon as one side is NaN. *)
Definition js_geb (a b : JsNumber) : bool :=
  match a, b with
  | JsNum x, JsNum y => y <=? x
  | _, _ => false
  end.

(** [a - b]. *)
Definition js_sub (a b : JsNumber) : JsNumber :=
  match a, b with
  | JsNum x, JsNum y => JsNum (x - y)
  | _, _ => JsNaN
  end.

(** [Math.floor(a / d)] for a positive integer constant [d]; on the
    integers the handlers meet (differences of timestamps) the quotient is
    exact enough for the floor to be the integer quotient. *)
Definition js_floor_div (a : JsNumber) (d : Z) : JsNumber :=
  match a with
  | JsNum x => JsNum (x / d)
  | JsNaN => JsNaN
  end.

(** [Math.max(0, a)]: NaN when [a] is NaN. *)
Definition js_max0 (a : JsNumber) : JsNumber :=
  match a with
  | JsNum x => JsNum (Z.max 0 x)
  | JsNaN => JsNaN
  end.

(** Truthiness of an optional string: [undefined] and [''] are falsy. *)
Definition truthy (o : option string) : bool :=
  match o with
  | Some s => negb (String.eqb s "")
  | None => false
  end.

(** [s.startsWith(p)]. *)
Definition startsWith (s p : string) : bool := String.prefix p s.

(** [a ?? b]. *)
Definition nullish {A : Type} (a : option A) (b : A) : A :=
  match a with
  | Some x => x
  | None => b
  end.

(** [a < b] and [a > b] on numbers: false as soon as one side is NaN. *)
Definition js_ltb (a b : JsNumber) : bool :=
  match a, b with
  | JsNum x, JsNum y => x <? y
  | _, _ => false
  end.

Definition js_gtb (a b : JsNumber) : bool := js_ltb b a.

(** [a === k] for an integer literal [k]. *)
Definition js_eqb_const (a : JsNumber) (k : Z) : bool :=
  match a with
  | JsNum x => x =? k
  | JsNaN => false
  end.

(** [Math.abs(a)]. *)
Definition js_abs (a : JsNumber) : JsNumber :=
  match a with
  | JsNum x => JsNum (Z.abs x)
  | JsNaN => JsNaN
  end.

(** The double nearest to the integer [x], for a magnitude below 2^54
    (round to nearest, ties to even): the integers up to 2^53 are doubles;
    above, the doubles are the even integers, and an odd integer lies
    halfway between two of them, of which the multiple of 4 has the even
    significand. *)
Definition js_double (x : Z) : Z :=
  if Z.abs x <=? 2 ^ 53 then x
  else if Z.even x then x
  else if Z.even ((x - 1) / 2) then x - 1 else x + 1.

(** [a - b] where both sides are time values supplied by the caller: a
    time value has magnitude at most 8.64e15, so the difference is below
    2^54 and is rounded to a double. *)
Definition js_sub_double (a b : JsNumber) : JsNumber :=
  match a, b with
  | JsNum x, JsNum y => JsNum (js_double (x - y))
  | _, _ => JsNaN
  end.

(** [a * k] for an integer literal [k]. *)
Definition js_mul_const (a : JsNumber) (k : Z) : JsNumber :=
  match a with
  | JsNum x => JsNum (x * k)
  | JsNaN => JsNaN
  end.

(** The string of a number inside a template literal: decimal digits for
    an integer (of magnitude below 10^21, which quotients of differences
    of time values are), ["NaN"] for NaN. *)
Definition js_toString (a : JsNumber) : string :=
  match a with
  | JsNum x => NilZero.string_of_int (Z.to_int x)
  | JsNaN => "NaN"
  end.

(** [new Date(value)] for a number: the time value is clipped, a
    magnitude above 8.64e15 ms gives an invalid date. *)
Definition Date_of_number (value : JsNumber) : JsDate :=
  match value with
  | JsNum x => if Z.abs x <=? 8640000000000000 then JsNum x else JsNaN
  | JsNaN => JsNaN
  end.

(** ** billing-status.ts *)

Inductive BillingStatus : Type :=
| TRIAL
| ACTIVE
| PENDING_PAYMENT
| OVERDUE
| SUSPENDED
| CANCELED.

#[global] Instance BillingStatus_eq_dec : EqDecision BillingStatus.
Proof. solve_decision. Defined.

(** The string value of each enum member. *)
Definition BillingStatus_value (s : BillingStatus) : string :=
  match s with
  | TRIAL => "trial"
  | ACTIVE => "active"
  | PENDING_PAYMENT => "pending_payment"
  | OVERDUE => "overdue"
  | SUSPENDED => "suspended"
  | CANCELED => "canceled"
  end.

(** [arr.includes(x)] on an array of statuses. *)
Definition includes (arr : list BillingStatus) (x : BillingStatus) : bool :=
  existsb (fun y => bool_decide (y = x)) arr.

(** [billingStatusTransitions]: the object literal, one entry per key, in
    source order. *)
Definition billingStatusTransitions : list (BillingStatus * list BillingStatus) :=
  [ (TRIAL, [ACTIVE; PENDING_PAYMENT; CANCELED]);
    (PENDING_PAYMENT, [ACTIVE; OVERDUE; CANCELED]);
    (ACTIVE, [OVERDUE; CANCELED]);
    (OVERDUE, [ACTIVE; SUSPENDED; CANCELED]);
    (SUSPENDED, [ACTIVE; CANCELED]);
    (CANCELED, []) ].

(** Property access [billingStatusTransitions[from]]; [None] is
    [undefined]. *)
Fixpoint transitions_get (tbl : list (BillingStatus * list BillingStatus))
    (from : BillingStatus) : option (list BillingStatus) :=
  match tbl with
  | [] => None
  | (k, row) :: rest =>
      if bool_decide (k = from) then Some row else transitions_get rest from
  end.

(** [allowedTransitions?.includes(to) ?? false]. *)
Definition isValidTransition (from to : BillingStatus) : bool :=
  let allowedTransitions := transitions_get billingStatusTransitions from in
  nullish (option_map (fun row => includes row to) allowedTransitions) false.

Definition hasFullAccess (status : BillingStatus) : bool :=
  bool_decide (status = ACTIVE) || bool_decide (status = TRIAL).

Definition hasLimitedAccess (status : BillingStatus) : bool :=
  bool_decide (status = OVERDUE) || bool_decide (status = PENDING_PAYMENT).

Definition hasAnyAccess (status : BillingStatus) : bool :=
  hasFullAccess status || hasLimitedAccess status.

(** [Object.values(BillingStatus)], in declaration order. *)
Definition BillingStatus_values : list BillingStatus :=
  [TRIAL; ACTIVE; PENDING_PAYMENT; OVERDUE; SUSPENDED; CANCELED].

(** [isBillingStatus] on a string (a value of another type is never
    included). *)
Definition isBillingStatus (value : string) : bool :=
  existsb (String.eqb value) (map BillingStatus_value BillingStatus_values).

(** ** asaas-events.ts *)

(** [Object.values(AsaasEventType)], in declaration order. *)
Definition AsaasEventType_values : list string :=
  [ "PAYMENT_CREATED"; "PAYMENT_AWAITING_RISK_ANALYSIS";
    "PAYMENT_APPROVED_BY_RISK_ANALYSIS"; "PAYMENT_REPROVED_BY_RISK_ANALYSIS";
    "PAYMENT_UPDATED"; "PAYMENT_CONFIRMED"; "PAYMENT_RECEIVED";
    "PAYMENT_ANTICIPATED"; "PAYMENT_OVERDUE"; "PAYMENT_DELETED";
    "PAYMENT_RESTORED"; "PAYMENT_REFUNDED"; "PAYMENT_RECEIVED_IN_CASH_UNDONE";
    "PAYMENT_CHARGEBACK_REQUESTED"; "PAYMENT_CHARGEBACK_DISPUTE";
    "PAYMENT_AWAITING_CHARGEBACK_REVERSAL"; "PAYMENT_DUNNING_RECEIVED";
    "PAYMENT_DUNNING_REQUESTED";
    "SUBSCRIPTION_CREATED"; "SUBSCRIPTION_ACTIVATED"; "SUBSCRIPTION_UPDATED";
    "SUBSCRIPTION_CANCELED"; "SUBSCRIPTION_RENEWED";
    "TRANSFER_CREATED"; "TRANSFER_PENDING"; "TRANSFER_IN_BANK_PROCESSING";
    "TRANSFER_BLOCKED"; "TRANSFER_DONE"; "TRANSFER_FAILED";
    "TRANSFER_CANCELLED";
    "INVOICE_CREATED"; "INVOICE_UPDATED"; "INVOICE_SYNCHRONIZED";
    "INVOICE_AUTHORIZED"; "INVOICE_PROCESSING_CANCELLATION";
    "INVOICE_CANCELED"; "INVOICE_CANCELLATION_DENIED"; "INVOICE_ERROR" ].

(** The payment object of a webhook; the fields the handlers read. *)
Record AsaasPaymentPayload : Type := mkPayment {
  payment_id : string;
  payment_customer : string;
  payment_subscription : option string;
  payment_dueDate : string;
  payment_confirmedDate : option string
}.

(** The subscription object of a webhook; the fields the handlers read. *)
Record AsaasSubscriptionPayload : Type := mkSubscriptionPayload {
  subscription_id : string;
  subscription_customer : string
}.

(** [AsaasWebhookEvent]: [event] is whatever string the processor sent. *)
Record AsaasWebhookEvent : Type := mkEvent {
  event : string;
  payment : option AsaasPaymentPayload;
  subscription : option AsaasSubscriptionPayload
}.

Definition isAsaasEventType (value : string) : bool :=
  existsb (String.eqb value) AsaasEventType_values.

Definition isPaymentEvent (eventType : string) : bool :=
  startsWith eventType "PAYMENT_".

Definition isSubscriptionEvent (eventType : string) : bool :=
  startsWith eventType "SUBSCRIPTION_".

Definition requiredAsaasEvents : list string :=
  [ "PAYMENT_CREATED"; "PAYMENT_CONFIRMED"; "PAYMENT_RECEIVED"; "PAYMENT_OVERDUE";
    "PAYMENT_REFUNDED"; "SUBSCRIPTION_ACTIVATED"; "SUBSCRIPTION_CANCELED" ].

(** ** billing-errors.ts: the errors the billing code throws *)

Inductive BillingError : Type :=
| SubscriptionCancellationError (subscriptionId message : string)
| WebhookInvalidError (message : string) (eventType : option string)
| BillingStatusInvalidError (currentStatus : BillingStatus) (message : string)
| AsaasApiError (statusCode : Z) (message : string)
| InvalidBillingTransitionError (fromStatus toStatus : BillingStatus).

(** [error.message]. *)
Definition error_message (e : BillingError) : string :=
  match e with
  | SubscriptionCancellationError _ m => m
  | WebhookInvalidError m _ => m
  | BillingStatusInvalidError _ m => m
  | AsaasApiError _ m => m
  | InvalidBillingTransitionError f t =>
      String.append "Invalid billing status transition from '"
        (String.append (BillingStatus_value f)
           (String.append "' to '"
              (String.append (BillingStatus_value t) "'")))
  end.

(** ** billing-plan.ts and the tenant billing record *)

Inductive BillingCycle : Type :=
| WEEKLY | BIWEEKLY | MONTHLY | QUARTERLY | SEMIANNUALLY | YEARLY.

Record SubscriptionMetadata : Type := mkMetadata {
  planId : string;
  planName : string;
  priceInCents : Z;
  currency : string;
  cycle : BillingCycle;
  trialEndDate : option JsDate;
  nextBillingDate : option JsDate;
  lastPaymentDate : option JsDate;
  daysOverdue : option JsNumber;
  custom : list (string * string)
}.

(** [m.daysOverdue = d]. *)
Definition set_daysOverdue (d : JsNumber) (m : SubscriptionMetadata) : SubscriptionMetadata :=
  mkMetadata (planId m) (planName m) (priceInCents m) (currency m) (cycle m)
    (trialEndDate m) (nextBillingDate m) (lastPaymentDate m) (Some d) (custom m).

(** [delete m.daysOverdue]. *)
Definition delete_daysOverdue (m : SubscriptionMetadata) : SubscriptionMetadata :=
  mkMetadata (planId m) (planName m) (priceInCents m) (currency m) (cycle m)
    (trialEndDate m) (nextBillingDate m) (lastPaymentDate m) None (custom m).

(** [m.lastPaymentDate = d]. *)
Definition set_lastPaymentDate (d : JsDate) (m : SubscriptionMetadata) : SubscriptionMetadata :=
  mkMetadata (planId m) (planName m) (priceInCents m) (currency m) (cycle m)
    (trialEndDate m) (nextBillingDate m) (Some d) (daysOverdue m) (custom m).

(** [m.nextBillingDate = d]. *)
Definition set_nextBillingDate (d : JsDate) (m : SubscriptionMetadata) : SubscriptionMetadata :=
  mkMetadata (planId m) (planName m) (priceInCents m) (currency m) (cycle m)
    (trialEndDate m) (Some d) (lastPaymentDate m) (daysOverdue m) (custom m).

Record TenantBillingData : Type := mkTenant {
  tenant_id : string;
  asaasCustomerId : option string;
  asaasSubscriptionId : option string;
  billingStatus : BillingStatus;
  subscriptionMetadata : option SubscriptionMetadata
}.

(** [tenantBilling.billingStatus = s]. *)
Definition set_billingStatus (s : BillingStatus) (t : TenantBillingData) : TenantBillingData :=
  mkTenant (tenant_id t) (asaasCustomerId t) (asaasSubscriptionId t) s
    (subscriptionMetadata t).

(** [tenantBilling.subscriptionMetadata = m]. *)
Definition set_subscriptionMetadata (m : SubscriptionMetadata) (t : TenantBillingData) : TenantBillingData :=
  mkTenant (tenant_id t) (asaasCustomerId t) (asaasSubscriptionId t)
    (billingStatus t) (Some m).

(** [Partial<TenantBillingData>] as the handlers build it: a field is
    either left out or given. *)
Record TenantBillingPatch : Type := mkPatch {
  patch_billingStatus : option BillingStatus;
  patch_subscriptionMetadata : option SubscriptionMetadata
}.

Definition apply_patch (p : TenantBillingPatch) (t : TenantBillingData) : TenantBillingData :=
  mkTenant (tenant_id t) (asaasCustomerId t) (asaasSubscriptionId t)
    (nullish (patch_billingStatus p) (billingStatus t))
    (match patch_subscriptionMetadata p with
     | Some m => Some m
     | None => subscriptionMetadata t
     end).

(** ** The tenant billing store adapter

    The [getTenantBilling] and [updateTenantBilling] callbacks are supplied
    by the integrator.  They are taken to be a key-value store indexed by
    tenant id with read-after-write consistency: a read returns a copy of
    the stored record, an update merges the given fields into the stored
    record and does nothing for a tenant that is not stored.

    The services assign to fields of the record they have read
    ([tenantBilling.subscriptionMetadata.daysOverdue = ...]).  Every such
    assignment comes with the update that stores the same value and none
    happens before a [throw], so a store that hands out the stored object
    itself ends in the same state as this one.

    An update is taken to be applied: a rejection by the adapter itself
    (a [StoreAdapterError]) is outside this model.  What a theorem says of
    the store after a failed call therefore concerns the errors that the
    billing code raises, not a write that the adapter refuses between two
    awaited updates. *)
Abbreviation Store := (gmap string TenantBillingData).

(** ** Computations of the services: store passing with exceptions *)

Definition Async (A : Type) : Type := Store -> Store * (BillingError + A).

Definition resolve {A : Type} (a : A) : Async A := fun st => (st, inr a).

Definition throw {A : Type} (e : BillingError) : Async A := fun st => (st, inl e).

(** [await c] followed by the rest of the body. *)
Definition await {A B : Type} (c : Async A) (k : A -> Async B) : Async B :=
  fun st =>
    match c st with
    | (st', inl e) => (st', inl e)
    | (st', inr a) => k a st'
    end.

(** [try { body } catch (error) { handler(error) }]. *)
Definition try_catch {A : Type} (body : Async A) (handler : BillingError -> Async A) : Async A :=
  fun st =>
    match body st with
    | (st', inl e) => handler e st'
    | (st', inr a) => (st', inr a)
    end.

(** A call to an external collaborator that returns or throws without
    touching the tenant store. *)
Definition external {A : Type} (r : BillingError + A) : Async A := fun st => (st, r).

Notation "x <- c ;; k" := (await c (fun x => k))
  (at level 100, c at next level, right associativity).
Notation "c ;;; k" := (await c (fun _ => k))
  (at level 100, right associativity).

Definition getTenantBilling (tenantId : string) : Async (option TenantBillingData) :=
  fun st => (st, inr (st !! tenantId)).

Definition updateTenantBilling (tenantId : string) (data : TenantBillingPatch) : Async unit :=
  fun st => (alter (apply_patch data) tenantId st, inr tt).

(** ** The external payment client, as the services consume it *)

(** [AsaasSubscriptionResponse]; the fields the services read.  [status]
    is the string found in the response body. *)
Record AsaasSubscriptionResponse : Type := mkSubscription {
  remote_status : string;
  remote_deleted : bool;
  remote_nextDueDate : option string
}.

(** [AsaasClient]: each call returns the response or throws
    ([AsaasApiError], from [handleError]). *)
Record AsaasClient : Type := mkClient {
  client_getSubscription : string -> BillingError + AsaasSubscriptionResponse;
  client_cancelSubscription : string -> BillingError + unit
}.

(** What the handlers take from the JavaScript runtime: the clock read by
    [new Date()] and the [Date] constructor on strings. *)
Record Runtime : Type := mkRuntime {
  Date_now : Z;
  Date_parse : string -> JsDate
}.

(** ** subscription-service.ts *)

Record SubscriptionServiceConfig : Type := mkSubscriptionServiceConfig {
  asaasClient : AsaasClient;
  daysUntilSuspension : option JsNumber
}.

Module SubscriptionService.

(** The constructor: [daysUntilSuspension: config.daysUntilSuspension ?? 15]. *)
Definition createSubscriptionService (config : SubscriptionServiceConfig) : SubscriptionServiceConfig :=
  mkSubscriptionServiceConfig (asaasClient config)
    (Some (nullish (daysUntilSuspension config) (JsNum 15))).

Definition mapAsaasStatusToBillingStatus (subscription : AsaasSubscriptionResponse)
    (currentStatus : BillingStatus) : BillingStatus :=
  if remote_deleted subscription then CANCELED
  else if String.eqb (remote_status subscription) "ACTIVE" then
    if bool_decide (currentStatus = TRIAL) || bool_decide (currentStatus = PENDING_PAYMENT)
    then currentStatus
    else ACTIVE
  else if String.eqb (remote_status subscription) "INACTIVE" then SUSPENDED
  else if String.eqb (remote_status subscription) "EXPIRED" then CANCELED
  else currentStatus.

Definition updateBillingStatus (tenantId : string) (currentStatus newStatus : BillingStatus) : Async unit :=
  if bool_decide (currentStatus = newStatus) then resolve tt
  else if negb (isValidTransition currentStatus newStatus) then
    throw (InvalidBillingTransitionError currentStatus newStatus)
  else updateTenantBilling tenantId (mkPatch (Some newStatus) None).

Section Methods.

Variable rt : Runtime.
Variable this : SubscriptionServiceConfig.

(** The [catch] of [cancelSubscription]: the two billing errors are
    rethrown, anything else is wrapped. *)
Definition cancelSubscription_catch (tenantId : string) (error : BillingError) : Async unit :=
  match error with
  | SubscriptionCancellationError _ _ => throw error
  | InvalidBillingTransitionError _ _ => throw error
  | _ =>
      throw (SubscriptionCancellationError tenantId
               (String.append "Failed to cancel subscription: " (error_message error)))
  end.

Definition cancelSubscription (tenantId : string) : Async unit :=
  try_catch
    (tenantBilling <- getTenantBilling tenantId ;;
     match tenantBilling with
     | None => throw (SubscriptionCancellationError "unknown" "Tenant not found")
     | Some tenantBilling =>
         if negb (truthy (asaasSubscriptionId tenantBilling)) then
           throw (SubscriptionCancellationError "unknown" "Tenant has no active subscription")
         else if negb (isValidTransition (billingStatus tenantBilling) CANCELED) then
           throw (InvalidBillingTransitionError (billingStatus tenantBilling) CANCELED)
         else
           external (client_cancelSubscription (asaasClient this)
                       (nullish (asaasSubscriptionId tenantBilling) "")) ;;;
           updateTenantBilling tenantId (mkPatch (Some CANCELED) None)
     end)
    (cancelSubscription_catch tenantId).

(** The [catch] blocks of the three methods below only log and rethrow. *)
Definition syncSubscriptionStatus (tenantId : string) : Async TenantBillingData :=
  tenantBilling <- getTenantBilling tenantId ;;
  match tenantBilling with
  | None => throw (BillingStatusInvalidError CANCELED "Tenant not found")
  | Some tenantBilling =>
      if negb (truthy (asaasSubscriptionId tenantBilling)) then resolve tenantBilling
      else
        subscription <- external (client_getSubscription (asaasClient this)
                                    (nullish (asaasSubscriptionId tenantBilling) "")) ;;
        let newStatus := mapAsaasStatusToBillingStatus subscription (billingStatus tenantBilling) in
        tenantBilling <-
          (if negb (bool_decide (newStatus = billingStatus tenantBilling)) then
             updateBillingStatus tenantId (billingStatus tenantBilling) newStatus ;;;
             resolve (set_billingStatus newStatus tenantBilling)
           else resolve tenantBilling) ;;
        match subscriptionMetadata tenantBilling, truthy (remote_nextDueDate subscription) with
        | Some metadata, true =>
            let metadata :=
              set_nextBillingDate
                (Date_parse rt (nullish (remote_nextDueDate subscription) "")) metadata in
            updateTenantBilling tenantId (mkPatch None (Some metadata)) ;;;
            resolve (set_subscriptionMetadata metadata tenantBilling)
        | _, _ => resolve tenantBilling
        end
  end.

Definition handlePaymentConfirmed (tenantId : string) (paymentDate : JsDate) : Async unit :=
  tenantBilling <- getTenantBilling tenantId ;;
  match tenantBilling with
  | None => throw (BillingStatusInvalidError CANCELED "Tenant not found")
  | Some tenantBilling =>
      let newStatus := ACTIVE in
      updateBillingStatus tenantId (billingStatus tenantBilling) newStatus ;;;
      match subscriptionMetadata tenantBilling with
      | Some metadata =>
          updateTenantBilling tenantId
            (mkPatch None (Some (delete_daysOverdue (set_lastPaymentDate paymentDate metadata))))
      | None => resolve tt
      end
  end.

Definition handlePaymentOverdue (tenantId : string) (daysOverdue : JsNumber) : Async unit :=
  tenantBilling <- getTenantBilling tenantId ;;
  match tenantBilling with
  | None => throw (BillingStatusInvalidError CANCELED "Tenant not found")
  | Some tenantBilling =>
      let newStatus :=
        if js_geb daysOverdue (nullish (daysUntilSuspension this) (JsNum 15))
        then SUSPENDED else OVERDUE in
      (if negb (bool_decide (billingStatus tenantBilling = newStatus)) then
         updateBillingStatus tenantId (billingStatus tenantBilling) newStatus
       else resolve tt) ;;;
      match subscriptionMetadata tenantBilling with
      | Some metadata =>
          updateTenantBilling tenantId
            (mkPatch None (Some (set_daysOverdue daysOverdue metadata)))
      | None => resolve tt
      end
  end.

End Methods.

End SubscriptionService.

(** ** billing-service.ts: the methods the webhook handler calls *)

Record BillingServiceConfig : Type := mkBillingServiceConfig {
  billing_asaasClient : AsaasClient;
  billing_daysUntilSuspension : option JsNumber
}.

Record BillingServiceInstance : Type := mkBillingService {
  subscriptionService : SubscriptionServiceConfig
}.

Module BillingService.

(** The constructor builds the subscription service it delegates to. *)
Definition createBillingService (config : BillingServiceConfig) : BillingServiceInstance :=
  mkBillingService
    (SubscriptionService.createSubscriptionService
       (mkSubscriptionServiceConfig (billing_asaasClient config)
          (Some (nullish (billing_daysUntilSuspension config) (JsNum 15))))).

Definition cancelSubscription (this : BillingServiceInstance) (tenantId : string) : Async unit :=
  SubscriptionService.cancelSubscription (subscriptionService this) tenantId.

Definition syncSubscriptionStatus (rt : Runtime) (this : BillingServiceInstance)
    (tenantId : string) : Async TenantBillingData :=
  SubscriptionService.syncSubscriptionStatus rt (subscriptionService this) tenantId.

Definition handlePaymentConfirmed (this : BillingServiceInstance) (tenantId : string)
    (paymentDate : JsDate) : Async unit :=
  SubscriptionService.handlePaymentConfirmed tenantId paymentDate.

Definition handlePaymentOverdue (this : BillingServiceInstance) (tenantId : string)
    (daysOverdue : JsNumber) : Async unit :=
  SubscriptionService.handlePaymentOverdue (subscriptionService this) tenantId daysOverdue.

(** The three read-only methods below only read the store. *)
Definition getTenantBillingData (st : Store) (tenantId : string) : option TenantBillingData :=
  st !! tenantId.

Definition isTenantInGoodStanding (st : Store) (tenantId : string) : bool :=
  match st !! tenantId with
  | None => false
  | Some billing =>
      let goodStandingStatuses := [ACTIVE; TRIAL] in
      includes goodStandingStatuses (billingStatus billing)
  end.

Definition hasTenantLimitedAccess (st : Store) (tenantId : string) : bool :=
  match st !! tenantId with
  | None => false
  | Some billing =>
      let limitedAccessStatuses := [OVERDUE; PENDING_PAYMENT] in
      includes limitedAccessStatuses (billingStatus billing)
  end.

End BillingService.

(** ** webhook-handler.ts *)

Record WebhookHandlerConfig : Type := mkWebhookHandlerConfig {
  billingService : BillingServiceInstance;
  getTenantByCustomerId : Store -> string -> option TenantBillingData;
  getTenantBySubscriptionId : Store -> string -> option TenantBillingData;
  webhookAccessToken : option string;
  daysUntilOverdueStatus : option JsNumber
}.

Record WebhookProcessingResult : Type := mkResult {
  success : bool;
  eventType : string;
  tenantId : option string;
  action : option string;
  error : option string
}.

Module WebhookHandler.

(** The constructor: [daysUntilOverdueStatus: config.daysUntilOverdueStatus ?? 1]. *)
Definition createWebhookHandler (config : WebhookHandlerConfig) : WebhookHandlerConfig :=
  mkWebhookHandlerConfig (billingService config) (getTenantByCustomerId config)
    (getTenantBySubscriptionId config) (webhookAccessToken config)
    (Some (nullish (daysUntilOverdueStatus config) (JsNum 1))).

Section Methods.

Variable rt : Runtime.
Variable this : WebhookHandlerConfig.

Definition validateAccessToken (token : option string) : bool :=
  if negb (truthy (webhookAccessToken this)) then true
  else bool_decide (token = webhookAccessToken this).

(** The two lookup callbacks read the store. *)
Definition lookupBySubscriptionId (subscriptionId : string) : Async (option TenantBillingData) :=
  fun st => (st, inr (getTenantBySubscriptionId this st subscriptionId)).

Definition lookupByCustomerId (customerId : string) : Async (option TenantBillingData) :=
  fun st => (st, inr (getTenantByCustomerId this st customerId)).

Definition handlePaymentCreated (tenant : TenantBillingData) (payment : AsaasPaymentPayload)
    : Async WebhookProcessingResult :=
  resolve (mkResult true "PAYMENT_CREATED" (Some (tenant_id tenant))
             (Some "payment_registered") None).

Definition handlePaymentConfirmed (tenant : TenantBillingData) (payment : AsaasPaymentPayload)
    : Async WebhookProcessingResult :=
  let paymentDate :=
    if truthy (payment_confirmedDate payment)
    then Date_parse rt (nullish (payment_confirmedDate payment) "")
    else JsNum (Date_now rt) in
  BillingService.handlePaymentConfirmed (billingService this) (tenant_id tenant) paymentDate ;;;
  resolve (mkResult true "PAYMENT_CONFIRMED" (Some (tenant_id tenant))
             (Some "tenant_activated") None).

Definition handlePaymentOverdue (tenant : TenantBillingData) (payment : AsaasPaymentPayload)
    : Async WebhookProcessingResult :=
  let dueDate := Date_parse rt (payment_dueDate payment) in
  let now := JsNum (Date_now rt) in
  let daysOverdue :=
    js_max0 (js_floor_div (js_sub now dueDate) (1000 * 60 * 60 * 24)) in
  BillingService.handlePaymentOverdue (billingService this) (tenant_id tenant) daysOverdue ;;;
  resolve (mkResult true "PAYMENT_OVERDUE" (Some (tenant_id tenant))
             (Some (if js_geb daysOverdue (nullish (daysUntilOverdueStatus this) (JsNum 1))
                    then "tenant_overdue" else "overdue_warning"))
             None).

Definition handlePaymentRefunded (tenant : TenantBillingData) (payment : AsaasPaymentPayload)
    : Async WebhookProcessingResult :=
  resolve (mkResult true "PAYMENT_REFUNDED" (Some (tenant_id tenant))
             (Some "refund_registered") None).

Definition handleSubscriptionActivated (tenant : TenantBillingData)
    (_subscription : AsaasSubscriptionPayload) : Async WebhookProcessingResult :=
  BillingService.syncSubscriptionStatus rt (billingService this) (tenant_id tenant) ;;;
  resolve (mkResult true "SUBSCRIPTION_ACTIVATED" (Some (tenant_id tenant))
             (Some "subscription_synced") None).

Definition handleSubscriptionCanceled (tenant : TenantBillingData)
    (_subscription : AsaasSubscriptionPayload) : Async WebhookProcessingResult :=
  try_catch
    (BillingService.cancelSubscription (billingService this) (tenant_id tenant))
    (fun _ =>
       BillingService.syncSubscriptionStatus rt (billingService this) (tenant_id tenant) ;;;
       resolve tt) ;;;
  resolve (mkResult true "SUBSCRIPTION_CANCELED" (Some (tenant_id tenant))
             (Some "tenant_canceled") None).

Definition handleSubscriptionUpdated (tenant : TenantBillingData)
    (_subscription : AsaasSubscriptionPayload) : Async WebhookProcessingResult :=
  BillingService.syncSubscriptionStatus rt (billingService this) (tenant_id tenant) ;;;
  resolve (mkResult true "SUBSCRIPTION_UPDATED" (Some (tenant_id tenant))
             (Some "subscription_updated") None).

Definition handlePaymentEvent (eventType : string) (payment : option AsaasPaymentPayload)
    : Async WebhookProcessingResult :=
  match payment with
  | None =>
      throw (WebhookInvalidError "Payment payload is required for payment events"
               (Some eventType))
  | Some payment =>
      tenant <-
        (if truthy (payment_subscription payment)
         then lookupBySubscriptionId (nullish (payment_subscription payment) "")
         else resolve None) ;;
      tenant <-
        (match tenant with
         | None => lookupByCustomerId (payment_customer payment)
         | Some _ => resolve tenant
         end) ;;
      match tenant with
      | None => resolve (mkResult true eventType None (Some "tenant_not_found") None)
      | Some tenant =>
          if String.eqb eventType "PAYMENT_CREATED" then handlePaymentCreated tenant payment
          else if String.eqb eventType "PAYMENT_CONFIRMED"
                  || String.eqb eventType "PAYMENT_RECEIVED"
               then handlePaymentConfirmed tenant payment
          else if String.eqb eventType "PAYMENT_OVERDUE" then handlePaymentOverdue tenant payment
          else if String.eqb eventType "PAYMENT_REFUNDED" then handlePaymentRefunded tenant payment
          else resolve (mkResult true eventType (Some (tenant_id tenant))
                          (Some "payment_event_ignored") None)
      end
  end.

Definition handleSubscriptionEvent (eventType : string)
    (subscription : option AsaasSubscriptionPayload) : Async WebhookProcessingResult :=
  match subscription with
  | None =>
      throw (WebhookInvalidError "Subscription payload is required for subscription events"
               (Some eventType))
  | Some subscription =>
      tenant <- lookupBySubscriptionId (subscription_id subscription) ;;
      tenant <-
        (match tenant with
         | None => lookupByCustomerId (subscription_customer subscription)
         | Some _ => resolve tenant
         end) ;;
      match tenant with
      | None => resolve (mkResult true eventType None (Some "tenant_not_found") None)
      | Some tenant =>
          if String.eqb eventType "SUBSCRIPTION_ACTIVATED"
          then handleSubscriptionActivated tenant subscription
          else if String.eqb eventType "SUBSCRIPTION_CANCELED"
          then handleSubscriptionCanceled tenant subscription
          else if String.eqb eventType "SUBSCRIPTION_UPDATED"
                  || String.eqb eventType "SUBSCRIPTION_RENEWED"
               then handleSubscriptionUpdated tenant subscription
          else resolve (mkResult true eventType (Some (tenant_id tenant))
                          (Some "subscription_event_ignored") None)
      end
  end.

(** The [try] block of [handleEvent]. *)
Definition handleEvent_try (event0 : AsaasWebhookEvent) (accessToken : option string)
    : Async WebhookProcessingResult :=
  if negb (validateAccessToken accessToken) then
    throw (WebhookInvalidError "Invalid webhook access token" None)
  else if negb (isAsaasEventType (event event0)) then
    throw (WebhookInvalidError (String.append "Unknown event type: " (event event0))
             (Some (event event0)))
  else if isPaymentEvent (event event0) then
    handlePaymentEvent (event event0) (payment event0)
  else if isSubscriptionEvent (event event0) then
    handleSubscriptionEvent (event event0) (subscription event0)
  else resolve (mkResult true (event event0) None (Some "ignored") None).

(** [handleEvent] never throws: the [catch] turns every error into a
    result. *)
Definition handleEvent (event0 : AsaasWebhookEvent) (accessToken : option string)
    (st : Store) : Store * WebhookProcessingResult :=
  match handleEvent_try event0 accessToken st with
  | (st', inr result) => (st', result)
  | (st', inl error0) =>
      (st', mkResult false (event event0) None None (Some (error_message error0)))
  end.

End Methods.

End WebhookHandler.

(** ** billing-enforcer.ts *)

Record BillingContext : Type := mkBillingContext {
  ctx_tenantId : string;
  ctx_billingStatus : BillingStatus;
  ctx_subscriptionActive : bool;
  ctx_inTrial : bool;
  ctx_isOverdue : bool;
  ctx_isSuspended : bool;
  ctx_daysOverdue : option JsNumber
}.

Record BillingEnforcerConfig : Type := mkBillingEnforcerConfig {
  throwOnDenial : option bool
}.

(** The [BillingStatusInvalidError] thrown on a denial, with the three
    arguments it is built from. *)
Record BillingDenial : Type := mkBillingDenial {
  denial_currentStatus : BillingStatus;
  denial_message : string;
  denial_requiredStatus : option (list BillingStatus)
}.

(** The argument of an ABAC policy function: [{ tenant_id?: string }]. *)
Record PolicyUser : Type := mkPolicyUser {
  user_tenant_id : option string
}.

Module BillingEnforcer.

(** [billing.subscriptionMetadata?.daysOverdue]. *)
Definition metadata_daysOverdue (billing : TenantBillingData) : option JsNumber :=
  match subscriptionMetadata billing with
  | Some m => daysOverdue m
  | None => None
  end.

(** The body of [getBillingContext] once the record is read. *)
Definition contextOf (billing : TenantBillingData) : BillingContext :=
  let context :=
    mkBillingContext (tenant_id billing) (billingStatus billing)
      (hasFullAccess (billingStatus billing))
      (bool_decide (billingStatus billing = TRIAL))
      (bool_decide (billingStatus billing = OVERDUE))
      (bool_decide (billingStatus billing = SUSPENDED)
       || bool_decide (billingStatus billing = CANCELED))
      None in
  match metadata_daysOverdue billing with
  | Some d =>
      mkBillingContext (ctx_tenantId context) (ctx_billingStatus context)
        (ctx_subscriptionActive context) (ctx_inTrial context) (ctx_isOverdue context)
        (ctx_isSuspended context) (Some d)
  | None => context
  end.

Definition getBillingContext (st : Store) (tenantId : string) : option BillingContext :=
  match st !! tenantId with
  | None => None
  | Some billing => Some (contextOf billing)
  end.

(** The constructor: [throwOnDenial: config.throwOnDenial ?? true]. *)
Definition createBillingEnforcer (config : BillingEnforcerConfig) : BillingEnforcerConfig :=
  mkBillingEnforcerConfig (Some (nullish (throwOnDenial config) true)).

Section Methods.

Variable this : BillingEnforcerConfig.

(** [if (this.config.throwOnDenial) throw ...; return false]. *)
Definition handleDenial (currentStatus : BillingStatus) (message : string)
    (requiredStatus : option (list BillingStatus)) : BillingDenial + bool :=
  match throwOnDenial this with
  | Some true => inl (mkBillingDenial currentStatus message requiredStatus)
  | _ => inr false
  end.

Definition requireActive (st : Store) (tenantId : string) : BillingDenial + bool :=
  match st !! tenantId with
  | None => handleDenial CANCELED "Tenant not found" (Some [ACTIVE])
  | Some billing =>
      if negb (hasFullAccess (billingStatus billing)) then
        handleDenial (billingStatus billing)
          (String.append "Tenant billing status is '"
             (String.append (BillingStatus_value (billingStatus billing))
                "', but 'active' or 'trial' is required"))
          (Some [ACTIVE; TRIAL])
      else inr true
  end.

Definition inTrial (st : Store) (tenantId : string) : bool :=
  match st !! tenantId with
  | Some billing => bool_decide (billingStatus billing = TRIAL)
  | None => false
  end.

Definition requireAnyAccess (st : Store) (tenantId : string) : BillingDenial + bool :=
  match st !! tenantId with
  | None =>
      handleDenial CANCELED "Tenant not found"
        (Some [ACTIVE; TRIAL; OVERDUE; PENDING_PAYMENT])
  | Some billing =>
      if negb (hasAnyAccess (billingStatus billing)) then
        handleDenial (billingStatus billing)
          (String.append "Tenant access is denied due to billing status '"
             (String.append (BillingStatus_value (billingStatus billing)) "'"))
          (Some [ACTIVE; TRIAL; OVERDUE; PENDING_PAYMENT])
      else inr true
  end.

Definition hasLimitedAccessOnly (st : Store) (tenantId : string) : bool :=
  match st !! tenantId with
  | Some billing => hasLimitedAccess (billingStatus billing)
  | None => false
  end.

Definition isSuspendedOrCanceled (st : Store) (tenantId : string) : bool :=
  match st !! tenantId with
  | None => true
  | Some billing =>
      bool_decide (billingStatus billing = SUSPENDED)
      || bool_decide (billingStatus billing = CANCELED)
  end.

Definition getBillingStatus (st : Store) (tenantId : string) : option BillingStatus :=
  match st !! tenantId with
  | Some billing => Some (billingStatus billing)
  | None => None
  end.

End Methods.

(** The static policy factories, over the store read by the callback. *)
Definition createActiveBillingPolicy (st : Store) (user : PolicyUser) : bool :=
  if negb (truthy (user_tenant_id user)) then false
  else
    match st !! nullish (user_tenant_id user) "" with
    | Some billing => hasFullAccess (billingStatus billing)
    | None => false
    end.

Definition createAnyAccessBillingPolicy (st : Store) (user : PolicyUser) : bool :=
  if negb (truthy (user_tenant_id user)) then false
  else
    match st !! nullish (user_tenant_id user) "" with
    | Some billing => hasAnyAccess (billingStatus billing)
    | None => false
    end.

Definition createTrialBillingPolicy (st : Store) (user : PolicyUser) : bool :=
  if negb (truthy (user_tenant_id user)) then false
  else
    match st !! nullish (user_tenant_id user) "" with
    | Some billing => bool_decide (billingStatus billing = TRIAL)
    | None => false
    end.

End BillingEnforcer.

(** ** utils/dates.ts

    The functions that compute with time values; those that go through
    the local calendar or the locale ([addDays], [startOfDay],
    [formatDate], ...) are not embedded.  A number given as a date is an
    integer or NaN: a fractional number, which [new Date] truncates, is
    outside this model. *)

Module Dates.

(** [string | number | Date]. *)
Inductive DateInput : Type :=
| InDate (d : JsDate)
| InNumber (n : JsNumber)
| InString (s : string).

Section Functions.

Variable rt : Runtime.

(** [Date.now()]. *)
Definition now : JsNumber := JsNum (Date_now rt).

(** [Math.floor(Date.now() / 1000)]. *)
Definition nowSeconds : JsNumber := js_floor_div (JsNum (Date_now rt)) 1000.

Definition parseDate (value : DateInput) : JsDate :=
  match value with
  | InDate d => d
  | InNumber n =>
      if js_ltb n (JsNum 1000000000000) then Date_of_number (js_mul_const n 1000)
      else Date_of_number n
  | InString s => Date_parse rt s
  end.

Definition isPast (date : DateInput) : bool := js_ltb (parseDate date) now.

Definition isFuture (date : DateInput) : bool := js_gtb (parseDate date) now.

Definition diffInDays (date1 date2 : DateInput) : JsNumber :=
  let d1 := parseDate date1 in
  let d2 := parseDate date2 in
  let diffMs := js_abs (js_sub_double d1 d2) in
  js_floor_div diffMs (1000 * 60 * 60 * 24).

Definition diffInHours (date1 date2 : DateInput) : JsNumber :=
  let d1 := parseDate date1 in
  let d2 := parseDate date2 in
  let diffMs := js_abs (js_sub_double d1 d2) in
  js_floor_div diffMs (1000 * 60 * 60).

Definition diffInMinutes (date1 date2 : DateInput) : JsNumber :=
  let d1 := parseDate date1 in
  let d2 := parseDate date2 in
  let diffMs := js_abs (js_sub_double d1 d2) in
  js_floor_div diffMs (1000 * 60).

(** [`${n} unit${n === 1 ? '' : 's'} ago`]. *)
Definition ago (n : JsNumber) (unit : string) : string :=
  String.append (js_toString n)
    (String.append " "
       (String.append unit
          (String.append (if js_eqb_const n 1 then "" else "s") " ago"))).

Definition formatRelative (date : DateInput) : string :=
  let d := parseDate date in
  let nowMs := now in
  let diffMs := js_sub nowMs d in
  let diffSec := js_floor_div diffMs 1000 in
  let diffMin := js_floor_div diffSec 60 in
  let diffHour := js_floor_div diffMin 60 in
  let diffDay := js_floor_div diffHour 24 in
  let diffWeek := js_floor_div diffDay 7 in
  let diffMonth := js_floor_div diffDay 30 in
  let diffYear := js_floor_div diffDay 365 in
  if js_ltb diffSec (JsNum 60) then "just now"
  else if js_ltb diffMin (JsNum 60) then ago diffMin "minute"
  else if js_ltb diffHour (JsNum 24) then ago diffHour "hour"
  else if js_ltb diffDay (JsNum 7) then ago diffDay "day"
  else if js_ltb diffWeek (JsNum 4) then ago diffWeek "week"
  else if js_ltb diffMonth (JsNum 12) then ago diffMonth "month"
  else ago diffYear "year".

End Functions.

End Dates.

(** ** The webhook ledger: migration 008 and the ingestion routine *)

Module Ledger.

(** [CREATE TYPE webhook_status AS ENUM (...)]. *)
Inductive webhook_status : Type :=
| pending
| processing
| processed
| failed
| ignored.

#[global] Instance webhook_status_eq_dec : EqDecision webhook_status.
Proof. solve_decision. Defined.

(** A row of [webhook_events]; [None] is SQL NULL.  The generated
    columns ([id], [created_at], [updated_at]) are left out: a row is
    identified by its position in the table, which stands for its
    primary key (rows are never deleted). *)
Record webhook_event (P : Type) : Type := mkRow {
  source : string;
  external_id : option string;
  event_type : string;
  payload : P;
  status : webhook_status;
  attempts : Z;
  max_attempts : Z;
  processed_at : option Z;
  error_message : option string;
  result : option string;
  ledger_tenant_id : option string
}.

Arguments mkRow {P}.
Arguments source {P}.
Arguments external_id {P}.
Arguments event_type {P}.
Arguments payload {P}.
Arguments status {P}.
Arguments attempts {P}.
Arguments max_attempts {P}.
Arguments processed_at {P}.
Arguments error_message {P}.
Arguments result {P}.
Arguments ledger_tenant_id {P}.

Section Table.

Context {P : Type}.

(** Two rows collide under
    [CONSTRAINT unique_external_event UNIQUE (source, external_id)]:
    equal sources and equal, non-NULL external ids (NULLs never
    collide). *)
Definition collides (src : string) (eid : option string) (r : webhook_event P) : bool :=
  match eid, external_id r with
  | Some e, Some e' => String.eqb src (source r) && String.eqb e e'
  | _, _ => false
  end.

(** Two rows with the same [(source, external_id)]. *)
Definition same_key (r r' : webhook_event P) : Prop :=
  source r = source r' /\ external_id r = external_id r'.

(** The constraint, as a property of the whole table. *)
Fixpoint unique_external_event (t : list (webhook_event P)) : Prop :=
  match t with
  | [] => True
  | r :: rest =>
      existsb (collides (source r) (external_id r)) rest = false
      /\ unique_external_event rest
  end.

(** [INSERT INTO webhook_events (...)] with the column defaults
    [status = 'pending'], [attempts = 0], [max_attempts = 3]; the
    statement is rejected when the constraint would be violated. *)
Definition new_row (src : string) (eid : option string) (ty : string) (p : P)
    : webhook_event P :=
  mkRow src eid ty p pending 0 3 None None None None.

Definition insert_row (r : webhook_event P) (t : list (webhook_event P))
    : option (list (webhook_event P)) :=
  if existsb (collides (source r) (external_id r)) t then None
  else Some (t ++ [r])%list.

(** [SELECT ... WHERE source = src AND external_id = eid]: position and
    row of the first match; an absent [eid] matches nothing. *)
Fixpoint find_from (i : nat) (src : string) (eid : option string)
    (t : list (webhook_event P)) : option (nat * webhook_event P) :=
  match t with
  | [] => None
  | r :: rest =>
      if collides src eid r then Some (i, r) else find_from (S i) src eid rest
  end.

Definition find_existing (src : string) (eid : option string)
    (t : list (webhook_event P)) : option (nat * webhook_event P) :=
  find_from 0%nat src eid t.

(** Number of rows stored for [(src, eid)]. *)
Definition count_rows (src eid : string) (t : list (webhook_event P)) : nat :=
  length (filter (fun r => collides src (Some eid) r = true) t).

Definition with_status (s : webhook_status) (r : webhook_event P) : webhook_event P :=
  mkRow (source r) (external_id r) (event_type r) (payload r) s (attempts r)
    (max_attempts r) (processed_at r) (error_message r) (result r) (ledger_tenant_id r).

Definition start_attempt (r : webhook_event P) : webhook_event P :=
  mkRow (source r) (external_id r) (event_type r) (payload r) processing
    (attempts r + 1) (max_attempts r) (processed_at r) (error_message r) (result r)
    (ledger_tenant_id r).

Definition mark_processed (now : Z) (res : string) (r : webhook_event P) : webhook_event P :=
  mkRow (source r) (external_id r) (event_type r) (payload r) processed (attempts r)
    (max_attempts r) (Some now) (error_message r) (Some res) (ledger_tenant_id r).

Definition mark_failed (err : string) (r : webhook_event P) : webhook_event P :=
  mkRow (source r) (external_id r) (event_type r) (payload r) failed (attempts r)
    (max_attempts r) (processed_at r) (Some err) (result r) (ledger_tenant_id r).

Section Ingestion.

(** The state the handler acts on, and the handler: it returns the
    new state with a result, or with an error message. *)
Context {W : Type}.
Variable handler : string -> P -> W -> W * (string + string).

(** Modelled from the spec: the eligibility rule of section 4.2; no
    ingestion code is in the repository, only the table is. *)
Definition eligible (r : webhook_event P) : bool :=
  (bool_decide (status r = pending) || bool_decide (status r = processing)
   || bool_decide (status r = failed))
  && (attempts r <? max_attempts r).

(** Modelled from the spec: one processing attempt of section 4.2 on
    the row at position [i] (increment [attempts], set [processing],
    run the handler, then [processed] on success, [failed] once the
    attempts are exhausted, [pending] otherwise). *)
Definition process_attempt (now : Z) (i : nat) (r : webhook_event P)
    (t : list (webhook_event P)) (w : W)
    : list (webhook_event P) * W * webhook_event P :=
  let r1 := start_attempt r in
  let t1 := <[i := r1]> t in
  match handler (event_type r1) (payload r1) w with
  | (w', inr res) =>
      let r2 := mark_processed now res r1 in
      (<[i := r2]> t1, w', r2)
  | (w', inl err) =>
      let r2 :=
        if max_attempts r1 <=? attempts r1 then mark_failed err r1
        else with_status pending r1 in
      (<[i := r2]> t1, w', r2)
  end.

(** Modelled from the spec: [ingest] of section 4.2 followed by the
    processing attempt it makes the record eligible for.  An existing
    [processed] or [ignored] record is returned unchanged; an
    existing record that is not eligible is returned unchanged as
    well; a new record is inserted as [pending] and processed. *)
Definition deliver (now : Z) (src : string) (eid : option string) (ty : string)
    (p : P) (t : list (webhook_event P)) (w : W)
    : list (webhook_event P) * W * webhook_event P :=
  match find_existing src eid t with
  | Some (i, r) =>
      if bool_decide (status r = processed) || bool_decide (status r = ignored)
      then (t, w, r)
      else if eligible r then process_attempt now i r t w
      else (t, w, r)
  | None =>
      let r := new_row src eid ty p in
      match insert_row r t with
      | Some t' => process_attempt now (length t) r t' w
      | None => (t, w, r)
      end
  end.

(** Modelled from the spec: successive deliveries of one webhook, that
    is, with the same identifiers, each at its own time and with the event
    type and payload presented then. *)
Fixpoint deliver_all (src : string) (eid : option string) (ds : list (Z * string * P))
    (t : list (webhook_event P)) (w : W) : list (webhook_event P) * W :=
  match ds with
  | [] => (t, w)
  | (now, ty, p) :: rest =>
      let '(t', w', _) := deliver now src eid ty p t w in
      deliver_all src eid rest t' w'
  end.

(** A handler whose failures leave its state as it was. *)
Definition handler_fail_safe : Prop :=
  forall ty p w w' err, handler ty p w = (w', inl err) -> w' = w.

End Ingestion.

End Table.

End Ledger.

(** Modelled from the spec: the handler the ledger runs is the dispatcher
    (section 4.3) on the stored payload; an attempt succeeds when the
    result has [success = true], recording the action, and fails with the
    error message otherwise. *)
Definition ledger_handleEvent (rt : Runtime) (this : WebhookHandlerConfig)
    (accessToken : option string) (ty : string) (ev : AsaasWebhookEvent) (st : Store)
    : Store * (string + string) :=
  let '(st', result) := WebhookHandler.handleEvent rt this ev accessToken st in
  (st', if success result then inr (nullish (action result) "")
        else inl (nullish (error result) "")).

(** * Notions of the specification used in the statements *)

(** The adjacency table in the words of the specification: the row of
    statuses reachable from each status. *)
Definition spec_adjacency (from : BillingStatus) : list BillingStatus :=
  match from with
  | TRIAL => [ACTIVE; PENDING_PAYMENT; CANCELED]
  | PENDING_PAYMENT => [ACTIVE; OVERDUE; CANCELED]
  | ACTIVE => [OVERDUE; CANCELED]
  | OVERDUE => [ACTIVE; SUSPENDED; CANCELED]
  | SUSPENDED => [ACTIVE; CANCELED]
  | CANCELED => []
  end.

(** Milliseconds in a day. *)
Definition day_ms : Z := 86400000.

(** [q = floor(x / day)]: the integer with [q * day <= x < (q + 1) * day]. *)
Definition is_floor_days (x q : Z) : Prop :=
  q * day_ms <= x < (q + 1) * day_ms.

(** [daysOverdue = max(0, floor((now - dueDate) / day))]; the arithmetic
    gives NaN when the due date is not a valid date. *)
Inductive spec_daysOverdue (now : Z) : JsDate -> JsNumber -> Prop :=
| daysOverdue_valid (due q : Z) :
    is_floor_days (now - due) q ->
    spec_daysOverdue now (JsNum due) (JsNum (Z.max 0 q))
| daysOverdue_invalid :
    spec_daysOverdue now JsNaN JsNaN.

(** The suspension threshold: the configured one, 15 by default. *)
Definition spec_threshold (configured : option JsNumber) (thr : JsNumber) : Prop :=
  configured = Some thr \/ (configured = None /\ thr = JsNum 15).

(** The target of a PAYMENT_OVERDUE event: [suspended] when
    [daysOverdue >= threshold], [overdue] otherwise (a NaN on either side
    makes the comparison false). *)
Definition spec_target (d thr : JsNumber) (target : BillingStatus) : Prop :=
  match d, thr with
  | JsNum x, JsNum y => (y <= x /\ target = SUSPENDED) \/ (x < y /\ target = OVERDUE)
  | _, _ => target = OVERDUE
  end.

(** The access token is refused: one is configured and the presented one
    differs from it (or is missing). *)
Definition token_mismatch (this : WebhookHandlerConfig) (accessToken : option string) : Prop :=
  exists t, webhookAccessToken this = Some t /\ t <> "" /\ accessToken <> Some t.

(** The access token is accepted: none is configured, or the presented
    one is the configured one. *)
Definition token_accepted (this : WebhookHandlerConfig) (accessToken : option string) : Prop :=
  webhookAccessToken this = None \/ webhookAccessToken this = Some ""
  \/ accessToken = webhookAccessToken this.

(** A payment event resolves to [tenant]: by the payment's subscription
    id when it has one and a tenant is found for it, by its customer id
    otherwise. *)
Definition payment_resolves (this : WebhookHandlerConfig) (st : Store)
    (pay : AsaasPaymentPayload) (tenant : TenantBillingData) : Prop :=
  (exists sub, payment_subscription pay = Some sub /\ sub <> ""
               /\ getTenantBySubscriptionId this st sub = Some tenant)
  \/ ((payment_subscription pay = None \/ payment_subscription pay = Some ""
       \/ exists sub, payment_subscription pay = Some sub
                      /\ getTenantBySubscriptionId this st sub = None)
      /\ getTenantByCustomerId this st (payment_customer pay) = Some tenant).

(** A subscription event resolves to [tenant]: by the subscription id
    when a tenant is found for it, by the customer id otherwise. *)
Definition subscription_resolves (this : WebhookHandlerConfig) (st : Store)
    (sub : AsaasSubscriptionPayload) (tenant : TenantBillingData) : Prop :=
  getTenantBySubscriptionId this st (subscription_id sub) = Some tenant
  \/ (getTenantBySubscriptionId this st (subscription_id sub) = None
      /\ getTenantByCustomerId this st (subscription_customer sub) = Some tenant).

(** The sync of a tenant that is already [canceled] goes through: the
    tenant has no subscription id, or the remote snapshot is fetched and
    does not ask for another status (it is deleted, or its status is
    neither ACTIVE nor INACTIVE). *)
Definition sync_keeps_canceled (client : AsaasClient) (tb : TenantBillingData) : Prop :=
  asaasSubscriptionId tb = None \/ asaasSubscriptionId tb = Some ""
  \/ exists sid snapshot,
       asaasSubscriptionId tb = Some sid
       /\ client_getSubscription client sid = inr snapshot
       /\ (remote_deleted snapshot = true
           \/ (remote_status snapshot <> "ACTIVE" /\ remote_status snapshot <> "INACTIVE")).

(** The stored record of a tenant with another status and metadata. *)
Definition with_status_metadata (s : BillingStatus) (m : option SubscriptionMetadata)
    (t : TenantBillingData) : TenantBillingData :=
  mkTenant (tenant_id t) (asaasCustomerId t) (asaasSubscriptionId t) s m.

(** The [daysOverdue] stored for a tenant, if any. *)
Definition stored_daysOverdue (st : Store) (tenantId : string) : option JsNumber :=
  match st !! tenantId with
  | Some t => subscriptionMetadata t ≫= daysOverdue
  | None => None
  end.

(** The status stored for a tenant, if any. *)
Definition stored_status (st : Store) (tenantId : string) : option BillingStatus :=
  billingStatus <$> st !! tenantId.

(** Every stored tenant keeps its status or has made one transition of
    the adjacency table. *)
Definition legal_step (st st' : Store) : Prop :=
  forall id s,
    stored_status st id = Some s ->
    exists s', stored_status st' id = Some s' /\ (s' = s \/ isValidTransition s s' = true).

(** The outcome of a computation started in [st]: a throw has left the
    store as it was; a return has moved every tenant by at most one
    transition and its value satisfies [ok]. *)
Definition outcome_ok {A : Type} (ok : A -> Prop) (st : Store)
    (out : Store * (BillingError + A)) : Prop :=
  match out with
  | (st', inl _) => st' = st
  | (st', inr a) => legal_step st st' /\ ok a
  end.

(** No tenant is found for a payment: neither by its subscription id,
    when it has one, nor by its customer id. *)
Definition payment_unresolved (this : WebhookHandlerConfig) (st : Store)
    (pay : AsaasPaymentPayload) : Prop :=
  (forall sub, payment_subscription pay = Some sub -> sub <> "" ->
               getTenantBySubscriptionId this st sub = None)
  /\ getTenantByCustomerId this st (payment_customer pay) = None.

(** No tenant is found for a subscription: neither by its id nor by its
    customer id. *)
Definition subscription_unresolved (this : WebhookHandlerConfig) (st : Store)
    (sub : AsaasSubscriptionPayload) : Prop :=
  getTenantBySubscriptionId this st (subscription_id sub) = None
  /\ getTenantByCustomerId this st (subscription_customer sub) = None.

(** The [switch] of [handlePaymentEvent] on the tenant it has found. *)
Definition payment_switch (rt : Runtime) (this : WebhookHandlerConfig) (eventType : string)
    (tenant : TenantBillingData) (pay : AsaasPaymentPayload) : Async WebhookProcessingResult :=
  if String.eqb eventType "PAYMENT_CREATED"
  then WebhookHandler.handlePaymentCreated tenant pay
  else if String.eqb eventType "PAYMENT_CONFIRMED" || String.eqb eventType "PAYMENT_RECEIVED"
  then WebhookHandler.handlePaymentConfirmed rt this tenant pay
  else if String.eqb eventType "PAYMENT_OVERDUE"
  then WebhookHandler.handlePaymentOverdue rt this tenant pay
  else if String.eqb eventType "PAYMENT_REFUNDED"
  then WebhookHandler.handlePaymentRefunded tenant pay
  else resolve (mkResult true eventType (Some (tenant_id tenant))
                  (Some "payment_event_ignored") None).

(** The [switch] of [handleSubscriptionEvent] on the tenant it has found. *)
Definition subscription_switch (rt : Runtime) (this : WebhookHandlerConfig)
    (eventType : string) (tenant : TenantBillingData) (sub : AsaasSubscriptionPayload)
    : Async WebhookProcessingResult :=
  if String.eqb eventType "SUBSCRIPTION_ACTIVATED"
  then WebhookHandler.handleSubscriptionActivated rt this tenant sub
  else if String.eqb eventType "SUBSCRIPTION_CANCELED"
  then WebhookHandler.handleSubscriptionCanceled rt this tenant sub
  else if String.eqb eventType "SUBSCRIPTION_UPDATED" || String.eqb eventType "SUBSCRIPTION_RENEWED"
  then WebhookHandler.handleSubscriptionUpdated rt this tenant sub
  else resolve (mkResult true eventType (Some (tenant_id tenant))
                  (Some "subscription_event_ignored") None).

(** Two records of one tenant: the tenant id and the ids at the payment
    processor coincide. *)
Definition same_tenant (t t' : TenantBillingData) : Prop :=
  tenant_id t' = tenant_id t
  /\ asaasCustomerId t' = asaasCustomerId t
  /\ asaasSubscriptionId t' = asaasSubscriptionId t.

(** [st'] has the records of [st], for the same tenants. *)
Definition same_tenants (st st' : Store) : Prop :=
  forall id,
    match st !! id, st' !! id with
    | Some t, Some t' => same_tenant t t'
    | None, None => True
    | _, _ => False
    end.

(** [st'] is [st] except, at most, for the status and the metadata of
    tenant [id]. *)
Definition touches_only (id : string) (st st' : Store) : Prop :=
  same_tenants st st' /\ forall id', id' <> id -> st' !! id' = st !! id'.

(** A computation that, from every store, touches tenant [id] only. *)
Definition touches {A : Type} (id : string) (c : Async A) : Prop :=
  forall st, touches_only id st (c st).1.

(** The store after a sequence of deliveries to one handler, each with
    its clock, event and presented token. *)
Definition after_events (this : WebhookHandlerConfig)
    (deliveries : list (Runtime * AsaasWebhookEvent * option string)) (st : Store) : Store :=
  fold_left (fun st d => (WebhookHandler.handleEvent d.1.1 this d.1.2 d.2 st).1) deliveries st.

(** The lookups of the handler find, for the objects of [ev], the same
    tenant in [st'] as in [st]. *)
Definition resolves_alike (this : WebhookHandlerConfig) (ev : AsaasWebhookEvent)
    (st st' : Store) : Prop :=
  (forall pay tenant,
     payment ev = Some pay -> payment_resolves this st pay tenant ->
     exists tenant', payment_resolves this st' pay tenant' /\ tenant_id tenant' = tenant_id tenant)
  /\ (forall sub tenant,
        subscription ev = Some sub -> subscription_resolves this st sub tenant ->
        exists tenant',
          subscription_resolves this st' sub tenant' /\ tenant_id tenant' = tenant_id tenant).

(** ** A concrete tenant, configuration and events *)

Definition example_metadata : SubscriptionMetadata :=
  mkMetadata "pro" "Pro" 9900 "BRL" MONTHLY None None None (Some (JsNum 10)) [].

Definition example_tenant (s : BillingStatus) : TenantBillingData :=
  mkTenant "tenant-1" (Some "cus_1") (Some "sub_1") s (Some example_metadata).

Definition example_store (s : BillingStatus) : Store :=
  {[ "tenant-1" := example_tenant s ]}.

(** A client whose snapshots carry the given status and are not deleted. *)
Definition example_client (remote : string) : AsaasClient :=
  mkClient (fun _ => inr (mkSubscription remote false None)) (fun _ => inr tt).

(** A handler without access token and with the default thresholds, over
    lookups that find [tenant-1] by its subscription and customer ids. *)
Definition example_handler (remote : string) : WebhookHandlerConfig :=
  WebhookHandler.createWebhookHandler
    (mkWebhookHandlerConfig
       (BillingService.createBillingService (mkBillingServiceConfig (example_client remote) None))
       (fun st customerId => if String.eqb customerId "cus_1" then st !! "tenant-1" else None)
       (fun st subscriptionId => if String.eqb subscriptionId "sub_1" then st !! "tenant-1" else None)
       None None).

(** The clock is 16 days and 5 ms after the due date. *)
Definition example_runtime : Runtime :=
  mkRuntime (16 * day_ms + 5) (fun _ => JsNum 0).

Definition example_payment : AsaasPaymentPayload :=
  mkPayment "pay_1" "cus_1" (Some "sub_1") "1970-01-01" None.

Definition example_subscription : AsaasSubscriptionPayload :=
  mkSubscriptionPayload "sub_1" "cus_1".

Definition example_event (eventType : string) : AsaasWebhookEvent :=
  mkEvent eventType (Some example_payment) (Some example_subscription).

(** Unfolding of the combinators of [Async]. *)
Ltac run_async :=
  unfold await, resolve, throw, external, try_catch, getTenantBilling, updateTenantBilling.

(** * Properties *)

(** ** The state machine *)

Lemma includes_In (row : list BillingStatus) (x : BillingStatus) :
  includes row x = true <-> In x row.
Proof.
  unfold includes. rewrite existsb_exists. split.
  - intros [y [Hy Heq]]. apply bool_decide_eq_true in Heq. now subst.
  - intros Hin. exists x. split; [assumption | now apply bool_decide_eq_true].
Qed.

Lemma transitions_get_row (from : BillingStatus) :
  transitions_get billingStatusTransitions from = Some (spec_adjacency from).
Proof. destruct from; reflexivity. Qed.

(** C1. [isValidTransition from to] is true exactly when [to] is listed in
    the adjacency row of [from]; every pair out of [canceled] and every
    reflexive pair is rejected. *)
Theorem isValidTransition_adjacency (from to : BillingStatus) :
  (isValidTransition from to = true <-> In to (spec_adjacency from))
  /\ isValidTransition CANCELED to = false
  /\ isValidTransition from from = false.
Proof.
  split; [| split].
  - unfold isValidTransition. rewrite transitions_get_row. cbn [option_map nullish].
    apply includes_In.
  - reflexivity.
  - destruct from; reflexivity.
Qed.

(** ** The access projection *)

(** C8. The billing context of a stored record is determined by the
    record's status and metadata: [subscriptionActive] exactly for
    [active] and [trial], [inTrial] exactly for [trial], [isOverdue]
    exactly for [overdue], [isSuspended] exactly for [suspended] and
    [canceled], and [daysOverdue] is the metadata's [daysOverdue] when the
    metadata has one. *)
Theorem getBillingContext_projection (st : Store) (tenantId : string) (billing : TenantBillingData) :
  st !! tenantId = Some billing ->
  exists context,
    BillingEnforcer.getBillingContext st tenantId = Some context
    /\ ctx_billingStatus context = billingStatus billing
    /\ (ctx_subscriptionActive context = true <->
        billingStatus billing = ACTIVE \/ billingStatus billing = TRIAL)
    /\ (ctx_inTrial context = true <-> billingStatus billing = TRIAL)
    /\ (ctx_isOverdue context = true <-> billingStatus billing = OVERDUE)
    /\ (ctx_isSuspended context = true <->
        billingStatus billing = SUSPENDED \/ billingStatus billing = CANCELED)
    /\ ctx_daysOverdue context = (subscriptionMetadata billing ≫= daysOverdue)
    /\ (forall st' tenantId' billing',
          st' !! tenantId' = Some billing' ->
          tenant_id billing' = tenant_id billing ->
          billingStatus billing' = billingStatus billing ->
          subscriptionMetadata billing' = subscriptionMetadata billing ->
          BillingEnforcer.getBillingContext st' tenantId' = Some context).
Proof.
  intros Hget. exists (BillingEnforcer.contextOf billing).
  unfold BillingEnforcer.getBillingContext. rewrite Hget.
  split; [reflexivity |].
  assert (Hctx : forall b,
            BillingEnforcer.contextOf b =
            mkBillingContext (tenant_id b) (billingStatus b) (hasFullAccess (billingStatus b))
              (bool_decide (billingStatus b = TRIAL)) (bool_decide (billingStatus b = OVERDUE))
              (bool_decide (billingStatus b = SUSPENDED) || bool_decide (billingStatus b = CANCELED))
              (subscriptionMetadata b ≫= daysOverdue)).
  { intros [tid cus sub s [m |]]; unfold BillingEnforcer.contextOf,
      BillingEnforcer.metadata_daysOverdue; cbn; [destruct (daysOverdue m) |]; reflexivity. }
  rewrite Hctx. cbn [ctx_billingStatus ctx_subscriptionActive ctx_inTrial ctx_isOverdue
                       ctx_isSuspended ctx_daysOverdue].
  repeat split;
    try (unfold hasFullAccess; destruct (billingStatus billing); cbn;
         intuition (discriminate || reflexivity); fail).
  intros st' tenantId' billing' Hget' Hid Hs Hm.
  rewrite Hget', Hctx, Hid, Hs, Hm. reflexivity.
Qed.

(** ** Running the services on a stored tenant *)

Lemma alter_stored (f : TenantBillingData -> TenantBillingData) (st : Store)
    (id : string) (tb : TenantBillingData) :
  st !! id = Some tb -> alter f id st = <[id := f tb]> st.
Proof.
  intros Hget. rewrite <- (insert_id st id tb Hget) at 1. apply alter_insert_eq.
Qed.

Lemma insert_stored (st : Store) (id : string) (tb tb' : TenantBillingData) :
  st !! id = Some tb -> tb' = tb -> st = <[id := tb']> st.
Proof. intros Hget ->. symmetry. now apply insert_id. Qed.

Lemma daysOverdue_computed (now : Z) (due : JsDate) (d : JsNumber) :
  spec_daysOverdue now due d ->
  js_max0 (js_floor_div (js_sub (JsNum now) due) (1000 * 60 * 60 * 24)) = d.
Proof.
  intros [due' q [Hlo Hhi] |]; cbn; [| reflexivity].
  do 2 f_equal. symmetry.
  apply (Z.div_unique_pos _ _ q (now - due' - q * day_ms)); unfold day_ms in *; lia.
Qed.

Lemma spec_daysOverdue_total (now : Z) (due : JsDate) :
  exists d, spec_daysOverdue now due d.
Proof.
  destruct due as [due |]; [| exists JsNaN; constructor].
  exists (JsNum (Z.max 0 ((now - due) / day_ms))). constructor.
  unfold is_floor_days, day_ms.
  pose proof (Z.div_mod (now - due) 86400000 ltac:(lia)) as Hdm.
  pose proof (Z.mod_pos_bound (now - due) 86400000 ltac:(lia)) as Hb.
  lia.
Qed.

Lemma target_computed (configured : option JsNumber) (d thr : JsNumber) (target : BillingStatus) :
  spec_threshold configured thr ->
  spec_target d thr target ->
  (if js_geb d (nullish configured (JsNum 15)) then SUSPENDED else OVERDUE) = target.
Proof.
  intros Hthr Htarget.
  assert (Hn : nullish configured (JsNum 15) = thr).
  { destruct Hthr as [-> | [-> ->]]; reflexivity. }
  rewrite Hn. unfold spec_target in Htarget.
  destruct d as [x |], thr as [y |]; cbn; try (now symmetry).
  destruct Htarget as [[Hle ->] | [Hlt ->]].
  - now apply Z.leb_le in Hle as ->.
  - now apply Z.leb_gt in Hlt as ->.
Qed.

Lemma service_handlePaymentOverdue_run (this : SubscriptionServiceConfig) (id : string)
    (d : JsNumber) (st : Store) (tb : TenantBillingData) :
  st !! id = Some tb ->
  SubscriptionService.handlePaymentOverdue this id d st =
  let target :=
    if js_geb d (nullish (daysUntilSuspension this) (JsNum 15)) then SUSPENDED else OVERDUE in
  let m' := option_map (set_daysOverdue d) (subscriptionMetadata tb) in
  if bool_decide (billingStatus tb = target) then
    (<[id := with_status_metadata (billingStatus tb) m' tb]> st, inr tt)
  else if isValidTransition (billingStatus tb) target then
    (<[id := with_status_metadata target m' tb]> st, inr tt)
  else (st, inl (InvalidBillingTransitionError (billingStatus tb) target)).
Proof.
  intros Hget. unfold SubscriptionService.handlePaymentOverdue, SubscriptionService.updateBillingStatus.
  run_async. rewrite Hget. cbv zeta.
  set (target := if js_geb d _ then SUSPENDED else OVERDUE).
  destruct (bool_decide (billingStatus tb = target)) eqn:Heq; cbn [negb].
  - destruct tb as [tid cus sub s [m |]]; cbn.
    + now rewrite (alter_stored _ _ _ _ Hget).
    + f_equal. now apply (insert_stored _ _ _ _ Hget).
  - destruct (isValidTransition (billingStatus tb) target) eqn:Hvalid; cbn [negb]; [| reflexivity].
    rewrite (alter_stored _ _ _ _ Hget).
    destruct tb as [tid cus sub s [m |]]; cbn.
    + rewrite (alter_stored _ _ _ _ (lookup_insert_eq _ _ _)). cbn.
      now rewrite insert_insert_eq.
    + reflexivity.
Qed.

Lemma service_handlePaymentConfirmed_run (id : string) (paymentDate : JsDate)
    (st : Store) (tb : TenantBillingData) :
  st !! id = Some tb ->
  SubscriptionService.handlePaymentConfirmed id paymentDate st =
  let m' :=
    option_map (fun m => delete_daysOverdue (set_lastPaymentDate paymentDate m))
      (subscriptionMetadata tb) in
  if bool_decide (billingStatus tb = ACTIVE) || isValidTransition (billingStatus tb) ACTIVE then
    (<[id := with_status_metadata ACTIVE m' tb]> st, inr tt)
  else (st, inl (InvalidBillingTransitionError (billingStatus tb) ACTIVE)).
Proof.
  intros Hget. unfold SubscriptionService.handlePaymentConfirmed, SubscriptionService.updateBillingStatus.
  run_async. rewrite Hget. cbv zeta.
  destruct (bool_decide (billingStatus tb = ACTIVE)) eqn:Heq; cbn [negb orb].
  - apply bool_decide_eq_true in Heq.
    destruct tb as [tid cus sub s [m |]]; cbn in *; subst s.
    + now rewrite (alter_stored _ _ _ _ Hget).
    + f_equal. now apply (insert_stored _ _ _ _ Hget).
  - destruct (isValidTransition (billingStatus tb) ACTIVE) eqn:Hvalid; cbn [negb]; [| reflexivity].
    rewrite (alter_stored _ _ _ _ Hget).
    destruct tb as [tid cus sub s [m |]]; cbn.
    + rewrite (alter_stored _ _ _ _ (lookup_insert_eq _ _ _)). cbn.
      now rewrite insert_insert_eq.
    + reflexivity.
Qed.

(** The metadata a sync stores: the next due date of the snapshot, when
    it has one, replaces [nextBillingDate]. *)
Lemma syncSubscriptionStatus_run (rt : Runtime) (this : SubscriptionServiceConfig) (id : string)
    (st : Store) (tb : TenantBillingData) (snapshot : AsaasSubscriptionResponse) :
  st !! id = Some tb ->
  truthy (asaasSubscriptionId tb) = true ->
  client_getSubscription (asaasClient this) (nullish (asaasSubscriptionId tb) "") = inr snapshot ->
  SubscriptionService.syncSubscriptionStatus rt this id st =
  let newStatus :=
    SubscriptionService.mapAsaasStatusToBillingStatus snapshot (billingStatus tb) in
  let m' :=
    if truthy (remote_nextDueDate snapshot) then
      option_map (set_nextBillingDate (Date_parse rt (nullish (remote_nextDueDate snapshot) "")))
        (subscriptionMetadata tb)
    else subscriptionMetadata tb in
  if bool_decide (newStatus = billingStatus tb) || isValidTransition (billingStatus tb) newStatus
  then (<[id := with_status_metadata newStatus m' tb]> st,
        inr (with_status_metadata newStatus m' tb))
  else (st, inl (InvalidBillingTransitionError (billingStatus tb) newStatus)).
Proof.
  intros Hget Htruthy Hsnapshot.
  unfold SubscriptionService.syncSubscriptionStatus, SubscriptionService.updateBillingStatus.
  unfold await at 1. unfold getTenantBilling. rewrite Hget, Htruthy. cbn [negb].
  unfold await at 1. unfold external. rewrite Hsnapshot. cbv zeta.
  set (newStatus := SubscriptionService.mapAsaasStatusToBillingStatus snapshot (billingStatus tb)).
  unfold await at 1.
  destruct (bool_decide (newStatus = billingStatus tb)) eqn:Heq; cbn [negb orb].
  - apply bool_decide_eq_true in Heq. rewrite Heq. unfold resolve at 1.
    destruct tb as [tid cus sub s [m |]]; cbn in *;
      destruct (truthy (remote_nextDueDate snapshot)); cbn; run_async.
    + now rewrite (alter_stored _ _ _ _ Hget).
    + f_equal. now apply (insert_stored _ _ _ _ Hget).
    + f_equal. now apply (insert_stored _ _ _ _ Hget).
    + f_equal. now apply (insert_stored _ _ _ _ Hget).
  - assert (Hne : bool_decide (billingStatus tb = newStatus) = false).
    { apply bool_decide_eq_false. apply bool_decide_eq_false in Heq. congruence. }
    rewrite Hne.
    destruct (isValidTransition (billingStatus tb) newStatus) eqn:Hvalid; cbn [negb];
      [| reflexivity].
    run_async. rewrite (alter_stored _ _ _ _ Hget).
    destruct tb as [tid cus sub s [m |]]; cbn in *;
      destruct (truthy (remote_nextDueDate snapshot)); cbn; try reflexivity.
    rewrite (alter_stored _ _ _ _ (lookup_insert_eq _ _ _)). cbn.
    now rewrite insert_insert_eq.
Qed.

(** ** Sync: the candidate status and what is stored *)

(** C2. The candidate status computed by sync: a deleted snapshot gives
    [canceled]; remote ACTIVE keeps a local [trial] or [pending_payment]
    and gives [active] otherwise; INACTIVE gives [suspended]; EXPIRED gives
    [canceled]; any other remote status keeps the local status.  The
    candidate is computed from the stored status and is what
    [syncSubscriptionStatus] stores and returns, when it is the local
    status or one transition away from it; otherwise the sync throws and
    stores nothing.  A sync against a remote ACTIVE therefore never
    leaves a [trial] or [pending_payment] tenant [active]: the tenant
    keeps its status, or is [canceled] when the snapshot is deleted;
    this holds whatever the subscription id of the tenant and whether
    the snapshot can be fetched or not. *)
Theorem mapAsaasStatusToBillingStatus_table
    (status : string) (deleted : bool) (next : option string) (local : BillingStatus) :
  let candidate :=
    SubscriptionService.mapAsaasStatusToBillingStatus (mkSubscription status deleted next) local in
  (deleted = true -> candidate = CANCELED)
  /\ (deleted = false -> status = "ACTIVE" ->
      (local = TRIAL \/ local = PENDING_PAYMENT -> candidate = local)
      /\ (local <> TRIAL -> local <> PENDING_PAYMENT -> candidate = ACTIVE))
  /\ (deleted = false -> status = "INACTIVE" -> candidate = SUSPENDED)
  /\ (deleted = false -> status = "EXPIRED" -> candidate = CANCELED)
  /\ (deleted = false -> status <> "ACTIVE" -> status <> "INACTIVE" -> status <> "EXPIRED" ->
      candidate = local)
  /\ (status = "ACTIVE" -> local = TRIAL \/ local = PENDING_PAYMENT -> candidate <> ACTIVE)
  /\ (forall (rt : Runtime) (this : SubscriptionServiceConfig) (id sid : string) (st : Store)
             (tb : TenantBillingData),
        st !! id = Some tb ->
        billingStatus tb = local ->
        asaasSubscriptionId tb = Some sid -> sid <> "" ->
        client_getSubscription (asaasClient this) sid = inr (mkSubscription status deleted next) ->
        (candidate = local \/ isValidTransition local candidate = true ->
         exists st' synced,
           SubscriptionService.syncSubscriptionStatus rt this id st = (st', inr synced)
           /\ stored_status st' id = Some candidate
           /\ billingStatus synced = candidate)
        /\ (candidate <> local -> isValidTransition local candidate = false ->
            SubscriptionService.syncSubscriptionStatus rt this id st
            = (st, inl (InvalidBillingTransitionError local candidate)))
        /\ (status = "ACTIVE" -> local = TRIAL \/ local = PENDING_PAYMENT ->
            exists st' synced,
              SubscriptionService.syncSubscriptionStatus rt this id st = (st', inr synced)
              /\ stored_status st' id <> Some ACTIVE
              /\ (deleted = false -> stored_status st' id = Some local)
              /\ (deleted = true -> stored_status st' id = Some CANCELED)))
  /\ (forall (rt : Runtime) (this : SubscriptionServiceConfig) (id : string) (st : Store)
             (tb : TenantBillingData),
        st !! id = Some tb ->
        billingStatus tb = local ->
        local = TRIAL \/ local = PENDING_PAYMENT ->
        (forall sid snapshot,
           client_getSubscription (asaasClient this) sid = inr snapshot ->
           remote_status snapshot = "ACTIVE") ->
        let st' := (SubscriptionService.syncSubscriptionStatus rt this id st).1 in
        stored_status st' id <> Some ACTIVE
        /\ (stored_status st' id = Some local \/ stored_status st' id = Some CANCELED)).
Proof.
  cbv zeta.
  split; [| split; [| split; [| split; [| split; [| split; [| split]]]]]];
    [| | | | | | | clear status deleted next].
  - unfold SubscriptionService.mapAsaasStatusToBillingStatus. cbn [remote_deleted remote_status].
    intros ->. reflexivity.
  - unfold SubscriptionService.mapAsaasStatusToBillingStatus. cbn [remote_deleted remote_status].
    intros -> ->. split.
    + intros [-> | ->]; reflexivity.
    + intros Ht Hp. destruct local; try reflexivity; congruence.
  - unfold SubscriptionService.mapAsaasStatusToBillingStatus. cbn [remote_deleted remote_status].
    intros -> ->. reflexivity.
  - unfold SubscriptionService.mapAsaasStatusToBillingStatus. cbn [remote_deleted remote_status].
    intros -> ->. reflexivity.
  - unfold SubscriptionService.mapAsaasStatusToBillingStatus. cbn [remote_deleted remote_status].
    intros -> H1 H2 H3.
    apply String.eqb_neq in H1, H2, H3. now rewrite H1, H2, H3.
  - unfold SubscriptionService.mapAsaasStatusToBillingStatus. cbn [remote_deleted remote_status].
    intros -> [-> | ->]; destruct deleted; discriminate.
  - intros rt this id sid st tb Hstored Hlocal Hsid Hne Hsnapshot.
    assert (Htruthy : truthy (asaasSubscriptionId tb) = true).
    { rewrite Hsid. cbn. apply String.eqb_neq in Hne. now rewrite Hne. }
    assert (Hget : client_getSubscription (asaasClient this)
                     (nullish (asaasSubscriptionId tb) "")
                   = inr (mkSubscription status deleted next)) by now rewrite Hsid.
    pose proof (syncSubscriptionStatus_run rt this id st tb _ Hstored Htruthy Hget) as Hrun.
    cbv zeta in Hrun. rewrite Hlocal in Hrun.
    set (candidate := SubscriptionService.mapAsaasStatusToBillingStatus
                        (mkSubscription status deleted next) local) in *.
    assert (Hreturns :
              bool_decide (candidate = local) || isValidTransition local candidate = true ->
              exists st' synced,
                SubscriptionService.syncSubscriptionStatus rt this id st = (st', inr synced)
                /\ stored_status st' id = Some candidate
                /\ billingStatus synced = candidate).
    { intros Hallowed. rewrite Hallowed in Hrun. eexists _, _. split; [exact Hrun |].
      unfold stored_status. rewrite lookup_insert_eq. split; reflexivity. }
    split; [| split].
    + intros [Hsame | Hvalid]; apply Hreturns.
      * now rewrite (bool_decide_eq_true_2 _ Hsame).
      * rewrite Hvalid. apply orb_true_r.
    + intros Hdiffers Hinvalid.
      rewrite (bool_decide_eq_false_2 _ Hdiffers), Hinvalid in Hrun. exact Hrun.
    + intros Hactive Hlocal'.
      assert (Hcandidate : (deleted = false -> candidate = local)
                           /\ (deleted = true -> candidate = CANCELED)
                           /\ candidate <> ACTIVE
                           /\ bool_decide (candidate = local)
                              || isValidTransition local candidate = true).
      { subst candidate. unfold SubscriptionService.mapAsaasStatusToBillingStatus.
        cbn [remote_deleted remote_status]. rewrite Hactive.
        destruct Hlocal' as [Hl | Hl]; rewrite Hl; destruct deleted; cbn;
          repeat split; first [discriminate | reflexivity | vm_compute; reflexivity]. }
      destruct Hcandidate as (Hkept & Hcanceled & Hnever & Hallowed).
      destruct (Hreturns Hallowed) as (st' & synced & Hsync & Hstatus & _).
      exists st', synced. split; [exact Hsync |]. rewrite Hstatus.
      split; [congruence |]. split; intros Hd; f_equal; auto.
  - intros rt this id st tb Hstored Hlocal Hpending Hremote.
    assert (Hkept : forall r,
              SubscriptionService.syncSubscriptionStatus rt this id st = (st, r) ->
              stored_status (SubscriptionService.syncSubscriptionStatus rt this id st).1 id
              <> Some ACTIVE
              /\ (stored_status (SubscriptionService.syncSubscriptionStatus rt this id st).1 id
                  = Some local
                  \/ stored_status (SubscriptionService.syncSubscriptionStatus rt this id st).1 id
                     = Some CANCELED)).
    { intros r ->. cbn [fst]. unfold stored_status. rewrite Hstored. cbn. rewrite Hlocal.
      split; [| now left]. destruct Hpending as [-> | ->]; discriminate. }
    destruct (truthy (asaasSubscriptionId tb)) eqn:Htruthy.
    2: { eapply Hkept. unfold SubscriptionService.syncSubscriptionStatus. unfold await at 1.
         unfold getTenantBilling. rewrite Hstored, Htruthy. reflexivity. }
    destruct (client_getSubscription (asaasClient this) (nullish (asaasSubscriptionId tb) ""))
      as [e | snapshot] eqn:Hsnapshot.
    { eapply Hkept. unfold SubscriptionService.syncSubscriptionStatus. unfold await at 1.
      unfold getTenantBilling. rewrite Hstored, Htruthy. cbn [negb].
      unfold await at 1. unfold external. rewrite Hsnapshot. reflexivity. }
    rewrite (syncSubscriptionStatus_run rt this id st tb snapshot Hstored Htruthy Hsnapshot).
    cbv zeta. unfold SubscriptionService.mapAsaasStatusToBillingStatus.
    rewrite (Hremote _ _ Hsnapshot), Hlocal. unfold stored_status.
    destruct Hpending as [-> | ->]; destruct (remote_deleted snapshot);
      match goal with
      | |- context [if ?c then _ else _] =>
          let v := eval vm_compute in c in change c with v
      end;
      cbn [fst]; rewrite lookup_insert_eq; cbn; (split; [discriminate | auto]).
Qed.

Lemma mapAsaasStatusToBillingStatus_table_witness :
  SubscriptionService.mapAsaasStatusToBillingStatus (mkSubscription "ACTIVE" false None) TRIAL = TRIAL
  /\ SubscriptionService.mapAsaasStatusToBillingStatus (mkSubscription "ACTIVE" false None) OVERDUE = ACTIVE
  /\ SubscriptionService.mapAsaasStatusToBillingStatus (mkSubscription "PAUSED" false None) OVERDUE = OVERDUE
  /\ exists st' synced,
       SubscriptionService.syncSubscriptionStatus example_runtime
         (mkSubscriptionServiceConfig (example_client "ACTIVE") None) "tenant-1"
         (example_store TRIAL) = (st', inr synced)
       /\ stored_status st' "tenant-1" = Some TRIAL.
Proof.
  pose proof (mapAsaasStatusToBillingStatus_table "ACTIVE" false None TRIAL) as H1.
  pose proof (mapAsaasStatusToBillingStatus_table "ACTIVE" false None OVERDUE) as H2.
  pose proof (mapAsaasStatusToBillingStatus_table "PAUSED" false None OVERDUE) as H3.
  cbv zeta in H1, H2, H3.
  destruct H1 as (_ & H1 & _ & _ & _ & _ & Hsync & _), H2 as (_ & H2 & _),
           H3 as (_ & _ & _ & _ & H3 & _).
  split; [| split; [| split]].
  - apply (H1 eq_refl eq_refl). left; reflexivity.
  - apply (H2 eq_refl eq_refl); discriminate.
  - apply (H3 eq_refl); discriminate.
  - destruct (Hsync example_runtime (mkSubscriptionServiceConfig (example_client "ACTIVE") None)
                "tenant-1" "sub_1" (example_store TRIAL) (example_tenant TRIAL)
                eq_refl eq_refl eq_refl ltac:(discriminate) eq_refl) as (_ & _ & Hkeeps).
    destruct (Hkeeps eq_refl (or_introl eq_refl)) as (st' & synced & Hrun & _ & Hkept & _).
    exists st', synced. split; [exact Hrun | exact (Hkept eq_refl)].
Defined.

(** ** Dispatching an event to its handler *)

Lemma validateAccessToken_accepted (this : WebhookHandlerConfig) (accessToken : option string) :
  token_accepted this accessToken -> WebhookHandler.validateAccessToken this accessToken = true.
Proof.
  unfold WebhookHandler.validateAccessToken, token_accepted.
  intros [H | [H | H]].
  - now rewrite H.
  - now rewrite H.
  - destruct (negb (truthy (webhookAccessToken this))); [reflexivity |].
    now apply bool_decide_eq_true.
Qed.

Lemma validateAccessToken_mismatch (this : WebhookHandlerConfig) (accessToken : option string) :
  token_mismatch this accessToken -> WebhookHandler.validateAccessToken this accessToken = false.
Proof.
  unfold WebhookHandler.validateAccessToken. intros (t & Hcfg & Hne & Hdiff).
  rewrite Hcfg. cbn. apply String.eqb_neq in Hne. rewrite Hne. cbn.
  apply bool_decide_eq_false. congruence.
Qed.

Lemma handlePaymentEvent_resolved (rt : Runtime) (this : WebhookHandlerConfig) (eventType : string)
    (pay : AsaasPaymentPayload) (st : Store) (tenant : TenantBillingData) :
  payment_resolves this st pay tenant ->
  WebhookHandler.handlePaymentEvent rt this eventType (Some pay) st =
  (if String.eqb eventType "PAYMENT_CREATED"
   then WebhookHandler.handlePaymentCreated tenant pay
   else if String.eqb eventType "PAYMENT_CONFIRMED" || String.eqb eventType "PAYMENT_RECEIVED"
   then WebhookHandler.handlePaymentConfirmed rt this tenant pay
   else if String.eqb eventType "PAYMENT_OVERDUE"
   then WebhookHandler.handlePaymentOverdue rt this tenant pay
   else if String.eqb eventType "PAYMENT_REFUNDED"
   then WebhookHandler.handlePaymentRefunded tenant pay
   else resolve (mkResult true eventType (Some (tenant_id tenant))
                   (Some "payment_event_ignored") None)) st.
Proof.
  unfold WebhookHandler.handlePaymentEvent, WebhookHandler.lookupBySubscriptionId,
    WebhookHandler.lookupByCustomerId.
  unfold await at 1 2.
  intros [(sub & Hsub & Hne & Hfound) | [Hnone Hcus]].
  - rewrite Hsub. cbn. apply String.eqb_neq in Hne. rewrite Hne. cbn. now rewrite Hfound.
  - destruct Hnone as [Hsub | [Hsub | (sub & Hsub & Hmiss)]]; rewrite Hsub; cbn.
    + now rewrite Hcus.
    + now rewrite Hcus.
    + destruct (String.eqb sub ""); cbn; [| rewrite Hmiss]; now rewrite Hcus.
Qed.

Lemma handleEvent_try_payment_overdue (rt : Runtime) (this : WebhookHandlerConfig)
    (ev : AsaasWebhookEvent) (accessToken : option string) (st : Store)
    (pay : AsaasPaymentPayload) (tenant : TenantBillingData) :
  token_accepted this accessToken ->
  event ev = "PAYMENT_OVERDUE" ->
  payment ev = Some pay ->
  payment_resolves this st pay tenant ->
  WebhookHandler.handleEvent_try rt this ev accessToken st =
  WebhookHandler.handlePaymentOverdue rt this tenant pay st.
Proof.
  intros Htok Hev Hpay Hres. unfold WebhookHandler.handleEvent_try.
  rewrite (validateAccessToken_accepted _ _ Htok), Hev, Hpay. cbn [negb].
  change (isAsaasEventType "PAYMENT_OVERDUE") with true.
  change (isPaymentEvent "PAYMENT_OVERDUE") with true. cbn [negb].
  now rewrite (handlePaymentEvent_resolved rt this _ pay st tenant Hres).
Qed.

Lemma handleEvent_try_payment_confirmed (rt : Runtime) (this : WebhookHandlerConfig)
    (ev : AsaasWebhookEvent) (accessToken : option string) (st : Store)
    (pay : AsaasPaymentPayload) (tenant : TenantBillingData) :
  token_accepted this accessToken ->
  event ev = "PAYMENT_CONFIRMED" ->
  payment ev = Some pay ->
  payment_resolves this st pay tenant ->
  WebhookHandler.handleEvent_try rt this ev accessToken st =
  WebhookHandler.handlePaymentConfirmed rt this tenant pay st.
Proof.
  intros Htok Hev Hpay Hres. unfold WebhookHandler.handleEvent_try.
  rewrite (validateAccessToken_accepted _ _ Htok), Hev, Hpay. cbn [negb].
  change (isAsaasEventType "PAYMENT_CONFIRMED") with true.
  change (isPaymentEvent "PAYMENT_CONFIRMED") with true. cbn [negb].
  now rewrite (handlePaymentEvent_resolved rt this _ pay st tenant Hres).
Qed.

(** The webhook handler on a PAYMENT_OVERDUE event, in terms of the
    specification's [daysOverdue], threshold and target. *)
Lemma webhook_handlePaymentOverdue_run (rt : Runtime) (this : WebhookHandlerConfig)
    (tenant : TenantBillingData) (pay : AsaasPaymentPayload) (st : Store)
    (tb : TenantBillingData) (d thr : JsNumber) (target : BillingStatus) :
  st !! tenant_id tenant = Some tb ->
  spec_daysOverdue (Date_now rt) (Date_parse rt (payment_dueDate pay)) d ->
  spec_threshold (daysUntilSuspension (subscriptionService (billingService this))) thr ->
  spec_target d thr target ->
  let m' := option_map (set_daysOverdue d) (subscriptionMetadata tb) in
  let result :=
    mkResult true "PAYMENT_OVERDUE" (Some (tenant_id tenant))
      (Some (if js_geb d (nullish (daysUntilOverdueStatus this) (JsNum 1))
             then "tenant_overdue" else "overdue_warning")) None in
  WebhookHandler.handlePaymentOverdue rt this tenant pay st =
  if bool_decide (billingStatus tb = target) then
    (<[tenant_id tenant := with_status_metadata (billingStatus tb) m' tb]> st, inr result)
  else if isValidTransition (billingStatus tb) target then
    (<[tenant_id tenant := with_status_metadata target m' tb]> st, inr result)
  else (st, inl (InvalidBillingTransitionError (billingStatus tb) target)).
Proof.
  intros Hget Hd Hthr Htarget. cbv zeta.
  unfold WebhookHandler.handlePaymentOverdue, BillingService.handlePaymentOverdue.
  rewrite (daysOverdue_computed _ _ _ Hd). unfold await at 1.
  rewrite (service_handlePaymentOverdue_run _ _ _ _ _ Hget). cbv zeta.
  rewrite (target_computed _ _ _ _ Hthr Htarget).
  destruct (bool_decide (billingStatus tb = target)); [reflexivity |].
  destruct (isValidTransition (billingStatus tb) target); reflexivity.
Qed.

Lemma createBillingService_threshold (config : BillingServiceConfig) (thr : JsNumber) :
  spec_threshold (billing_daysUntilSuspension config) thr ->
  spec_threshold
    (daysUntilSuspension (subscriptionService (BillingService.createBillingService config))) thr.
Proof.
  intros [H | [H ->]]; left; cbn; now rewrite H.
Qed.

(** ** PAYMENT_OVERDUE *)

Section PaymentOverdue.

Variable rt : Runtime.
Variable this : WebhookHandlerConfig.
Variable ev : AsaasWebhookEvent.
Variable accessToken : option string.
Variable st : Store.
Variable pay : AsaasPaymentPayload.
Variables tenant tb : TenantBillingData.
Variables d thr : JsNumber.
Variable target : BillingStatus.

(** The event is an authentic PAYMENT_OVERDUE whose payment resolves to
    [tenant], stored as [tb]. *)
Hypothesis Htoken : token_accepted this accessToken.
Hypothesis Hevent : event ev = "PAYMENT_OVERDUE".
Hypothesis Hpayment : payment ev = Some pay.
Hypothesis Hresolved : payment_resolves this st pay tenant.
Hypothesis Hstored : st !! tenant_id tenant = Some tb.

(** [d] is the specified [daysOverdue], [thr] the threshold in force and
    [target] the specified target. *)
Hypothesis Hdays : spec_daysOverdue (Date_now rt) (Date_parse rt (payment_dueDate pay)) d.
Hypothesis Hthreshold :
  spec_threshold (daysUntilSuspension (subscriptionService (billingService this))) thr.
Hypothesis Htarget : spec_target d thr target.

Lemma handleEvent_payment_overdue_run :
  let m' := option_map (set_daysOverdue d) (subscriptionMetadata tb) in
  let result :=
    mkResult true "PAYMENT_OVERDUE" (Some (tenant_id tenant))
      (Some (if js_geb d (nullish (daysUntilOverdueStatus this) (JsNum 1))
             then "tenant_overdue" else "overdue_warning")) None in
  WebhookHandler.handleEvent rt this ev accessToken st =
  if bool_decide (billingStatus tb = target) then
    (<[tenant_id tenant := with_status_metadata (billingStatus tb) m' tb]> st, result)
  else if isValidTransition (billingStatus tb) target then
    (<[tenant_id tenant := with_status_metadata target m' tb]> st, result)
  else
    (st, mkResult false "PAYMENT_OVERDUE" None None
           (Some (error_message (InvalidBillingTransitionError (billingStatus tb) target)))).
Proof.
  cbv zeta. unfold WebhookHandler.handleEvent.
  rewrite (handleEvent_try_payment_overdue rt this ev accessToken st pay tenant
             Htoken Hevent Hpayment Hresolved).
  rewrite (webhook_handlePaymentOverdue_run rt this tenant pay st tb d thr target
             Hstored Hdays Hthreshold Htarget).
  cbv zeta. rewrite Hevent.
  destruct (bool_decide (billingStatus tb = target)); [reflexivity |].
  destruct (isValidTransition (billingStatus tb) target); reflexivity.
Qed.

(** C3. On a PAYMENT_OVERDUE event with a resolved tenant, with
    [daysOverdue = max(0, floor((now - dueDate) / day))] and the target
    [suspended] when [daysOverdue >= threshold] (15 by default) and
    [overdue] otherwise: a tenant already in the target status keeps it and
    the event succeeds without any transition; a tenant in another status
    from which the target is reachable ends in the target status; in both
    cases the metadata, when the record has one, gets the new
    [daysOverdue].  In particular a tenant in [overdue] with threshold 15
    and [daysOverdue = 16] ends in [suspended] with metadata
    [daysOverdue = 16]. *)
Theorem payment_overdue_target :
  let m' := option_map (set_daysOverdue d) (subscriptionMetadata tb) in
  (billingStatus tb = target ->
   exists result,
     WebhookHandler.handleEvent rt this ev accessToken st =
       (<[tenant_id tenant := with_status_metadata (billingStatus tb) m' tb]> st, result)
     /\ success result = true)
  /\ (billingStatus tb <> target ->
      isValidTransition (billingStatus tb) target = true ->
      exists result,
        WebhookHandler.handleEvent rt this ev accessToken st =
          (<[tenant_id tenant := with_status_metadata target m' tb]> st, result)
        /\ success result = true)
  /\ (billingStatus tb = OVERDUE -> thr = JsNum 15 -> d = JsNum 16 ->
      exists st' result,
        WebhookHandler.handleEvent rt this ev accessToken st = (st', result)
        /\ success result = true
        /\ stored_status st' (tenant_id tenant) = Some SUSPENDED
        /\ (forall m, subscriptionMetadata tb = Some m ->
                      stored_daysOverdue st' (tenant_id tenant) = Some (JsNum 16))).
Proof.
  cbv zeta. pose proof handleEvent_payment_overdue_run as Hrun. cbv zeta in Hrun.
  split; [| split].
  - intros Heq. rewrite (bool_decide_eq_true_2 _ Heq) in Hrun.
    eexists. split; [exact Hrun | reflexivity].
  - intros Hne Hvalid. rewrite (bool_decide_eq_false_2 _ Hne), Hvalid in Hrun.
    eexists. split; [exact Hrun | reflexivity].
  - intros Hstatus Hthr Hd. subst thr d. cbn in Htarget.
    destruct Htarget as [[_ ->] | [Hlt _]]; [| lia].
    rewrite Hstatus in Hrun. cbn in Hrun.
    eexists. eexists. split; [exact Hrun |].
    split; [reflexivity |]. split.
    + unfold stored_status. now rewrite lookup_insert_eq.
    + intros m Hm. unfold stored_daysOverdue. rewrite lookup_insert_eq, Hm. reflexivity.
Qed.


(** The overdue handler of C10: an [active] tenant whose [daysOverdue]
    reaches the threshold. *)
Lemma payment_overdue_active_rejected (x y : Z) :
  billingStatus tb = ACTIVE -> d = JsNum x -> thr = JsNum y -> y <= x ->
  WebhookHandler.handleEvent_try rt this ev accessToken st =
    (st, inl (InvalidBillingTransitionError ACTIVE SUSPENDED))
  /\ WebhookHandler.handleEvent rt this ev accessToken st =
       (st, mkResult false "PAYMENT_OVERDUE" None None
              (Some "Invalid billing status transition from 'active' to 'suspended'")).
Proof.
  intros Hstatus Hd Hthr Hle.
  assert (Ht : target = SUSPENDED).
  { pose proof Htarget as Hspec. rewrite Hd, Hthr in Hspec. cbn in Hspec.
    destruct Hspec as [[_ Ht] | [Hlt _]]; [exact Ht | lia]. }
  split.
  - rewrite (handleEvent_try_payment_overdue rt this ev accessToken st pay tenant
               Htoken Hevent Hpayment Hresolved).
    rewrite (webhook_handlePaymentOverdue_run rt this tenant pay st tb d thr target
               Hstored Hdays Hthreshold Htarget).
    cbv zeta. now rewrite Hstatus, Ht.
  - pose proof handleEvent_payment_overdue_run as Hrun. cbv zeta in Hrun.
    now rewrite Hstatus, Ht in Hrun.
Qed.

End PaymentOverdue.

(** ** PAYMENT_CONFIRMED on a canceled tenant *)

(** C5. For a tenant whose stored status is [canceled], a
    PAYMENT_CONFIRMED event raises [InvalidBillingTransitionError] from
    [canceled] to [active] in the service; [handleEvent] does not throw
    but returns [success = false] with the error's message, and the store
    is returned as it was. *)
Theorem payment_confirmed_canceled_rejected (rt : Runtime) (this : WebhookHandlerConfig)
    (ev : AsaasWebhookEvent) (accessToken : option string) (st : Store)
    (pay : AsaasPaymentPayload) (tenant tb : TenantBillingData) :
  token_accepted this accessToken ->
  event ev = "PAYMENT_CONFIRMED" ->
  payment ev = Some pay ->
  payment_resolves this st pay tenant ->
  st !! tenant_id tenant = Some tb ->
  billingStatus tb = CANCELED ->
  (forall paymentDate,
     SubscriptionService.handlePaymentConfirmed (tenant_id tenant) paymentDate st =
       (st, inl (InvalidBillingTransitionError CANCELED ACTIVE)))
  /\ WebhookHandler.handleEvent_try rt this ev accessToken st =
       (st, inl (InvalidBillingTransitionError CANCELED ACTIVE))
  /\ WebhookHandler.handleEvent rt this ev accessToken st =
       (st, mkResult false "PAYMENT_CONFIRMED" None None
              (Some "Invalid billing status transition from 'canceled' to 'active'")).
Proof.
  intros Htoken Hevent Hpayment Hresolved Hstored Hstatus.
  assert (Hservice : forall paymentDate,
            SubscriptionService.handlePaymentConfirmed (tenant_id tenant) paymentDate st =
              (st, inl (InvalidBillingTransitionError CANCELED ACTIVE))).
  { intros paymentDate. rewrite (service_handlePaymentConfirmed_run _ _ _ _ Hstored).
    cbv zeta. now rewrite Hstatus. }
  assert (Htry : WebhookHandler.handleEvent_try rt this ev accessToken st =
                   (st, inl (InvalidBillingTransitionError CANCELED ACTIVE))).
  { rewrite (handleEvent_try_payment_confirmed rt this ev accessToken st pay tenant
               Htoken Hevent Hpayment Hresolved).
    unfold WebhookHandler.handlePaymentConfirmed, BillingService.handlePaymentConfirmed.
    unfold await at 1. now rewrite Hservice. }
  split; [exact Hservice | split; [exact Htry |]].
  unfold WebhookHandler.handleEvent. now rewrite Htry, Hevent.
Qed.

(** ** Validation of the event *)

Lemma isAsaasEventType_In (value : string) :
  isAsaasEventType value = true <-> In value AsaasEventType_values.
Proof.
  unfold isAsaasEventType. rewrite existsb_exists. split.
  - intros (x & Hin & Heq). apply String.eqb_eq in Heq. now subst.
  - intros Hin. exists value. split; [assumption | apply String.eqb_refl].
Qed.

(** C6. [handleEvent] fails closed, with a [WebhookInvalidError] turned
    into [success = false] and the store untouched, when the configured
    access token is not the presented one and when the event type is not
    one of [AsaasEventType]; an authentic event of a known type that is
    neither a payment nor a subscription event is acknowledged with
    [success = true] and action [ignored], the store untouched. *)
Theorem handleEvent_fails_closed (rt : Runtime) (this : WebhookHandlerConfig)
    (ev : AsaasWebhookEvent) (accessToken : option string) (st : Store) :
  (token_mismatch this accessToken ->
   WebhookHandler.handleEvent_try rt this ev accessToken st =
     (st, inl (WebhookInvalidError "Invalid webhook access token" None))
   /\ WebhookHandler.handleEvent rt this ev accessToken st =
        (st, mkResult false (event ev) None None (Some "Invalid webhook access token")))
  /\ (~ In (event ev) AsaasEventType_values ->
      exists message eventType0,
        WebhookHandler.handleEvent_try rt this ev accessToken st =
          (st, inl (WebhookInvalidError message eventType0))
        /\ WebhookHandler.handleEvent rt this ev accessToken st =
             (st, mkResult false (event ev) None None (Some message))
        /\ (token_accepted this accessToken ->
            message = String.append "Unknown event type: " (event ev)))
  /\ (token_accepted this accessToken ->
      In (event ev) AsaasEventType_values ->
      isPaymentEvent (event ev) = false ->
      isSubscriptionEvent (event ev) = false ->
      WebhookHandler.handleEvent rt this ev accessToken st =
        (st, mkResult true (event ev) None (Some "ignored") None)).
Proof.
  split; [| split].
  - intros Hmis. apply validateAccessToken_mismatch in Hmis.
    unfold WebhookHandler.handleEvent, WebhookHandler.handleEvent_try.
    rewrite Hmis. cbn. split; reflexivity.
  - intros Hunknown.
    assert (Hknown : isAsaasEventType (event ev) = false).
    { destruct (isAsaasEventType (event ev)) eqn:Hk; [| reflexivity].
      apply isAsaasEventType_In in Hk. contradiction. }
    unfold WebhookHandler.handleEvent, WebhookHandler.handleEvent_try.
    rewrite Hknown.
    destruct (WebhookHandler.validateAccessToken this accessToken) eqn:Hv; cbn [negb].
    + eexists. eexists. repeat split; reflexivity.
    + eexists. eexists. split; [reflexivity | split; [reflexivity |]].
      intros Hacc. apply validateAccessToken_accepted in Hacc. congruence.
  - intros Hacc Hknown Hpay Hsub.
    apply validateAccessToken_accepted in Hacc. apply isAsaasEventType_In in Hknown.
    unfold WebhookHandler.handleEvent, WebhookHandler.handleEvent_try.
    rewrite Hacc, Hknown, Hpay, Hsub. reflexivity.
Qed.

(** ** SUBSCRIPTION_CANCELED on a canceled tenant *)

Lemma handleSubscriptionEvent_resolved (rt : Runtime) (this : WebhookHandlerConfig)
    (eventType : string) (sub : AsaasSubscriptionPayload) (st : Store)
    (tenant : TenantBillingData) :
  subscription_resolves this st sub tenant ->
  WebhookHandler.handleSubscriptionEvent rt this eventType (Some sub) st =
  (if String.eqb eventType "SUBSCRIPTION_ACTIVATED"
   then WebhookHandler.handleSubscriptionActivated rt this tenant sub
   else if String.eqb eventType "SUBSCRIPTION_CANCELED"
   then WebhookHandler.handleSubscriptionCanceled rt this tenant sub
   else if String.eqb eventType "SUBSCRIPTION_UPDATED" || String.eqb eventType "SUBSCRIPTION_RENEWED"
   then WebhookHandler.handleSubscriptionUpdated rt this tenant sub
   else resolve (mkResult true eventType (Some (tenant_id tenant))
                   (Some "subscription_event_ignored") None)) st.
Proof.
  unfold WebhookHandler.handleSubscriptionEvent, WebhookHandler.lookupBySubscriptionId,
    WebhookHandler.lookupByCustomerId.
  unfold await at 1 2.
  intros [Hfound | [Hmiss Hcus]].
  - now rewrite Hfound.
  - now rewrite Hmiss, Hcus.
Qed.

Lemma cancelSubscription_canceled_fails (this : SubscriptionServiceConfig) (id : string)
    (st : Store) (tb : TenantBillingData) :
  st !! id = Some tb ->
  billingStatus tb = CANCELED ->
  exists e, SubscriptionService.cancelSubscription this id st = (st, inl e).
Proof.
  intros Hstored Hstatus. unfold SubscriptionService.cancelSubscription. run_async.
  rewrite Hstored, Hstatus.
  destruct (truthy (asaasSubscriptionId tb)); cbn; eexists; reflexivity.
Qed.

Lemma stored_status_alter (f : TenantBillingData -> TenantBillingData) (st : Store)
    (id : string) (tb : TenantBillingData) :
  st !! id = Some tb ->
  billingStatus (f tb) = billingStatus tb ->
  stored_status (alter f id st) id = Some (billingStatus tb).
Proof.
  intros Hstored Hf. unfold stored_status. rewrite lookup_alter_eq, Hstored. cbn. now rewrite Hf.
Qed.

Lemma candidate_canceled (snapshot : AsaasSubscriptionResponse) :
  SubscriptionService.mapAsaasStatusToBillingStatus snapshot CANCELED = CANCELED
  <-> remote_deleted snapshot = true
      \/ (remote_status snapshot <> "ACTIVE" /\ remote_status snapshot <> "INACTIVE").
Proof.
  unfold SubscriptionService.mapAsaasStatusToBillingStatus.
  destruct (remote_deleted snapshot); [intuition |].
  destruct (String.eqb_spec (remote_status snapshot) "ACTIVE") as [Ha | Ha].
  { cbn. split; [discriminate | intros [H | [H _]]; [discriminate | contradiction]]. }
  destruct (String.eqb_spec (remote_status snapshot) "INACTIVE") as [Hi | Hi].
  { split; [discriminate | intros [H | [_ H]]; [discriminate | contradiction]]. }
  destruct (String.eqb (remote_status snapshot) "EXPIRED"); intuition.
Qed.

Lemma sync_canceled_outcome (rt : Runtime) (this : SubscriptionServiceConfig) (id : string)
    (st : Store) (tb : TenantBillingData) :
  st !! id = Some tb ->
  billingStatus tb = CANCELED ->
  exists st' r,
    SubscriptionService.syncSubscriptionStatus rt this id st = (st', r)
    /\ stored_status st' id = Some CANCELED
    /\ ((exists v, r = inr v) <-> sync_keeps_canceled (asaasClient this) tb).
Proof.
  intros Hstored Hstatus.
  assert (Hst : stored_status st id = Some CANCELED).
  { unfold stored_status. rewrite Hstored. cbn. now rewrite Hstatus. }
  unfold SubscriptionService.syncSubscriptionStatus, sync_keeps_canceled. run_async.
  rewrite Hstored.
  destruct (asaasSubscriptionId tb) as [sid |] eqn:Hsid; cbn [truthy negb nullish];
    [| eexists; eexists; split; [reflexivity | split; [exact Hst | split; eauto]]].
  destruct (String.eqb_spec sid "") as [-> | Hne]; cbn [negb].
  { eexists. eexists. split; [reflexivity | split; [exact Hst | split; eauto]]. }
  destruct (client_getSubscription (asaasClient this) sid) as [e | snapshot] eqn:Hremote.
  { eexists. eexists. split; [reflexivity | split; [exact Hst |]]. split.
    - intros [v Hv]. discriminate.
    - intros [H | [H | (sid0 & snap & H & Hget & _)]]; congruence. }
  rewrite Hstatus.
  pose proof (candidate_canceled snapshot) as Hcand.
  destruct (bool_decide (SubscriptionService.mapAsaasStatusToBillingStatus snapshot CANCELED
                         = CANCELED)) eqn:Hkeep; cbn [negb].
  - apply bool_decide_eq_true in Hkeep.
    assert (Hok : sync_keeps_canceled (asaasClient this) tb).
    { right. right. exists sid, snapshot. rewrite <- Hcand. auto. }
    unfold sync_keeps_canceled in Hok. rewrite Hsid in Hok.
    destruct (subscriptionMetadata tb) as [m |], (truthy (remote_nextDueDate snapshot)).
    + eexists. eexists. split; [reflexivity |]. split.
      * rewrite <- Hstatus. now apply stored_status_alter.
      * split; eauto.
    + eexists. eexists. split; [reflexivity | split; [exact Hst | split; eauto]].
    + eexists. eexists. split; [reflexivity | split; [exact Hst | split; eauto]].
    + eexists. eexists. split; [reflexivity | split; [exact Hst | split; eauto]].
  - apply bool_decide_eq_false in Hkeep.
    unfold SubscriptionService.updateBillingStatus.
    rewrite (bool_decide_eq_false_2 _ (fun H => Hkeep (eq_sym H))).
    change (isValidTransition CANCELED _) with false. cbn [negb].
    eexists. eexists. split; [reflexivity | split; [exact Hst |]]. split.
    + intros [v Hv]. discriminate.
    + intros [H | [H | (sid0 & snap & H & Hget & Hc)]]; try congruence.
      injection H as <-. rewrite Hremote in Hget. injection Hget as <-.
      apply Hcand in Hc. contradiction.
Qed.

(** C7, as the code has it.  For a SUBSCRIPTION_CANCELED event whose
    resolved tenant is stored as [canceled], the cancellation attempt
    fails without touching the store and the handler falls back to
    [syncSubscriptionStatus]; the stored status stays [canceled]; the
    result is [success = true] (action [tenant_canceled]) exactly when the
    sync goes through, that is, when the tenant has no subscription id or
    the remote snapshot is fetched and is deleted or neither ACTIVE nor
    INACTIVE; otherwise the error of the sync is returned as
    [success = false]. *)
Theorem subscription_canceled_already_canceled (rt : Runtime) (this : WebhookHandlerConfig)
    (ev : AsaasWebhookEvent) (accessToken : option string) (st : Store)
    (sub : AsaasSubscriptionPayload) (tenant tb : TenantBillingData) :
  token_accepted this accessToken ->
  event ev = "SUBSCRIPTION_CANCELED" ->
  subscription ev = Some sub ->
  subscription_resolves this st sub tenant ->
  st !! tenant_id tenant = Some tb ->
  billingStatus tb = CANCELED ->
  (exists e,
     BillingService.cancelSubscription (billingService this) (tenant_id tenant) st = (st, inl e))
  /\ WebhookHandler.handleEvent_try rt this ev accessToken st =
       (BillingService.syncSubscriptionStatus rt (billingService this) (tenant_id tenant) ;;;
        resolve (mkResult true "SUBSCRIPTION_CANCELED" (Some (tenant_id tenant))
                   (Some "tenant_canceled") None)) st
  /\ exists st' result,
       WebhookHandler.handleEvent rt this ev accessToken st = (st', result)
       /\ stored_status st' (tenant_id tenant) = Some CANCELED
       /\ (success result = true <->
           sync_keeps_canceled (asaasClient (subscriptionService (billingService this))) tb)
       /\ (success result = true ->
           result = mkResult true "SUBSCRIPTION_CANCELED" (Some (tenant_id tenant))
                      (Some "tenant_canceled") None).
Proof.
  intros Htoken Hevent Hsub Hresolved Hstored Hstatus.
  destruct (cancelSubscription_canceled_fails (subscriptionService (billingService this))
              _ _ _ Hstored Hstatus) as [e Hcancel].
  assert (Htry : WebhookHandler.handleEvent_try rt this ev accessToken st =
            (BillingService.syncSubscriptionStatus rt (billingService this) (tenant_id tenant) ;;;
             resolve (mkResult true "SUBSCRIPTION_CANCELED" (Some (tenant_id tenant))
                        (Some "tenant_canceled") None)) st).
  { unfold WebhookHandler.handleEvent_try.
    rewrite (validateAccessToken_accepted _ _ Htoken), Hevent, Hsub. cbn [negb].
    change (isAsaasEventType "SUBSCRIPTION_CANCELED") with true.
    change (isPaymentEvent "SUBSCRIPTION_CANCELED") with false.
    change (isSubscriptionEvent "SUBSCRIPTION_CANCELED") with true. cbn [negb].
    rewrite (handleSubscriptionEvent_resolved rt this _ sub st tenant Hresolved).
    change (String.eqb "SUBSCRIPTION_CANCELED" "SUBSCRIPTION_ACTIVATED") with false.
    change (String.eqb "SUBSCRIPTION_CANCELED" "SUBSCRIPTION_CANCELED") with true.
    cbv iota.
    unfold WebhookHandler.handleSubscriptionCanceled, BillingService.cancelSubscription.
    unfold await at 1. unfold try_catch. rewrite Hcancel.
    unfold await, resolve.
    destruct (BillingService.syncSubscriptionStatus rt (billingService this)
                (tenant_id tenant) st) as [st1 [e1 | v1]]; reflexivity. }
  split; [exists e; exact Hcancel | split; [exact Htry |]].
  destruct (sync_canceled_outcome rt (subscriptionService (billingService this))
              _ _ _ Hstored Hstatus) as (st' & r & Hsync & Hkept & Hiff).
  unfold WebhookHandler.handleEvent. rewrite Htry.
  unfold await, resolve, BillingService.syncSubscriptionStatus. rewrite Hsync.
  destruct r as [e1 | v1].
  - eexists. eexists. split; [reflexivity | split; [exact Hkept |]].
    split; [split |]; cbn.
    + discriminate.
    + intros Hok. apply Hiff in Hok. destruct Hok as [v Hv]. discriminate.
    + discriminate.
  - eexists. eexists. split; [reflexivity | split; [exact Hkept |]].
    split; [split |]; cbn.
    + intros _. apply Hiff. eauto.
    + reflexivity.
    + reflexivity.
Qed.

(** ** The webhook ledger *)

Section LedgerProperties.

Import Ledger.

Context {P W : Type}.
Variable handler : string -> P -> W -> W * (string + string).

Lemma collides_same_key (src : string) (eid : option string) (r r' : webhook_event P) :
  same_key r r' -> collides src eid r = collides src eid r'.
Proof. intros [Hs He]. unfold collides. now rewrite Hs, He. Qed.

Lemma collides_sym (r r' : webhook_event P) :
  collides (source r) (external_id r) r' = collides (source r') (external_id r') r.
Proof.
  unfold collides. destruct (external_id r) as [e |], (external_id r') as [e' |]; try reflexivity.
  now rewrite (String.eqb_sym (source r)), (String.eqb_sym e).
Qed.

Lemma collides_key (src eid : string) (r : webhook_event P) :
  collides src (Some eid) r = true -> source r = src /\ external_id r = Some eid.
Proof.
  unfold collides. destruct (external_id r) as [e |]; [| discriminate].
  intros H. apply andb_true_iff in H as [Hs He].
  apply String.eqb_eq in Hs, He. now subst.
Qed.

Lemma existsb_insert_same_key (src : string) (eid : option string) (t : list (webhook_event P))
    (i : nat) (r r' : webhook_event P) :
  t !! i = Some r -> same_key r r' ->
  existsb (collides src eid) (<[i := r']> t) = existsb (collides src eid) t.
Proof.
  revert i. induction t as [| a rest IH]; intros [| i] Hi Hk; cbn in *; try discriminate.
  - injection Hi as ->. now rewrite (collides_same_key _ _ _ _ Hk).
  - f_equal. now apply IH.
Qed.

Lemma unique_insert_same_key (t : list (webhook_event P)) (i : nat) (r r' : webhook_event P) :
  t !! i = Some r -> same_key r r' ->
  unique_external_event t -> unique_external_event (<[i := r']> t).
Proof.
  revert i. induction t as [| a rest IH]; intros [| i] Hi Hk Hu; cbn in *;
    try discriminate; destruct Hu as [Hfresh Hrest].
  - injection Hi as ->. destruct Hk as [Hs He]. rewrite <- Hs, <- He. now split.
  - split; [| now apply (IH i)].
    rewrite <- Hfresh. now apply existsb_insert_same_key with (r := r).
Qed.

Lemma unique_insert_row (r : webhook_event P) (t t' : list (webhook_event P)) :
  insert_row r t = Some t' -> unique_external_event t -> unique_external_event t'.
Proof.
  unfold insert_row.
  destruct (existsb (collides (source r) (external_id r)) t) eqn:Hfree; [discriminate |].
  intros [= <-]. induction t as [| a rest IH]; cbn in *.
  - intros _. now split.
  - apply orb_false_iff in Hfree as [Ha Hfree]. intros [Hfresh Hrest]. split.
    + rewrite existsb_app, Hfresh. cbn. now rewrite collides_sym, Ha.
    + now apply IH.
Qed.

Lemma count_rows_unique (src eid : string) (t : list (webhook_event P)) :
  unique_external_event t -> (count_rows src eid t <= 1)%nat.
Proof.
  unfold count_rows. induction t as [| a rest IH]; [cbn; lia |].
  intros [Hfresh Hrest]. rewrite filter_cons.
  destruct (decide (collides src (Some eid) a = true)) as [Ha | Ha]; [| now apply IH].
  apply collides_key in Ha as [Hs He]. rewrite Hs, He in Hfresh.
  assert (Hnil : filter (fun r => collides src (Some eid) r = true) rest = []).
  { clear -Hfresh. induction rest as [| b rest IH]; [reflexivity |].
    cbn [existsb] in Hfresh. apply orb_false_iff in Hfresh as [Hb Hfresh].
    rewrite filter_cons. destruct (decide (collides src (Some eid) b = true)); [congruence |].
    now apply IH. }
  rewrite Hnil. cbn. lia.
Qed.

Lemma find_from_spec (k : nat) (src : string) (eid : option string)
    (t : list (webhook_event P)) (i : nat) (r : webhook_event P) :
  find_from k src eid t = Some (i, r) ->
  (k <= i)%nat /\ t !! (i - k)%nat = Some r /\ collides src eid r = true.
Proof.
  revert k. induction t as [| a rest IH]; intros k; cbn; [discriminate |].
  destruct (collides src eid a) eqn:Ha.
  - intros [= <- <-]. rewrite Nat.sub_diag. auto.
  - intros Hfind. apply IH in Hfind as (Hle & Hi & Hc).
    split; [lia |]. split; [| exact Hc].
    replace (i - k)%nat with (S (i - S k)) by lia. exact Hi.
Qed.

Lemma find_from_insert (k : nat) (src : string) (eid : option string)
    (t : list (webhook_event P)) (i : nat) (r r' : webhook_event P) :
  find_from k src eid t = Some (i, r) -> same_key r r' ->
  find_from k src eid (<[(i - k)%nat := r']> t) = Some (i, r').
Proof.
  revert k. induction t as [| a rest IH]; intros k; cbn; [discriminate |].
  destruct (collides src eid a) eqn:Ha.
  - intros [= <- <-] Hk. rewrite Nat.sub_diag. cbn.
    now rewrite <- (collides_same_key _ _ _ _ Hk), Ha.
  - intros Hfind Hk. pose proof (find_from_spec _ _ _ _ _ _ Hfind) as (Hle & _ & _).
    replace (i - k)%nat with (S (i - S k)) by lia. cbn. rewrite Ha.
    now apply IH.
Qed.

Lemma find_from_none (k : nat) (src : string) (eid : option string)
    (t : list (webhook_event P)) :
  find_from k src eid t = None -> existsb (collides src eid) t = false.
Proof.
  revert k. induction t as [| a rest IH]; intros k; cbn; [reflexivity |].
  destruct (collides src eid a); [discriminate |]. apply IH.
Qed.

Lemma find_from_app_new (k : nat) (src : string) (eid : option string)
    (t : list (webhook_event P)) (r : webhook_event P) :
  find_from k src eid t = None -> collides src eid r = true ->
  find_from k src eid (t ++ [r]) = Some ((k + length t)%nat, r).
Proof.
  revert k. induction t as [| a rest IH]; intros k; cbn.
  - intros _ ->. now rewrite Nat.add_0_r.
  - destruct (collides src eid a); [discriminate |]. intros Hnone Hr.
    rewrite (IH _ Hnone Hr). do 2 f_equal. lia.
Qed.

(** One processing attempt rewrites the row in place, keeping its key. *)
Lemma process_attempt_shape (now : Z) (i : nat) (r : webhook_event P)
    (t : list (webhook_event P)) (w : W) :
  exists r2 w',
    process_attempt handler now i r t w = (<[i := r2]> (<[i := start_attempt r]> t), w', r2)
    /\ same_key (start_attempt r) r2.
Proof.
  unfold process_attempt.
  destruct (handler (event_type (start_attempt r)) (payload (start_attempt r)) w)
    as [w' [err | res]].
  - eexists. exists w'. split; [reflexivity |].
    destruct (max_attempts (start_attempt r) <=? attempts (start_attempt r)); now split.
  - eexists. exists w'. split; [reflexivity | now split].
Qed.

Lemma process_attempt_found (now : Z) (src : string) (eid : option string) (i : nat)
    (r : webhook_event P) (t : list (webhook_event P)) (w : W)
    (t1 : list (webhook_event P)) (w1 : W) (r1 : webhook_event P) :
  find_existing src eid t = Some (i, r) ->
  unique_external_event t ->
  process_attempt handler now i r t w = (t1, w1, r1) ->
  unique_external_event t1 /\ find_existing src eid t1 = Some (i, r1).
Proof.
  intros Hfind Huniq Hrun.
  destruct (process_attempt_shape now i r t w) as (r2 & w' & Hshape & Hk2).
  rewrite Hshape in Hrun. injection Hrun as <- <- <-.
  assert (Hk1 : same_key r (start_attempt r)) by now split.
  pose proof (find_from_spec _ _ _ _ _ _ Hfind) as (_ & Hi & _).
  rewrite Nat.sub_0_r in Hi.
  pose proof (find_from_insert _ _ _ _ _ _ _ Hfind Hk1) as Hfind1.
  rewrite Nat.sub_0_r in Hfind1.
  pose proof (find_from_spec _ _ _ _ _ _ Hfind1) as (_ & Hi1 & _).
  rewrite Nat.sub_0_r in Hi1.
  pose proof (find_from_insert _ _ _ _ _ _ _ Hfind1 Hk2) as Hfind2.
  rewrite Nat.sub_0_r in Hfind2.
  split; [| exact Hfind2].
  apply (unique_insert_same_key _ _ _ _ Hi1 Hk2).
  now apply (unique_insert_same_key _ _ _ _ Hi Hk1).
Qed.

(** After any delivery for [(src, eid)] the table still satisfies the
    constraint and the returned record is the one stored for the key. *)
Lemma deliver_found (now : Z) (src eid ty : string) (p : P)
    (t : list (webhook_event P)) (w : W)
    (t1 : list (webhook_event P)) (w1 : W) (r1 : webhook_event P) :
  unique_external_event t ->
  deliver handler now src (Some eid) ty p t w = (t1, w1, r1) ->
  unique_external_event t1 /\ exists i, find_existing src (Some eid) t1 = Some (i, r1).
Proof.
  intros Huniq. unfold deliver.
  destruct (find_existing src (Some eid) t) as [[i r] |] eqn:Hfind.
  - destruct (bool_decide (status r = processed) || bool_decide (status r = ignored)).
    { intros [= <- <- <-]. split; [assumption | eauto]. }
    destruct (eligible r).
    + intros Hrun.
      destruct (process_attempt_found _ _ _ _ _ _ _ _ _ _ Hfind Huniq Hrun) as [Hu Hf]. eauto.
    + intros [= <- <- <-]. split; [assumption | eauto].
  - pose proof (find_from_none _ _ _ _ Hfind) as Hfree.
    assert (Hself : collides src (Some eid) (new_row src (Some eid) ty p) = true).
    { cbn. now rewrite !String.eqb_refl. }
    unfold insert_row. cbn [source external_id new_row]. rewrite Hfree.
    intros Hrun.
    assert (Hfind' : find_existing src (Some eid) (t ++ [new_row src (Some eid) ty p])
                     = Some (length t, new_row src (Some eid) ty p)).
    { unfold find_existing. now rewrite (find_from_app_new _ _ _ _ _ Hfind Hself). }
    assert (Huniq' : unique_external_event (t ++ [new_row src (Some eid) ty p])).
    { apply (unique_insert_row (new_row src (Some eid) ty p) t); [| assumption].
      unfold insert_row. cbn [source external_id new_row]. now rewrite Hfree. }
    destruct (process_attempt_found _ _ _ _ _ _ _ _ _ _ Hfind' Huniq' Hrun) as [Hu Hf]. eauto.
Qed.

Lemma process_attempt_changed (now : Z) (i : nat) (r : webhook_event P)
    (t : list (webhook_event P)) (w : W)
    (t1 : list (webhook_event P)) (w1 : W) (r1 : webhook_event P) :
  handler_fail_safe handler ->
  process_attempt handler now i r t w = (t1, w1, r1) ->
  w1 <> w -> status r1 = processed.
Proof.
  intros Hsafe. unfold process_attempt.
  destruct (handler (event_type (start_attempt r)) (payload (start_attempt r)) w)
    as [w' [err | res]] eqn:Hrun.
  - intros [= _ <- _] Hchanged. apply Hsafe in Hrun. contradiction.
  - intros [= _ _ <-] _. reflexivity.
Qed.

Lemma deliver_changed (now : Z) (src : string) (eid : option string) (ty : string) (p : P)
    (t : list (webhook_event P)) (w : W)
    (t1 : list (webhook_event P)) (w1 : W) (r1 : webhook_event P) :
  handler_fail_safe handler ->
  deliver handler now src eid ty p t w = (t1, w1, r1) ->
  w1 <> w -> status r1 = processed.
Proof.
  intros Hsafe. unfold deliver.
  destruct (find_existing src eid t) as [[i r] |].
  - destruct (bool_decide (status r = processed) || bool_decide (status r = ignored)).
    { intros [= _ <- _] Hchanged. contradiction. }
    destruct (eligible r).
    + now apply process_attempt_changed.
    + intros [= _ <- _] Hchanged. contradiction.
  - destruct (insert_row (new_row src eid ty p) t) as [t' |].
    + now apply process_attempt_changed.
    + intros [= _ <- _] Hchanged. contradiction.
Qed.

Lemma deliver_all_done (src : string) (eid : option string) (i : nat)
    (r : webhook_event P) (t : list (webhook_event P)) (w : W) (ds : list (Z * string * P)) :
  find_existing src eid t = Some (i, r) ->
  status r = processed \/ status r = ignored ->
  deliver_all handler src eid ds t w = (t, w).
Proof.
  intros Hfind Hdone.
  assert (Hb : bool_decide (status r = processed) || bool_decide (status r = ignored) = true).
  { destruct Hdone as [H | H]; rewrite H; reflexivity. }
  induction ds as [| [[now ty] p] rest IH]; [reflexivity |].
  cbn [deliver_all]. unfold deliver. rewrite Hfind, Hb. exact IH.
Qed.

(** C9. Starting from a table that satisfies the uniqueness constraint,
    a delivery for [(source, externalEventId)] leaves a table that
    satisfies it and holds at most one record for these identifiers; a
    record found [processed] or [ignored] is returned unchanged, the
    table and the state the handler acts on untouched; once the delivery
    has left the record [processed] or [ignored], every later delivery
    with the same identifiers returns that record and changes neither the
    table nor the handler's state; and, for a handler whose failures leave
    its state as it was, a delivery that has changed the state is never
    followed by another change, however often the webhook is delivered
    again. *)
Theorem ledger_dedup_idempotent (now : Z) (src eid ty : string) (p : P)
    (t : list (webhook_event P)) (w : W)
    (t1 : list (webhook_event P)) (w1 : W) (r1 : webhook_event P) :
  unique_external_event t ->
  deliver handler now src (Some eid) ty p t w = (t1, w1, r1) ->
  unique_external_event t1
  /\ (count_rows src eid t1 <= 1)%nat
  /\ (forall i r,
        find_existing src (Some eid) t = Some (i, r) ->
        status r = processed \/ status r = ignored ->
        (t1, w1, r1) = (t, w, r))
  /\ (status r1 = processed \/ status r1 = ignored ->
      forall now' ty' p',
        deliver handler now' src (Some eid) ty' p' t1 w1 = (t1, w1, r1))
  /\ (handler_fail_safe handler -> w1 <> w ->
      forall ds, deliver_all handler src (Some eid) ds t1 w1 = (t1, w1)).
Proof.
  intros Huniq Hrun.
  destruct (deliver_found _ _ _ _ _ _ _ _ _ _ Huniq Hrun) as [Hu [i Hfind]].
  split; [exact Hu |]. split; [now apply count_rows_unique |]. split; [| split].
  - intros j r Hj Hdone. unfold deliver in Hrun. rewrite Hj in Hrun.
    assert (Hb : bool_decide (status r = processed) || bool_decide (status r = ignored) = true).
    { destruct Hdone as [H | H]; rewrite H; reflexivity. }
    rewrite Hb in Hrun. now symmetry.
  - intros Hdone now' ty' p'. unfold deliver. rewrite Hfind.
    assert (Hb : bool_decide (status r1 = processed) || bool_decide (status r1 = ignored) = true).
    { destruct Hdone as [H | H]; rewrite H; reflexivity. }
    now rewrite Hb.
  - intros Hsafe Hchanged ds.
    apply (deliver_all_done _ _ i r1); [exact Hfind |].
    left. exact (deliver_changed _ _ _ _ _ _ _ _ _ _ Hsafe Hrun Hchanged).
Qed.

End LedgerProperties.

(** ** Every event respects the state machine *)

Lemma legal_step_refl (st : Store) : legal_step st st.
Proof. intros id s Hs. exists s. auto. Qed.

Lemma legal_step_alter (f : TenantBillingData -> TenantBillingData) (st : Store) (id : string) :
  (forall tb, st !! id = Some tb ->
              billingStatus (f tb) = billingStatus tb
              \/ isValidTransition (billingStatus tb) (billingStatus (f tb)) = true) ->
  legal_step st (alter f id st).
Proof.
  intros Hf j s Hs. unfold stored_status in *. rewrite lookup_alter.
  destruct (decide (id = j)) as [<- | Hne]; [| exists s; auto].
  destruct (st !! id) as [tb |] eqn:Hstored; [| discriminate].
  cbn in *. injection Hs as <-. eexists. split; [reflexivity |]. now apply Hf.
Qed.

Lemma outcome_ok_legal {A : Type} (ok : A -> Prop) (st : Store)
    (out : Store * (BillingError + A)) :
  outcome_ok ok st out -> legal_step st out.1.
Proof.
  destruct out as [st' [e | a]]; cbn.
  - intros ->. apply legal_step_refl.
  - now intros [Hlegal _].
Qed.

Lemma outcome_ok_then {A B : Type} (ok : A -> Prop) (b : B) (st : Store)
    (out : Store * (BillingError + A)) (okB : B -> Prop) :
  outcome_ok ok st out -> okB b ->
  outcome_ok okB st
    (match out with
     | (st', inl e) => (st', inl e)
     | (st', inr _) => (st', inr b)
     end).
Proof.
  destruct out as [st' [e | a]]; cbn; [trivial |]. intros [Hlegal _] Hb. now split.
Qed.

(** [updateBillingStatus] from the stored status, possibly followed by an
    update [g] that keeps the status. *)
Lemma updateBillingStatus_legal (id : string) (tb : TenantBillingData) (newStatus : BillingStatus)
    (st : Store) (g : TenantBillingData -> TenantBillingData) :
  st !! id = Some tb ->
  (forall t, billingStatus (g t) = billingStatus t) ->
  match SubscriptionService.updateBillingStatus id (billingStatus tb) newStatus st with
  | (st', inl _) => st' = st
  | (st', inr _) => legal_step st st' /\ legal_step st (alter g id st')
  end.
Proof.
  intros Hstored Hg. unfold SubscriptionService.updateBillingStatus. run_async.
  destruct (bool_decide (billingStatus tb = newStatus)).
  - split; [apply legal_step_refl |]. apply legal_step_alter. intros t _. left. apply Hg.
  - destruct (isValidTransition (billingStatus tb) newStatus) eqn:Hvalid; cbn [negb]; [| reflexivity].
    split.
    + apply legal_step_alter. intros t Ht. rewrite Hstored in Ht. injection Ht as <-. now right.
    + rewrite alter_alter_eq. apply legal_step_alter.
      intros t Ht. rewrite Hstored in Ht. injection Ht as <-. right. cbn. now rewrite Hg.
Qed.

Lemma handlePaymentConfirmed_outcome (id : string) (paymentDate : JsDate) (st : Store) :
  outcome_ok (fun _ => True) st (SubscriptionService.handlePaymentConfirmed id paymentDate st).
Proof.
  unfold SubscriptionService.handlePaymentConfirmed. unfold await at 1. unfold getTenantBilling.
  destruct (st !! id) as [tb |] eqn:Hstored; [| reflexivity].
  cbv zeta. unfold await.
  destruct (subscriptionMetadata tb) as [m |].
  - pose proof (updateBillingStatus_legal id tb ACTIVE st
                  (apply_patch (mkPatch None
                     (Some (delete_daysOverdue (set_lastPaymentDate paymentDate m)))))
                  Hstored (fun _ => eq_refl)) as Hupd.
    destruct (SubscriptionService.updateBillingStatus id (billingStatus tb) ACTIVE st)
      as [st' [e | []]]; cbn; [exact Hupd | split; [apply Hupd | exact I]].
  - pose proof (updateBillingStatus_legal id tb ACTIVE st (fun t => t)
                  Hstored (fun _ => eq_refl)) as Hupd.
    destruct (SubscriptionService.updateBillingStatus id (billingStatus tb) ACTIVE st)
      as [st' [e | []]]; cbn; [exact Hupd | split; [apply Hupd | exact I]].
Qed.

Lemma handlePaymentOverdue_outcome (this : SubscriptionServiceConfig) (id : string)
    (d : JsNumber) (st : Store) :
  outcome_ok (fun _ => True) st (SubscriptionService.handlePaymentOverdue this id d st).
Proof.
  unfold SubscriptionService.handlePaymentOverdue. unfold await at 1. unfold getTenantBilling.
  destruct (st !! id) as [tb |] eqn:Hstored; [| reflexivity].
  cbv zeta. set (target := if js_geb d _ then SUSPENDED else OVERDUE). unfold await.
  destruct (bool_decide (billingStatus tb = target)); cbn [negb].
  - unfold resolve. destruct (subscriptionMetadata tb) as [m |]; cbn.
    + split; [| exact I]. apply legal_step_alter. intros t _. now left.
    + split; [apply legal_step_refl | exact I].
  - destruct (subscriptionMetadata tb) as [m |].
    + pose proof (updateBillingStatus_legal id tb target st
                    (apply_patch (mkPatch None (Some (set_daysOverdue d m))))
                    Hstored (fun _ => eq_refl)) as Hupd.
      destruct (SubscriptionService.updateBillingStatus id (billingStatus tb) target st)
        as [st' [e | []]]; cbn; [exact Hupd | split; [apply Hupd | exact I]].
    + pose proof (updateBillingStatus_legal id tb target st (fun t => t)
                    Hstored (fun _ => eq_refl)) as Hupd.
      destruct (SubscriptionService.updateBillingStatus id (billingStatus tb) target st)
        as [st' [e | []]]; cbn; [exact Hupd | split; [apply Hupd | exact I]].
Qed.

Lemma syncSubscriptionStatus_outcome (rt : Runtime) (this : SubscriptionServiceConfig)
    (id : string) (st : Store) :
  outcome_ok (fun _ => True) st (SubscriptionService.syncSubscriptionStatus rt this id st).
Proof.
  unfold SubscriptionService.syncSubscriptionStatus. unfold await at 1. unfold getTenantBilling.
  destruct (st !! id) as [tb |] eqn:Hstored; [| reflexivity].
  destruct (truthy (asaasSubscriptionId tb)); cbn [negb];
    [| split; [apply legal_step_refl | exact I]].
  unfold await at 1. unfold external.
  destruct (client_getSubscription (asaasClient this) (nullish (asaasSubscriptionId tb) ""))
    as [e | snapshot]; [reflexivity |].
  cbv zeta.
  set (newStatus := SubscriptionService.mapAsaasStatusToBillingStatus snapshot (billingStatus tb)).
  unfold await at 1.
  destruct (bool_decide (newStatus = billingStatus tb)); cbn [negb].
  - unfold resolve at 1.
    destruct (subscriptionMetadata tb) as [m |], (truthy (remote_nextDueDate snapshot));
      cbn; try (split; [apply legal_step_refl | exact I]).
    split; [| exact I]. apply legal_step_alter. intros t _. now left.
  - unfold await at 1.
    destruct (subscriptionMetadata tb) as [m |] eqn:Hm,
             (truthy (remote_nextDueDate snapshot)) eqn:Hnext.
    + pose proof (updateBillingStatus_legal id tb newStatus st
                    (apply_patch (mkPatch None
                       (Some (set_nextBillingDate
                                (Date_parse rt (nullish (remote_nextDueDate snapshot) "")) m))))
                    Hstored (fun _ => eq_refl)) as Hupd.
      destruct (SubscriptionService.updateBillingStatus id (billingStatus tb) newStatus st)
        as [st' [e | []]]; cbn; [exact Hupd |].
      rewrite ?Hm. cbn. unfold await, updateTenantBilling, resolve. cbn.
      split; [apply Hupd | exact I].
    + pose proof (updateBillingStatus_legal id tb newStatus st (fun t => t)
                    Hstored (fun _ => eq_refl)) as Hupd.
      destruct (SubscriptionService.updateBillingStatus id (billingStatus tb) newStatus st)
        as [st' [e | []]]; cbn; [exact Hupd |].
      rewrite ?Hm. cbn. split; [apply Hupd | exact I].
    + pose proof (updateBillingStatus_legal id tb newStatus st (fun t => t)
                    Hstored (fun _ => eq_refl)) as Hupd.
      destruct (SubscriptionService.updateBillingStatus id (billingStatus tb) newStatus st)
        as [st' [e | []]]; cbn; [exact Hupd |].
      rewrite ?Hm. cbn. split; [apply Hupd | exact I].
    + pose proof (updateBillingStatus_legal id tb newStatus st (fun t => t)
                    Hstored (fun _ => eq_refl)) as Hupd.
      destruct (SubscriptionService.updateBillingStatus id (billingStatus tb) newStatus st)
        as [st' [e | []]]; cbn; [exact Hupd |].
      rewrite ?Hm. cbn. split; [apply Hupd | exact I].
Qed.

(** A cancellation that throws has not touched the store; one that
    returns has made the transition to [canceled]. *)
Lemma cancelSubscription_outcome (this : SubscriptionServiceConfig) (id : string) (st : Store) :
  outcome_ok (fun _ => True) st (SubscriptionService.cancelSubscription this id st).
Proof.
  unfold SubscriptionService.cancelSubscription, try_catch. unfold await at 1.
  unfold getTenantBilling.
  destruct (st !! id) as [tb |] eqn:Hstored; [| reflexivity].
  destruct (truthy (asaasSubscriptionId tb)); cbn [negb]; [| reflexivity].
  destruct (isValidTransition (billingStatus tb) CANCELED) eqn:Hvalid; cbn [negb]; [| reflexivity].
  unfold await, external, updateTenantBilling.
  destruct (client_cancelSubscription (asaasClient this) (nullish (asaasSubscriptionId tb) ""))
    as [e | []].
  - destruct e; reflexivity.
  - split; [| exact I].
    apply legal_step_alter. intros t Ht. rewrite Hstored in Ht. injection Ht as <-. now right.
Qed.

Lemma payment_dispatch_outcome (rt : Runtime) (this : WebhookHandlerConfig) (eventType : string)
    (tenant : TenantBillingData) (pay : AsaasPaymentPayload) (st : Store) :
  outcome_ok (fun r => success r = true) st
    ((if String.eqb eventType "PAYMENT_CREATED"
      then WebhookHandler.handlePaymentCreated tenant pay
      else if String.eqb eventType "PAYMENT_CONFIRMED" || String.eqb eventType "PAYMENT_RECEIVED"
      then WebhookHandler.handlePaymentConfirmed rt this tenant pay
      else if String.eqb eventType "PAYMENT_OVERDUE"
      then WebhookHandler.handlePaymentOverdue rt this tenant pay
      else if String.eqb eventType "PAYMENT_REFUNDED"
      then WebhookHandler.handlePaymentRefunded tenant pay
      else resolve (mkResult true eventType (Some (tenant_id tenant))
                      (Some "payment_event_ignored") None)) st).
Proof.
  assert (Hidle : forall r, success r = true ->
            outcome_ok (fun r => success r = true) st (resolve r st)).
  { intros r Hr. split; [apply legal_step_refl | exact Hr]. }
  destruct (String.eqb eventType "PAYMENT_CREATED"); [now apply Hidle |].
  destruct (String.eqb eventType "PAYMENT_CONFIRMED" || String.eqb eventType "PAYMENT_RECEIVED").
  { unfold WebhookHandler.handlePaymentConfirmed, BillingService.handlePaymentConfirmed, await,
      resolve.
    set (paymentDate := if truthy (payment_confirmedDate pay) then _ else _).
    now apply (outcome_ok_then _ _ _ _ _ (handlePaymentConfirmed_outcome _ paymentDate st)). }
  destruct (String.eqb eventType "PAYMENT_OVERDUE").
  { unfold WebhookHandler.handlePaymentOverdue, BillingService.handlePaymentOverdue, await,
      resolve.
    cbv zeta. set (d := js_max0 _).
    now apply (outcome_ok_then _ _ _ _ _
                 (handlePaymentOverdue_outcome (subscriptionService (billingService this))
                    (tenant_id tenant) d st)). }
  destruct (String.eqb eventType "PAYMENT_REFUNDED"); now apply Hidle.
Qed.

Lemma subscription_dispatch_outcome (rt : Runtime) (this : WebhookHandlerConfig)
    (eventType : string) (tenant : TenantBillingData) (sub : AsaasSubscriptionPayload)
    (st : Store) :
  outcome_ok (fun r => success r = true) st
    ((if String.eqb eventType "SUBSCRIPTION_ACTIVATED"
      then WebhookHandler.handleSubscriptionActivated rt this tenant sub
      else if String.eqb eventType "SUBSCRIPTION_CANCELED"
      then WebhookHandler.handleSubscriptionCanceled rt this tenant sub
      else if String.eqb eventType "SUBSCRIPTION_UPDATED"
              || String.eqb eventType "SUBSCRIPTION_RENEWED"
      then WebhookHandler.handleSubscriptionUpdated rt this tenant sub
      else resolve (mkResult true eventType (Some (tenant_id tenant))
                      (Some "subscription_event_ignored") None)) st).
Proof.
  pose proof (syncSubscriptionStatus_outcome rt (subscriptionService (billingService this))
                (tenant_id tenant) st) as Hsync.
  destruct (String.eqb eventType "SUBSCRIPTION_ACTIVATED").
  { unfold WebhookHandler.handleSubscriptionActivated, BillingService.syncSubscriptionStatus,
      await, resolve.
    now apply (outcome_ok_then _ _ _ _ _ Hsync). }
  destruct (String.eqb eventType "SUBSCRIPTION_CANCELED").
  { unfold WebhookHandler.handleSubscriptionCanceled, BillingService.syncSubscriptionStatus,
      BillingService.cancelSubscription, await, try_catch, resolve.
    pose proof (cancelSubscription_outcome (subscriptionService (billingService this))
                  (tenant_id tenant) st) as Hcancel.
    destruct (SubscriptionService.cancelSubscription (subscriptionService (billingService this))
                (tenant_id tenant) st) as [st' [e | []]]; cbn in Hcancel.
    - subst st'.
      destruct (SubscriptionService.syncSubscriptionStatus rt
                  (subscriptionService (billingService this)) (tenant_id tenant) st)
        as [st' [e' | v]]; cbn in *; [exact Hsync | now split].
    - cbn. now split. }
  destruct (String.eqb eventType "SUBSCRIPTION_UPDATED" || String.eqb eventType "SUBSCRIPTION_RENEWED").
  { unfold WebhookHandler.handleSubscriptionUpdated, BillingService.syncSubscriptionStatus,
      await, resolve.
    now apply (outcome_ok_then _ _ _ _ _ Hsync). }
  split; [apply legal_step_refl | reflexivity].
Qed.

Lemma handleEvent_try_outcome (rt : Runtime) (this : WebhookHandlerConfig)
    (ev : AsaasWebhookEvent) (accessToken : option string) (st : Store) :
  outcome_ok (fun r => success r = true) st
    (WebhookHandler.handleEvent_try rt this ev accessToken st).
Proof.
  assert (Hidle : forall r, success r = true ->
            outcome_ok (fun r => success r = true) st (resolve r st)).
  { intros r Hr. split; [apply legal_step_refl | exact Hr]. }
  unfold WebhookHandler.handleEvent_try.
  destruct (negb (WebhookHandler.validateAccessToken this accessToken)); [reflexivity |].
  destruct (negb (isAsaasEventType (event ev))); [reflexivity |].
  destruct (isPaymentEvent (event ev)).
  - unfold WebhookHandler.handlePaymentEvent.
    destruct (payment ev) as [pay |]; [| reflexivity].
    unfold await at 1 2. unfold WebhookHandler.lookupBySubscriptionId,
      WebhookHandler.lookupByCustomerId, resolve at 1 2.
    destruct (truthy (payment_subscription pay)).
    + destruct (getTenantBySubscriptionId this st (nullish (payment_subscription pay) ""))
        as [tenant |]; [apply payment_dispatch_outcome |].
      destruct (getTenantByCustomerId this st (payment_customer pay)) as [tenant |];
        [apply payment_dispatch_outcome | now apply Hidle].
    + destruct (getTenantByCustomerId this st (payment_customer pay)) as [tenant |];
        [apply payment_dispatch_outcome | now apply Hidle].
  - destruct (isSubscriptionEvent (event ev)); [| now apply Hidle].
    unfold WebhookHandler.handleSubscriptionEvent.
    destruct (subscription ev) as [sub |]; [| reflexivity].
    unfold await at 1 2. unfold WebhookHandler.lookupBySubscriptionId,
      WebhookHandler.lookupByCustomerId, resolve at 1.
    destruct (getTenantBySubscriptionId this st (subscription_id sub)) as [tenant |];
      [apply subscription_dispatch_outcome |].
    destruct (getTenantByCustomerId this st (subscription_customer sub)) as [tenant |];
      [apply subscription_dispatch_outcome | now apply Hidle].
Qed.

(** Whatever the event, [handleEvent] leaves every tenant in its status
    or one transition of the adjacency table away from it. *)
Lemma handleEvent_legal (rt : Runtime) (this : WebhookHandlerConfig)
    (ev : AsaasWebhookEvent) (accessToken : option string) (st : Store) :
  legal_step st (WebhookHandler.handleEvent rt this ev accessToken st).1.
Proof.
  pose proof (outcome_ok_legal _ _ _ (handleEvent_try_outcome rt this ev accessToken st)) as Hlegal.
  unfold WebhookHandler.handleEvent.
  destruct (WebhookHandler.handleEvent_try rt this ev accessToken st) as [st' [e | r]];
    exact Hlegal.
Qed.

(** An event that is not a success has left the store as it was. *)
Lemma handleEvent_failure_unchanged (rt : Runtime) (this : WebhookHandlerConfig)
    (ev : AsaasWebhookEvent) (accessToken : option string) (st : Store) :
  success (WebhookHandler.handleEvent rt this ev accessToken st).2 = false ->
  (WebhookHandler.handleEvent rt this ev accessToken st).1 = st.
Proof.
  pose proof (handleEvent_try_outcome rt this ev accessToken st) as Hout.
  unfold WebhookHandler.handleEvent.
  destruct (WebhookHandler.handleEvent_try rt this ev accessToken st) as [st' [e | r]];
    cbn in *; [trivial |].
  destruct Hout as [_ Hr]. congruence.
Qed.

(** ** An active tenant is never suspended directly *)

(** C10. For a tenant whose stored status is [active], a PAYMENT_OVERDUE
    event whose [daysOverdue] reaches the suspension threshold targets
    [suspended], which is not in the adjacency row of [active]:
    [InvalidBillingTransitionError] is raised before any store update, the
    event result is [success = false] and the store, with the status
    [active], is returned as it was.  More generally no event moves a
    tenant from [active] to [suspended] in one step. *)
Theorem active_never_directly_suspended (rt : Runtime) (this : WebhookHandlerConfig)
    (ev : AsaasWebhookEvent) (accessToken : option string) (st : Store)
    (pay : AsaasPaymentPayload) (tenant tb : TenantBillingData) (x y : Z) :
  token_accepted this accessToken ->
  event ev = "PAYMENT_OVERDUE" ->
  payment ev = Some pay ->
  payment_resolves this st pay tenant ->
  st !! tenant_id tenant = Some tb ->
  billingStatus tb = ACTIVE ->
  spec_daysOverdue (Date_now rt) (Date_parse rt (payment_dueDate pay)) (JsNum x) ->
  spec_threshold (daysUntilSuspension (subscriptionService (billingService this))) (JsNum y) ->
  y <= x ->
  isValidTransition ACTIVE SUSPENDED = false
  /\ WebhookHandler.handleEvent_try rt this ev accessToken st =
       (st, inl (InvalidBillingTransitionError ACTIVE SUSPENDED))
  /\ WebhookHandler.handleEvent rt this ev accessToken st =
       (st, mkResult false "PAYMENT_OVERDUE" None None
              (Some "Invalid billing status transition from 'active' to 'suspended'"))
  /\ stored_status st (tenant_id tenant) = Some ACTIVE
  /\ (forall rt' this' ev' accessToken' st0 id,
        stored_status st0 id = Some ACTIVE ->
        stored_status (WebhookHandler.handleEvent rt' this' ev' accessToken' st0).1 id
        <> Some SUSPENDED).
Proof.
  intros Htoken Hevent Hpayment Hresolved Hstored Hstatus Hdays Hthreshold Hle.
  assert (Htarget : spec_target (JsNum x) (JsNum y) SUSPENDED) by (cbn; left; now split).
  destruct (payment_overdue_active_rejected rt this ev accessToken st pay tenant tb
              (JsNum x) (JsNum y) SUSPENDED Htoken Hevent Hpayment Hresolved Hstored
              Hdays Hthreshold Htarget x y Hstatus eq_refl eq_refl Hle) as [Htry Hresult].
  split; [reflexivity |]. split; [exact Htry |]. split; [exact Hresult |]. split.
  - unfold stored_status. rewrite Hstored. cbn. now rewrite Hstatus.
  - intros rt' this' ev' accessToken' st0 id Hactive Hsuspended.
    destruct (handleEvent_legal rt' this' ev' accessToken' st0 id ACTIVE Hactive)
      as (s' & Hs' & Hstep).
    rewrite Hsuspended in Hs'. injection Hs' as <-.
    destruct Hstep as [Heq | Hvalid]; discriminate.
Qed.

(** * The statements on the concrete tenant *)

Lemma example_token_accepted (remote : string) (accessToken : option string) :
  token_accepted (example_handler remote) accessToken.
Proof. left. reflexivity. Qed.

Lemma example_payment_resolves (remote : string) (s : BillingStatus) :
  payment_resolves (example_handler remote) (example_store s) example_payment (example_tenant s).
Proof.
  left. exists "sub_1". split; [reflexivity |]. split; [discriminate |].
  cbn. unfold example_store. apply lookup_singleton_eq.
Qed.

Lemma example_subscription_resolves (remote : string) (s : BillingStatus) :
  subscription_resolves (example_handler remote) (example_store s) example_subscription
    (example_tenant s).
Proof. left. cbn. unfold example_store. apply lookup_singleton_eq. Qed.

Lemma example_stored (s : BillingStatus) :
  example_store s !! tenant_id (example_tenant s) = Some (example_tenant s).
Proof. unfold example_store. apply lookup_singleton_eq. Qed.

Lemma example_daysOverdue :
  spec_daysOverdue (Date_now example_runtime)
    (Date_parse example_runtime (payment_dueDate example_payment)) (JsNum 16).
Proof.
  apply (daysOverdue_valid (Date_now example_runtime) 0 16).
  unfold is_floor_days. cbn [Date_now example_runtime]. unfold day_ms. lia.
Qed.

Lemma example_threshold (remote : string) :
  spec_threshold
    (daysUntilSuspension (subscriptionService (billingService (example_handler remote))))
    (JsNum 15).
Proof. apply createBillingService_threshold. right. split; reflexivity. Qed.

Lemma payment_overdue_target_witness :
  (token_accepted (example_handler "ACTIVE") None
   /\ payment_resolves (example_handler "ACTIVE") (example_store OVERDUE) example_payment
        (example_tenant OVERDUE)
   /\ spec_daysOverdue (Date_now example_runtime)
        (Date_parse example_runtime (payment_dueDate example_payment)) (JsNum 16)
   /\ spec_target (JsNum 16) (JsNum 15) SUSPENDED)
  /\ exists st' result,
       WebhookHandler.handleEvent example_runtime (example_handler "ACTIVE")
         (example_event "PAYMENT_OVERDUE") None (example_store OVERDUE) = (st', result)
       /\ success result = true
       /\ stored_status st' "tenant-1" = Some SUSPENDED
       /\ stored_daysOverdue st' "tenant-1" = Some (JsNum 16).
Proof.
  assert (Htarget : spec_target (JsNum 16) (JsNum 15) SUSPENDED) by (cbn; left; split; [lia | reflexivity]).
  split.
  - split; [apply example_token_accepted |]. split; [apply example_payment_resolves |].
    split; [apply example_daysOverdue | exact Htarget].
  - destruct (payment_overdue_target example_runtime (example_handler "ACTIVE")
                (example_event "PAYMENT_OVERDUE") None (example_store OVERDUE) example_payment
                (example_tenant OVERDUE) (example_tenant OVERDUE) (JsNum 16) (JsNum 15) SUSPENDED
                (example_token_accepted _ _) eq_refl eq_refl (example_payment_resolves _ _)
                (example_stored _) example_daysOverdue (example_threshold _) Htarget)
      as (_ & _ & Hexample).
    destruct (Hexample eq_refl eq_refl eq_refl) as (st' & result & Hrun & Hok & Hstatus & Hdays).
    exists st', result. split; [exact Hrun |]. split; [exact Hok |]. split; [exact Hstatus |].
    apply (Hdays example_metadata). reflexivity.
Defined.



Lemma payment_confirmed_canceled_rejected_witness :
  example_store CANCELED !! "tenant-1" = Some (example_tenant CANCELED)
  /\ WebhookHandler.handleEvent example_runtime (example_handler "ACTIVE")
       (example_event "PAYMENT_CONFIRMED") None (example_store CANCELED) =
     (example_store CANCELED,
      mkResult false "PAYMENT_CONFIRMED" None None
        (Some "Invalid billing status transition from 'canceled' to 'active'")).
Proof.
  split; [apply example_stored |].
  apply (payment_confirmed_canceled_rejected example_runtime (example_handler "ACTIVE")
           (example_event "PAYMENT_CONFIRMED") None (example_store CANCELED) example_payment
           (example_tenant CANCELED) (example_tenant CANCELED)
           (example_token_accepted _ _) eq_refl eq_refl (example_payment_resolves _ _)
           (example_stored _) eq_refl).
Defined.

(** The example handler with an access token configured. *)
Lemma handleEvent_fails_closed_witness :
  let guarded :=
    mkWebhookHandlerConfig (billingService (example_handler "ACTIVE"))
      (getTenantByCustomerId (example_handler "ACTIVE"))
      (getTenantBySubscriptionId (example_handler "ACTIVE")) (Some "secret") None in
  WebhookHandler.handleEvent example_runtime guarded (example_event "PAYMENT_CONFIRMED")
    (Some "guess") (example_store OVERDUE) =
    (example_store OVERDUE,
     mkResult false "PAYMENT_CONFIRMED" None None (Some "Invalid webhook access token"))
  /\ (exists message eventType0,
        WebhookHandler.handleEvent_try example_runtime (example_handler "ACTIVE")
          (example_event "PAYMENT_PAID") None (example_store OVERDUE) =
          (example_store OVERDUE, inl (WebhookInvalidError message eventType0))
        /\ message = "Unknown event type: PAYMENT_PAID")
  /\ WebhookHandler.handleEvent example_runtime (example_handler "ACTIVE")
       (example_event "TRANSFER_DONE") None (example_store OVERDUE) =
     (example_store OVERDUE, mkResult true "TRANSFER_DONE" None (Some "ignored") None).
Proof.
  cbv zeta. split; [| split].
  - apply (handleEvent_fails_closed example_runtime).
    exists "secret". split; [reflexivity |]. split; discriminate.
  - destruct (handleEvent_fails_closed example_runtime (example_handler "ACTIVE")
                (example_event "PAYMENT_PAID") None (example_store OVERDUE))
      as (_ & Hunknown & _).
    destruct Hunknown as (message & eventType0 & Htry & _ & Hmessage).
    + intros Hin. apply isAsaasEventType_In in Hin. discriminate.
    + exists message, eventType0. split; [exact Htry |].
      apply Hmessage. apply example_token_accepted.
  - apply (handleEvent_fails_closed example_runtime (example_handler "ACTIVE")
             (example_event "TRANSFER_DONE") None (example_store OVERDUE)).
    + apply example_token_accepted.
    + apply isAsaasEventType_In. reflexivity.
    + reflexivity.
    + reflexivity.
Defined.

Lemma subscription_canceled_already_canceled_witness :
  sync_keeps_canceled (example_client "EXPIRED") (example_tenant CANCELED)
  /\ exists st' result,
       WebhookHandler.handleEvent example_runtime (example_handler "EXPIRED")
         (example_event "SUBSCRIPTION_CANCELED") None (example_store CANCELED) = (st', result)
       /\ stored_status st' "tenant-1" = Some CANCELED
       /\ result = mkResult true "SUBSCRIPTION_CANCELED" (Some "tenant-1")
                     (Some "tenant_canceled") None.
Proof.
  assert (Hsync : sync_keeps_canceled (example_client "EXPIRED") (example_tenant CANCELED)).
  { right. right. exists "sub_1", (mkSubscription "EXPIRED" false None).
    split; [reflexivity |]. split; [reflexivity |]. right. split; discriminate. }
  split; [exact Hsync |].
  destruct (subscription_canceled_already_canceled example_runtime (example_handler "EXPIRED")
              (example_event "SUBSCRIPTION_CANCELED") None (example_store CANCELED)
              example_subscription (example_tenant CANCELED) (example_tenant CANCELED)
              (example_token_accepted _ _) eq_refl eq_refl (example_subscription_resolves _ _)
              (example_stored _) eq_refl)
    as (_ & _ & st' & result & Hrun & Hstatus & Hiff & Hresult).
  exists st', result. split; [exact Hrun |]. split; [exact Hstatus |].
  apply Hresult. apply Hiff. exact Hsync.
Defined.

(** C7 as stated fails: the tenant is [canceled] locally and the remote
    snapshot, not deleted, says ACTIVE; the fallback sync raises
    [InvalidBillingTransitionError] and the result is not a success. *)
Lemma subscription_canceled_sync_error_surfaces :
  ~ (forall (rt : Runtime) (this : WebhookHandlerConfig) (ev : AsaasWebhookEvent)
            (accessToken : option string) (st : Store) (sub : AsaasSubscriptionPayload)
            (tenant tb : TenantBillingData),
        token_accepted this accessToken ->
        event ev = "SUBSCRIPTION_CANCELED" ->
        subscription ev = Some sub ->
        subscription_resolves this st sub tenant ->
        st !! tenant_id tenant = Some tb ->
        billingStatus tb = CANCELED ->
        success (WebhookHandler.handleEvent rt this ev accessToken st).2 = true).
Proof.
  intros Hclaim.
  specialize (Hclaim example_runtime (example_handler "ACTIVE")
                (example_event "SUBSCRIPTION_CANCELED") None (example_store CANCELED)
                example_subscription (example_tenant CANCELED) (example_tenant CANCELED)
                (example_token_accepted _ _) eq_refl eq_refl (example_subscription_resolves _ _)
                (example_stored _) eq_refl).
  vm_compute in Hclaim. discriminate.
Qed.

Lemma getBillingContext_projection_witness :
  example_store OVERDUE !! "tenant-1" = Some (example_tenant OVERDUE)
  /\ exists context,
       BillingEnforcer.getBillingContext (example_store OVERDUE) "tenant-1" = Some context
       /\ ctx_billingStatus context = OVERDUE
       /\ ctx_isOverdue context = true
       /\ ctx_daysOverdue context = Some (JsNum 10).
Proof.
  split; [apply example_stored |].
  destruct (getBillingContext_projection (example_store OVERDUE) "tenant-1"
              (example_tenant OVERDUE) (example_stored OVERDUE))
    as (context & Hget & Hstatus & _ & _ & Hoverdue & _ & Hdays & _).
  exists context. split; [exact Hget |]. split; [exact Hstatus |].
  split; [now apply Hoverdue | exact Hdays].
Defined.

Lemma active_never_directly_suspended_witness :
  example_store ACTIVE !! "tenant-1" = Some (example_tenant ACTIVE)
  /\ WebhookHandler.handleEvent example_runtime (example_handler "ACTIVE")
       (example_event "PAYMENT_OVERDUE") None (example_store ACTIVE) =
     (example_store ACTIVE,
      mkResult false "PAYMENT_OVERDUE" None None
        (Some "Invalid billing status transition from 'active' to 'suspended'")).
Proof.
  split; [apply example_stored |].
  apply (active_never_directly_suspended example_runtime (example_handler "ACTIVE")
           (example_event "PAYMENT_OVERDUE") None (example_store ACTIVE) example_payment
           (example_tenant ACTIVE) (example_tenant ACTIVE) 16 15
           (example_token_accepted _ _) eq_refl eq_refl (example_payment_resolves _ _)
           (example_stored _) eq_refl example_daysOverdue (example_threshold _)).
  lia.
Defined.

Lemma ledger_handleEvent_fail_safe (rt : Runtime) (this : WebhookHandlerConfig)
    (accessToken : option string) :
  Ledger.handler_fail_safe (ledger_handleEvent rt this accessToken).
Proof.
  intros ty ev st st' err. unfold ledger_handleEvent.
  pose proof (handleEvent_failure_unchanged rt this ev accessToken st) as Hsame.
  destruct (WebhookHandler.handleEvent rt this ev accessToken st) as [st1 result]. cbn in Hsame.
  destruct (success result); [discriminate |].
  intros [= <- _]. now apply Hsame.
Qed.

(** The ledger in front of the dispatcher: a first delivery of [evt_1], a
    PAYMENT_OVERDUE event for the [overdue] tenant, suspends the tenant
    and leaves the record [processed]; delivering it again, twice, changes
    neither the ledger nor the tenant store. *)
Lemma ledger_dedup_idempotent_witness :
  let handler := ledger_handleEvent example_runtime (example_handler "ACTIVE") None in
  let '(t1, w1, r1) :=
    Ledger.deliver handler 100 "asaas" (Some "evt_1") "PAYMENT_OVERDUE"
      (example_event "PAYMENT_OVERDUE") [] (example_store OVERDUE) in
  Ledger.unique_external_event ([] : list (Ledger.webhook_event AsaasWebhookEvent))
  /\ Ledger.status r1 = Ledger.processed
  /\ stored_status w1 "tenant-1" = Some SUSPENDED
  /\ (Ledger.count_rows "asaas" "evt_1" t1 <= 1)%nat
  /\ Ledger.deliver_all handler "asaas" (Some "evt_1")
       [(200, "PAYMENT_OVERDUE", example_event "PAYMENT_OVERDUE");
        (300, "PAYMENT_OVERDUE", example_event "PAYMENT_OVERDUE")] t1 w1 = (t1, w1).
Proof.
  cbv zeta.
  destruct (Ledger.deliver (ledger_handleEvent example_runtime (example_handler "ACTIVE") None)
              100 "asaas" (Some "evt_1") "PAYMENT_OVERDUE" (example_event "PAYMENT_OVERDUE")
              [] (example_store OVERDUE)) as [[t1 w1] r1] eqn:Hrun.
  destruct (ledger_dedup_idempotent
              (ledger_handleEvent example_runtime (example_handler "ACTIVE") None)
              100 "asaas" "evt_1" "PAYMENT_OVERDUE" (example_event "PAYMENT_OVERDUE")
              [] (example_store OVERDUE) t1 w1 r1 I Hrun) as (_ & Hcount & _ & _ & Honce).
  assert (Hdone : Ledger.status r1 = Ledger.processed
                  /\ stored_status w1 "tenant-1" = Some SUSPENDED).
  { vm_compute in Hrun. injection Hrun as <- <- <-. split; reflexivity. }
  destruct Hdone as [Hstatus Hsuspended].
  split; [exact I |]. split; [exact Hstatus |]. split; [exact Hsuspended |].
  split; [exact Hcount |].
  apply Honce; [apply ledger_handleEvent_fail_safe |].
  intros Hsame. rewrite Hsame in Hsuspended. vm_compute in Hsuspended. discriminate.
Defined.

(** * Further properties of the code *)

(** ** billing-status.ts *)

(** X1. [isBillingStatus] accepts exactly the strings that are the value
    of a status, and distinct statuses have distinct values: the value of
    a status is recognised and determines the status. *)
Theorem isBillingStatus_values (value : string) :
  (isBillingStatus value = true <-> exists s, BillingStatus_value s = value)
  /\ (forall s1 s2, BillingStatus_value s1 = BillingStatus_value s2 -> s1 = s2)
  /\ isBillingStatus "ACTIVE" = false.
Proof.
  split; [| split].
  - unfold isBillingStatus. rewrite existsb_exists. split.
    + intros (x & Hin & Heq). apply String.eqb_eq in Heq. subst x.
      apply in_map_iff in Hin as (s & Hs & _). now exists s.
    + intros [s <-]. exists (BillingStatus_value s). split; [| apply String.eqb_refl].
      apply in_map. destruct s; cbn; auto 10.
  - intros s1 s2. destruct s1, s2; cbn; intros H; try reflexivity; discriminate.
  - reflexivity.
Qed.

(** X2. The access levels split the statuses: no status has both full and
    limited access, and a status has no access at all exactly when it is
    [suspended] or [canceled]. *)
Theorem access_levels_partition (status : BillingStatus) :
  hasFullAccess status && hasLimitedAccess status = false
  /\ (hasFullAccess status = true <-> status = ACTIVE \/ status = TRIAL)
  /\ (hasLimitedAccess status = true <-> status = OVERDUE \/ status = PENDING_PAYMENT)
  /\ (hasAnyAccess status = false <-> status = SUSPENDED \/ status = CANCELED).
Proof.
  destruct status; cbn; intuition (discriminate || reflexivity).
Qed.

(** X3. Shape of the transition table: [canceled] is reachable from every
    other status; no status leads to [trial]; [suspended] is entered from
    [overdue] only and [pending_payment] from [trial] only; a status
    without any access is left only towards [active] or [canceled]. *)
Theorem transition_table_shape (from to : BillingStatus) :
  (from <> CANCELED -> isValidTransition from CANCELED = true)
  /\ isValidTransition from TRIAL = false
  /\ (isValidTransition from SUSPENDED = true -> from = OVERDUE)
  /\ (isValidTransition from PENDING_PAYMENT = true -> from = TRIAL)
  /\ (hasAnyAccess from = false -> isValidTransition from to = true ->
      to = ACTIVE \/ to = CANCELED).
Proof.
  repeat split.
  - destruct from; intros H; try reflexivity. contradiction.
  - destruct from; reflexivity.
  - destruct from; cbn; intros H; try reflexivity; discriminate.
  - destruct from; cbn; intros H; try reflexivity; discriminate.
  - destruct from, to; cbn; intros H1 H2; try discriminate; auto.
Qed.

Lemma transition_table_shape_witness :
  isValidTransition SUSPENDED CANCELED = true
  /\ (isValidTransition OVERDUE SUSPENDED = true /\ OVERDUE = OVERDUE)
  /\ (isValidTransition TRIAL PENDING_PAYMENT = true /\ TRIAL = TRIAL)
  /\ (hasAnyAccess SUSPENDED = false /\ isValidTransition SUSPENDED ACTIVE = true
      /\ (ACTIVE = ACTIVE \/ ACTIVE = CANCELED)).
Proof.
  destruct (transition_table_shape SUSPENDED ACTIVE) as (Hcancel & _ & _ & _ & Hblocked).
  destruct (transition_table_shape OVERDUE ACTIVE) as (_ & _ & Hsuspended & _).
  destruct (transition_table_shape TRIAL ACTIVE) as (_ & _ & _ & Hpending & _).
  split; [apply Hcancel; discriminate |].
  split; [split; [reflexivity | apply Hsuspended; reflexivity] |].
  split; [split; [reflexivity | apply Hpending; reflexivity] |].
  split; [reflexivity |]. split; [reflexivity |]. apply Hblocked; reflexivity.
Defined.

(** ** asaas-events.ts *)

Lemma prefixes_disjoint (eventType : string) :
  isPaymentEvent eventType && isSubscriptionEvent eventType = false.
Proof.
  unfold isPaymentEvent, isSubscriptionEvent, startsWith.
  destruct eventType as [| [b0 b1 b2 b3 b4 b5 b6 b7] rest]; [reflexivity |].
  destruct b0, b1, b2, b3, b4, b5, b6, b7; cbn; first [reflexivity | apply andb_false_r].
Qed.

(** X4. Event types are classified consistently: no string is both a
    payment and a subscription event; every required event is a known
    type and is a payment or a subscription event; every known type that
    is neither is a transfer or an invoice event. *)
Theorem event_classification (eventType : string) :
  isPaymentEvent eventType && isSubscriptionEvent eventType = false
  /\ (In eventType requiredAsaasEvents ->
      isAsaasEventType eventType = true
      /\ isPaymentEvent eventType || isSubscriptionEvent eventType = true)
  /\ (isAsaasEventType eventType = true ->
      isPaymentEvent eventType = false ->
      isSubscriptionEvent eventType = false ->
      startsWith eventType "TRANSFER_" = true \/ startsWith eventType "INVOICE_" = true).
Proof.
  split; [apply prefixes_disjoint |]. split.
  - intros Hin. repeat (destruct Hin as [<- | Hin]; [split; reflexivity |]). destruct Hin.
  - intros Hknown. apply isAsaasEventType_In in Hknown.
    repeat (destruct Hknown as [<- | Hknown];
            [intros Hp Hs; first [discriminate Hp | discriminate Hs
                                  | left; reflexivity | right; reflexivity] |]).
    destruct Hknown.
Qed.

Lemma event_classification_witness :
  (In "PAYMENT_OVERDUE" requiredAsaasEvents /\ isAsaasEventType "PAYMENT_OVERDUE" = true)
  /\ (isAsaasEventType "INVOICE_ERROR" = true /\ startsWith "INVOICE_ERROR" "INVOICE_" = true).
Proof.
  destruct (event_classification "PAYMENT_OVERDUE") as (_ & Hrequired & _).
  destruct (event_classification "INVOICE_ERROR") as (_ & _ & Hother).
  split.
  - assert (Hin : In "PAYMENT_OVERDUE" requiredAsaasEvents) by (cbn; auto 10).
    split; [exact Hin | apply (Hrequired Hin)].
  - split; [reflexivity |].
    destruct (Hother eq_refl eq_refl eq_refl) as [H | H]; [discriminate H | exact H].
Defined.

(** ** billing-enforcer.ts and the read-only methods of billing-service.ts *)

(** X5. Without [throwOnDenial], the three verdicts of the enforcer are
    exclusive and exhaustive: a tenant is active, or has limited access
    only, or is suspended or canceled; [requireAnyAccess] is the negation
    of [isSuspendedOrCanceled]; an unknown tenant counts as suspended or
    canceled. *)
Theorem enforcer_verdicts_exclusive (this : BillingEnforcerConfig) (st : Store) (id : string) :
  throwOnDenial this <> Some true ->
  ((BillingEnforcer.requireActive this st id = inr true
    /\ BillingEnforcer.hasLimitedAccessOnly st id = false
    /\ BillingEnforcer.isSuspendedOrCanceled st id = false)
   \/ (BillingEnforcer.requireActive this st id = inr false
       /\ BillingEnforcer.hasLimitedAccessOnly st id = true
       /\ BillingEnforcer.isSuspendedOrCanceled st id = false)
   \/ (BillingEnforcer.requireActive this st id = inr false
       /\ BillingEnforcer.hasLimitedAccessOnly st id = false
       /\ BillingEnforcer.isSuspendedOrCanceled st id = true))
  /\ BillingEnforcer.requireAnyAccess this st id
     = inr (negb (BillingEnforcer.isSuspendedOrCanceled st id))
  /\ (st !! id = None -> BillingEnforcer.isSuspendedOrCanceled st id = true).
Proof.
  intros Hmode.
  assert (Hdeny : forall s m r, BillingEnforcer.handleDenial this s m r = inr false).
  { intros s m r. unfold BillingEnforcer.handleDenial.
    destruct (throwOnDenial this) as [[] |]; [contradiction | reflexivity | reflexivity]. }
  unfold BillingEnforcer.requireActive, BillingEnforcer.requireAnyAccess,
    BillingEnforcer.hasLimitedAccessOnly, BillingEnforcer.isSuspendedOrCanceled.
  destruct (st !! id) as [billing |].
  - rewrite !Hdeny.
    destruct (billingStatus billing); cbn; intuition congruence.
  - rewrite !Hdeny. intuition congruence.
Qed.

Lemma enforcer_verdicts_exclusive_witness :
  throwOnDenial (mkBillingEnforcerConfig (Some false)) <> Some true
  /\ BillingEnforcer.requireAnyAccess (mkBillingEnforcerConfig (Some false))
       (example_store SUSPENDED) "tenant-1" = inr false
  /\ BillingEnforcer.requireAnyAccess (mkBillingEnforcerConfig (Some false))
       (example_store OVERDUE) "tenant-1" = inr true.
Proof.
  assert (Hmode : throwOnDenial (mkBillingEnforcerConfig (Some false)) <> Some true)
    by discriminate.
  split; [exact Hmode |]. split.
  - destruct (enforcer_verdicts_exclusive (mkBillingEnforcerConfig (Some false))
                (example_store SUSPENDED) "tenant-1" Hmode) as (_ & Hany & _).
    rewrite Hany. reflexivity.
  - destruct (enforcer_verdicts_exclusive (mkBillingEnforcerConfig (Some false))
                (example_store OVERDUE) "tenant-1" Hmode) as (_ & Hany & _).
    rewrite Hany. reflexivity.
Defined.

(** X6. An enforcer built by [createBillingEnforcer] without
    [throwOnDenial: false] never answers [false]: [requireActive] and
    [requireAnyAccess] return [true] or throw, and the error carries the
    stored status of the tenant, [canceled] for a tenant that is not
    stored. *)
Theorem enforcer_throws_on_denial (config : BillingEnforcerConfig) (st : Store) (id : string) :
  throwOnDenial config <> Some false ->
  let this := BillingEnforcer.createBillingEnforcer config in
  let reported := nullish (BillingEnforcer.getBillingStatus st id) CANCELED in
  match BillingEnforcer.requireActive this st id with
  | inr answer => answer = true /\ BillingService.isTenantInGoodStanding st id = true
  | inl denial =>
      denial_currentStatus denial = reported
      /\ BillingService.isTenantInGoodStanding st id = false
  end
  /\ match BillingEnforcer.requireAnyAccess this st id with
     | inr answer => answer = true /\ BillingEnforcer.isSuspendedOrCanceled st id = false
     | inl denial =>
         denial_currentStatus denial = reported
         /\ BillingEnforcer.isSuspendedOrCanceled st id = true
     end.
Proof.
  intros Hmode. cbv zeta.
  assert (Hthrow : throwOnDenial (BillingEnforcer.createBillingEnforcer config) = Some true).
  { unfold BillingEnforcer.createBillingEnforcer. cbn.
    destruct (throwOnDenial config) as [[] |]; [reflexivity | contradiction | reflexivity]. }
  unfold BillingEnforcer.requireActive, BillingEnforcer.requireAnyAccess,
    BillingEnforcer.handleDenial, BillingEnforcer.getBillingStatus,
    BillingEnforcer.isSuspendedOrCanceled, BillingService.isTenantInGoodStanding.
  rewrite Hthrow.
  destruct (st !! id) as [billing |]; [| cbn; auto].
  destruct (billingStatus billing); vm_compute; auto.
Qed.

Lemma enforcer_throws_on_denial_witness :
  throwOnDenial (mkBillingEnforcerConfig None) <> Some false
  /\ BillingEnforcer.requireActive
       (BillingEnforcer.createBillingEnforcer (mkBillingEnforcerConfig None))
       (example_store ACTIVE) "tenant-1" = inr true
  /\ exists denial,
       BillingEnforcer.requireActive
         (BillingEnforcer.createBillingEnforcer (mkBillingEnforcerConfig None))
         (example_store ACTIVE) "tenant-2" = inl denial
       /\ denial_currentStatus denial = CANCELED.
Proof.
  assert (Hmode : throwOnDenial (mkBillingEnforcerConfig None) <> Some false) by discriminate.
  split; [exact Hmode |]. split.
  - destruct (enforcer_throws_on_denial (mkBillingEnforcerConfig None)
                (example_store ACTIVE) "tenant-1" Hmode) as [Hactive _].
    cbv zeta in Hactive.
    destruct (BillingEnforcer.requireActive _ (example_store ACTIVE) "tenant-1")
      as [denial | answer].
    + destruct Hactive as [_ Hstanding]. vm_compute in Hstanding. discriminate.
    + destruct Hactive as [-> _]. reflexivity.
  - destruct (enforcer_throws_on_denial (mkBillingEnforcerConfig None)
                (example_store ACTIVE) "tenant-2" Hmode) as [Hactive _].
    cbv zeta in Hactive.
    destruct (BillingEnforcer.requireActive _ (example_store ACTIVE) "tenant-2")
      as [denial | answer].
    + exists denial. split; [reflexivity |]. destruct Hactive as [-> _]. reflexivity.
    + destruct Hactive as [_ Hstanding]. vm_compute in Hstanding. discriminate.
Defined.

(** X7. The enforcer, the billing service, the policy functions and the
    billing context agree on a tenant: good standing is
    [subscriptionActive] and the active policy, limited access is the same
    in the service and in the enforcer, the trial policy is [inTrial],
    the any-access policy is the negation of [isSuspendedOrCanceled], and
    [isSuspended] of the context is [isSuspendedOrCanceled]; each of the
    three policies, asked about a user without tenant id or with an empty
    one, answers [false]. *)
Theorem access_views_agree (st : Store) (id : string) :
  BillingService.hasTenantLimitedAccess st id = BillingEnforcer.hasLimitedAccessOnly st id
  /\ (forall context,
        BillingEnforcer.getBillingContext st id = Some context ->
        ctx_subscriptionActive context = BillingService.isTenantInGoodStanding st id
        /\ ctx_inTrial context = BillingEnforcer.inTrial st id
        /\ ctx_isSuspended context = BillingEnforcer.isSuspendedOrCanceled st id
        /\ Some (ctx_billingStatus context) = BillingEnforcer.getBillingStatus st id)
  /\ (id <> "" ->
      BillingEnforcer.createActiveBillingPolicy st (mkPolicyUser (Some id))
      = BillingService.isTenantInGoodStanding st id
      /\ BillingEnforcer.createTrialBillingPolicy st (mkPolicyUser (Some id))
         = BillingEnforcer.inTrial st id
      /\ BillingEnforcer.createAnyAccessBillingPolicy st (mkPolicyUser (Some id))
         = negb (BillingEnforcer.isSuspendedOrCanceled st id))
  /\ (forall user,
        user_tenant_id user = None \/ user_tenant_id user = Some "" ->
        BillingEnforcer.createActiveBillingPolicy st user = false
        /\ BillingEnforcer.createAnyAccessBillingPolicy st user = false
        /\ BillingEnforcer.createTrialBillingPolicy st user = false).
Proof.
  split; [| split; [| split]].
  - unfold BillingService.hasTenantLimitedAccess, BillingEnforcer.hasLimitedAccessOnly.
    destruct (st !! id) as [billing |]; [| reflexivity].
    destruct (billingStatus billing); reflexivity.
  - intros context. unfold BillingEnforcer.getBillingContext, BillingService.isTenantInGoodStanding,
      BillingEnforcer.inTrial, BillingEnforcer.isSuspendedOrCanceled,
      BillingEnforcer.getBillingStatus.
    destruct (st !! id) as [billing |]; [| discriminate].
    intros [= <-]. unfold BillingEnforcer.contextOf.
    destruct (BillingEnforcer.metadata_daysOverdue billing);
      destruct (billingStatus billing); cbn; auto.
  - intros Hne. apply String.eqb_neq in Hne.
    unfold BillingEnforcer.createActiveBillingPolicy, BillingEnforcer.createTrialBillingPolicy,
      BillingEnforcer.createAnyAccessBillingPolicy, BillingService.isTenantInGoodStanding,
      BillingEnforcer.inTrial, BillingEnforcer.isSuspendedOrCanceled.
    cbn [truthy user_tenant_id nullish]. rewrite Hne. cbn [negb].
    destruct (st !! id) as [billing |]; [| auto].
    destruct (billingStatus billing); cbn; auto.
  - intros user Hmissing.
    unfold BillingEnforcer.createActiveBillingPolicy, BillingEnforcer.createTrialBillingPolicy,
      BillingEnforcer.createAnyAccessBillingPolicy.
    destruct Hmissing as [-> | ->]; repeat split; reflexivity.
Qed.

Lemma access_views_agree_witness :
  BillingEnforcer.createAnyAccessBillingPolicy (example_store OVERDUE)
    (mkPolicyUser (Some "tenant-1")) = true
  /\ BillingEnforcer.createTrialBillingPolicy (example_store TRIAL) (mkPolicyUser (Some "")) = false
  /\ exists context,
       BillingEnforcer.getBillingContext (example_store SUSPENDED) "tenant-1" = Some context
       /\ ctx_isSuspended context = true.
Proof.
  split; [| split].
  - destruct (access_views_agree (example_store OVERDUE) "tenant-1") as (_ & _ & Hpolicy & _).
    destruct Hpolicy as (_ & _ & Hany); [discriminate |]. rewrite Hany. reflexivity.
  - destruct (access_views_agree (example_store TRIAL) "tenant-1") as (_ & _ & _ & Hmissing).
    apply (Hmissing (mkPolicyUser (Some ""))). now right.
  - destruct (access_views_agree (example_store SUSPENDED) "tenant-1") as (_ & Hctx & _).
    exists (BillingEnforcer.contextOf (example_tenant SUSPENDED)).
    assert (Hget : BillingEnforcer.getBillingContext (example_store SUSPENDED) "tenant-1"
                   = Some (BillingEnforcer.contextOf (example_tenant SUSPENDED))) by reflexivity.
    split; [exact Hget |].
    destruct (Hctx _ Hget) as (_ & _ & Hsuspended & _). rewrite Hsuspended. reflexivity.
Defined.

(** ** webhook-handler.ts: which records an event touches *)

Lemma touches_only_refl (id : string) (st : Store) : touches_only id st st.
Proof.
  split; [| reflexivity].
  intros j. destruct (st !! j) as [t |]; [| exact I]. repeat split.
Qed.

Lemma touches_only_trans (id : string) (st1 st2 st3 : Store) :
  touches_only id st1 st2 -> touches_only id st2 st3 -> touches_only id st1 st3.
Proof.
  intros [Hs12 Ho12] [Hs23 Ho23]. split.
  - intros j. specialize (Hs12 j). specialize (Hs23 j).
    destruct (st1 !! j) as [t1 |], (st2 !! j) as [t2 |], (st3 !! j) as [t3 |];
      try contradiction; try exact I.
    destruct Hs12 as (? & ? & ?), Hs23 as (? & ? & ?). repeat split; congruence.
  - intros j Hj. rewrite (Ho23 j Hj). now apply Ho12.
Qed.

Lemma touches_only_alter (id : string) (f : TenantBillingData -> TenantBillingData) (st : Store) :
  (forall t, same_tenant t (f t)) -> touches_only id st (alter f id st).
Proof.
  intros Hf. split.
  - intros j. rewrite lookup_alter.
    destruct (decide (id = j)) as [<- | Hne].
    + destruct (st !! id) as [t |]; cbn; [apply Hf | exact I].
    + destruct (st !! j) as [t |]; [| exact I]. repeat split.
  - intros j Hj. now rewrite lookup_alter_ne.
Qed.

Lemma touches_resolve {A : Type} (id : string) (a : A) : touches id (resolve a).
Proof. intros st. apply touches_only_refl. Qed.

Lemma touches_throw {A : Type} (id : string) (e : BillingError) : touches id (@throw A e).
Proof. intros st. apply touches_only_refl. Qed.

Lemma touches_external {A : Type} (id : string) (r : BillingError + A) : touches id (external r).
Proof. intros st. apply touches_only_refl. Qed.

Lemma touches_getTenantBilling (id id' : string) : touches id (getTenantBilling id').
Proof. intros st. apply touches_only_refl. Qed.

Lemma touches_updateTenantBilling (id : string) (data : TenantBillingPatch) :
  touches id (updateTenantBilling id data).
Proof. intros st. apply touches_only_alter. intros t. repeat split. Qed.

Lemma touches_await {A B : Type} (id : string) (c : Async A) (k : A -> Async B) :
  touches id c -> (forall a, touches id (k a)) -> touches id (await c k).
Proof.
  intros Hc Hk st. unfold await. specialize (Hc st).
  destruct (c st) as [st' [e | a]]; [exact Hc |].
  eapply touches_only_trans; [exact Hc | apply Hk].
Qed.

Lemma touches_try_catch {A : Type} (id : string) (body : Async A)
    (handler : BillingError -> Async A) :
  touches id body -> (forall e, touches id (handler e)) -> touches id (try_catch body handler).
Proof.
  intros Hc Hk st. unfold try_catch. specialize (Hc st).
  destruct (body st) as [st' [e | a]]; [| exact Hc].
  eapply touches_only_trans; [exact Hc | apply Hk].
Qed.

Lemma touches_updateBillingStatus (id : string) (currentStatus newStatus : BillingStatus) :
  touches id (SubscriptionService.updateBillingStatus id currentStatus newStatus).
Proof.
  unfold SubscriptionService.updateBillingStatus.
  destruct (bool_decide (currentStatus = newStatus)); [apply touches_resolve |].
  destruct (negb (isValidTransition currentStatus newStatus));
    [apply touches_throw | apply touches_updateTenantBilling].
Qed.

(** Decomposition of a computation into the combinators of [Async];
    [known] closes the calls that have their own lemma. *)
Ltac touch_with known :=
  repeat first
    [ known
    | apply touches_resolve | apply touches_throw | apply touches_external
    | apply touches_getTenantBilling | apply touches_updateTenantBilling
    | apply touches_updateBillingStatus
    | apply touches_await; [| intros ?]
    | apply touches_try_catch; [| intros ?]
    | progress cbv zeta
    | match goal with
      | |- touches _ (match ?x with _ => _ end) => destruct x
      end ].

Ltac touch := touch_with fail.

Lemma touches_handlePaymentConfirmed (id : string) (paymentDate : JsDate) :
  touches id (SubscriptionService.handlePaymentConfirmed id paymentDate).
Proof. unfold SubscriptionService.handlePaymentConfirmed. touch. Qed.

Lemma touches_handlePaymentOverdue (this : SubscriptionServiceConfig) (id : string)
    (d : JsNumber) :
  touches id (SubscriptionService.handlePaymentOverdue this id d).
Proof. unfold SubscriptionService.handlePaymentOverdue. touch. Qed.

Lemma touches_syncSubscriptionStatus (rt : Runtime) (this : SubscriptionServiceConfig)
    (id : string) :
  touches id (SubscriptionService.syncSubscriptionStatus rt this id).
Proof. unfold SubscriptionService.syncSubscriptionStatus. touch. Qed.

Lemma touches_cancelSubscription (this : SubscriptionServiceConfig) (id : string) :
  touches id (SubscriptionService.cancelSubscription this id).
Proof.
  unfold SubscriptionService.cancelSubscription, SubscriptionService.cancelSubscription_catch.
  touch.
Qed.

Lemma touches_payment_switch (rt : Runtime) (this : WebhookHandlerConfig) (eventType : string)
    (tenant : TenantBillingData) (pay : AsaasPaymentPayload) :
  touches (tenant_id tenant) (payment_switch rt this eventType tenant pay).
Proof.
  unfold payment_switch, WebhookHandler.handlePaymentCreated,
    WebhookHandler.handlePaymentConfirmed, WebhookHandler.handlePaymentOverdue,
    WebhookHandler.handlePaymentRefunded, BillingService.handlePaymentConfirmed,
    BillingService.handlePaymentOverdue.
  touch_with ltac:(first [ apply touches_handlePaymentConfirmed
                          | apply touches_handlePaymentOverdue ]).
Qed.

Lemma touches_subscription_switch (rt : Runtime) (this : WebhookHandlerConfig)
    (eventType : string) (tenant : TenantBillingData) (sub : AsaasSubscriptionPayload) :
  touches (tenant_id tenant) (subscription_switch rt this eventType tenant sub).
Proof.
  unfold subscription_switch, WebhookHandler.handleSubscriptionActivated,
    WebhookHandler.handleSubscriptionCanceled, WebhookHandler.handleSubscriptionUpdated,
    BillingService.syncSubscriptionStatus, BillingService.cancelSubscription.
  touch_with ltac:(first [ apply touches_syncSubscriptionStatus
                          | apply touches_cancelSubscription ]).
Qed.

(** ** The dispatcher, case by case *)

Lemma payment_lookup_cases (this : WebhookHandlerConfig) (st : Store)
    (pay : AsaasPaymentPayload) :
  payment_unresolved this st pay \/ exists tenant, payment_resolves this st pay tenant.
Proof.
  unfold payment_unresolved, payment_resolves.
  destruct (getTenantByCustomerId this st (payment_customer pay)) as [byCustomer |].
  - destruct (payment_subscription pay) as [sub |] eqn:Hsub.
    + destruct (String.eqb_spec sub "") as [-> | Hne].
      * right. exists byCustomer. right. auto.
      * destruct (getTenantBySubscriptionId this st sub) as [tenant |] eqn:Hs.
        -- right. exists tenant. left. exists sub. auto.
        -- right. exists byCustomer. right. split; [| reflexivity].
           right. right. exists sub. auto.
    + right. exists byCustomer. right. auto.
  - destruct (payment_subscription pay) as [sub |] eqn:Hsub.
    + destruct (String.eqb_spec sub "") as [-> | Hne].
      * left. split; [| reflexivity]. intros sub [= <-] Hne. contradiction.
      * destruct (getTenantBySubscriptionId this st sub) as [tenant |] eqn:Hs.
        -- right. exists tenant. left. exists sub. auto.
        -- left. split; [| reflexivity]. now intros sub' [= <-] _.
    + left. split; [| reflexivity]. discriminate.
Qed.

Lemma handlePaymentEvent_unresolved (rt : Runtime) (this : WebhookHandlerConfig)
    (eventType : string) (pay : AsaasPaymentPayload) (st : Store) :
  payment_unresolved this st pay ->
  WebhookHandler.handlePaymentEvent rt this eventType (Some pay) st =
    (st, inr (mkResult true eventType None (Some "tenant_not_found") None)).
Proof.
  intros [Hsub Hcus]. unfold WebhookHandler.handlePaymentEvent. run_async.
  unfold WebhookHandler.lookupBySubscriptionId, WebhookHandler.lookupByCustomerId.
  destruct (payment_subscription pay) as [sub |] eqn:Hp; cbn [truthy nullish].
  - destruct (String.eqb_spec sub "") as [-> | Hne]; cbn [negb].
    + now rewrite Hcus.
    + rewrite (Hsub sub eq_refl Hne). now rewrite Hcus.
  - now rewrite Hcus.
Qed.

Lemma subscription_lookup_cases (this : WebhookHandlerConfig) (st : Store)
    (sub : AsaasSubscriptionPayload) :
  subscription_unresolved this st sub \/ exists tenant, subscription_resolves this st sub tenant.
Proof.
  unfold subscription_unresolved, subscription_resolves.
  destruct (getTenantBySubscriptionId this st (subscription_id sub)) as [tenant |].
  - right. exists tenant. now left.
  - destruct (getTenantByCustomerId this st (subscription_customer sub)) as [tenant |].
    + right. exists tenant. now right.
    + now left.
Qed.

Lemma handleSubscriptionEvent_unresolved (rt : Runtime) (this : WebhookHandlerConfig)
    (eventType : string) (sub : AsaasSubscriptionPayload) (st : Store) :
  subscription_unresolved this st sub ->
  WebhookHandler.handleSubscriptionEvent rt this eventType (Some sub) st =
    (st, inr (mkResult true eventType None (Some "tenant_not_found") None)).
Proof.
  intros [Hsub Hcus]. unfold WebhookHandler.handleSubscriptionEvent. run_async.
  unfold WebhookHandler.lookupBySubscriptionId, WebhookHandler.lookupByCustomerId.
  now rewrite Hsub, Hcus.
Qed.

(** The outcomes of the [try] block of [handleEvent]: a validation error,
    an acknowledgement without tenant, or the [switch] of one of the two
    dispatchers on the tenant found. *)
Lemma handleEvent_try_cases (rt : Runtime) (this : WebhookHandlerConfig)
    (ev : AsaasWebhookEvent) (accessToken : option string) (st : Store) :
  let out := WebhookHandler.handleEvent_try rt this ev accessToken st in
  (exists message eventType0, out = (st, inl (WebhookInvalidError message eventType0)))
  \/ (out = (st, inr (mkResult true (event ev) None (Some "tenant_not_found") None))
      /\ isPaymentEvent (event ev) || isSubscriptionEvent (event ev) = true)
  \/ (out = (st, inr (mkResult true (event ev) None (Some "ignored") None))
      /\ isPaymentEvent (event ev) || isSubscriptionEvent (event ev) = false)
  \/ (exists pay tenant,
        isPaymentEvent (event ev) = true
        /\ out = payment_switch rt this (event ev) tenant pay st)
  \/ (exists sub tenant,
        isSubscriptionEvent (event ev) = true
        /\ out = subscription_switch rt this (event ev) tenant sub st).
Proof.
  cbv zeta. unfold WebhookHandler.handleEvent_try.
  destruct (negb (WebhookHandler.validateAccessToken this accessToken));
    [left; eexists _, _; reflexivity |].
  destruct (negb (isAsaasEventType (event ev))); [left; eexists _, _; reflexivity |].
  destruct (isPaymentEvent (event ev)) eqn:Hpay.
  - destruct (payment ev) as [pay |]; [| left; eexists _, _; reflexivity].
    destruct (payment_lookup_cases this st pay) as [Hnone | [tenant Hfound]].
    + right. left. split; [now apply handlePaymentEvent_unresolved | reflexivity].
    + right. right. right. left. exists pay, tenant. split; [reflexivity |].
      now apply handlePaymentEvent_resolved.
  - destruct (isSubscriptionEvent (event ev)) eqn:Hsub; [| right; right; left; now split].
    destruct (subscription ev) as [sub |]; [| left; eexists _, _; reflexivity].
    destruct (subscription_lookup_cases this st sub) as [Hnone | [tenant Hfound]].
    + right. left. split; [now apply handleSubscriptionEvent_unresolved | reflexivity].
    + right. right. right. right. exists sub, tenant. split; [reflexivity |].
      now apply handleSubscriptionEvent_resolved.
Qed.

(** What the [switch] of the payment dispatcher reports. *)
Lemma payment_switch_report (rt : Runtime) (this : WebhookHandlerConfig) (eventType : string)
    (tenant : TenantBillingData) (pay : AsaasPaymentPayload) (st : Store) :
  match payment_switch rt this eventType tenant pay st with
  | (st', inl _) =>
      st' = st /\ In eventType ["PAYMENT_CONFIRMED"; "PAYMENT_RECEIVED"; "PAYMENT_OVERDUE"]
  | (st', inr r) =>
      exists reported act,
        r = mkResult true reported (Some (tenant_id tenant)) (Some act) None
        /\ ((eventType = "PAYMENT_CREATED" /\ reported = eventType
             /\ act = "payment_registered" /\ st' = st)
            \/ ((eventType = "PAYMENT_CONFIRMED" \/ eventType = "PAYMENT_RECEIVED")
                /\ reported = "PAYMENT_CONFIRMED" /\ act = "tenant_activated")
            \/ (eventType = "PAYMENT_OVERDUE" /\ reported = eventType
                /\ (act = "tenant_overdue" \/ act = "overdue_warning"))
            \/ (eventType = "PAYMENT_REFUNDED" /\ reported = eventType
                /\ act = "refund_registered" /\ st' = st)
            \/ (~ In eventType ["PAYMENT_CREATED"; "PAYMENT_CONFIRMED"; "PAYMENT_RECEIVED";
                                "PAYMENT_OVERDUE"; "PAYMENT_REFUNDED"]
                /\ reported = eventType /\ act = "payment_event_ignored" /\ st' = st))
  end.
Proof.
  unfold payment_switch.
  destruct (String.eqb_spec eventType "PAYMENT_CREATED") as [-> | Hcreated].
  { cbn. eexists _, _. split; [reflexivity |]. left. auto. }
  destruct (String.eqb_spec eventType "PAYMENT_CONFIRMED") as [-> | Hconfirmed];
    [| destruct (String.eqb_spec eventType "PAYMENT_RECEIVED") as [-> | Hreceived]];
    cbn [orb].
  1, 2: unfold WebhookHandler.handlePaymentConfirmed, BillingService.handlePaymentConfirmed,
          await, resolve;
        match goal with
        | |- context [SubscriptionService.handlePaymentConfirmed ?id ?date ?s] =>
            pose proof (handlePaymentConfirmed_outcome id date s) as Hout;
            destruct (SubscriptionService.handlePaymentConfirmed id date s) as [st' [e | []]]
        end;
        [ split; [exact Hout | cbn; auto]
        | eexists _, _; split; [reflexivity |]; right; left; auto ].
  destruct (String.eqb_spec eventType "PAYMENT_OVERDUE") as [-> | Hoverdue].
  { unfold WebhookHandler.handlePaymentOverdue, BillingService.handlePaymentOverdue,
      await, resolve. cbv zeta.
    match goal with
    | |- context [SubscriptionService.handlePaymentOverdue ?svc ?id ?d ?s] =>
        pose proof (handlePaymentOverdue_outcome svc id d s) as Hout;
        destruct (SubscriptionService.handlePaymentOverdue svc id d s) as [st' [e | []]]
    end.
    - split; [exact Hout | cbn; auto].
    - eexists _, _. split; [reflexivity |]. right. right. left.
      split; [reflexivity |]. split; [reflexivity |].
      destruct (js_geb _ _); auto. }
  destruct (String.eqb_spec eventType "PAYMENT_REFUNDED") as [-> | Hrefunded].
  { cbn. eexists _, _. split; [reflexivity |]. right. right. right. left. auto. }
  cbn. eexists _, _. split; [reflexivity |]. right. right. right. right.
  split; [| auto]. cbn. intuition congruence.
Qed.

(** What the [switch] of the subscription dispatcher reports. *)
Lemma subscription_switch_report (rt : Runtime) (this : WebhookHandlerConfig)
    (eventType : string) (tenant : TenantBillingData) (sub : AsaasSubscriptionPayload)
    (st : Store) :
  match subscription_switch rt this eventType tenant sub st with
  | (st', inl _) =>
      In eventType ["SUBSCRIPTION_ACTIVATED"; "SUBSCRIPTION_CANCELED"; "SUBSCRIPTION_UPDATED";
                    "SUBSCRIPTION_RENEWED"]
  | (st', inr r) =>
      exists reported act,
        r = mkResult true reported (Some (tenant_id tenant)) (Some act) None
        /\ ((eventType = "SUBSCRIPTION_ACTIVATED" /\ reported = eventType
             /\ act = "subscription_synced")
            \/ (eventType = "SUBSCRIPTION_CANCELED" /\ reported = eventType
                /\ act = "tenant_canceled")
            \/ ((eventType = "SUBSCRIPTION_UPDATED" \/ eventType = "SUBSCRIPTION_RENEWED")
                /\ reported = "SUBSCRIPTION_UPDATED" /\ act = "subscription_updated")
            \/ (~ In eventType ["SUBSCRIPTION_ACTIVATED"; "SUBSCRIPTION_CANCELED";
                                "SUBSCRIPTION_UPDATED"; "SUBSCRIPTION_RENEWED"]
                /\ reported = eventType /\ act = "subscription_event_ignored" /\ st' = st))
  end.
Proof.
  unfold subscription_switch.
  destruct (String.eqb_spec eventType "SUBSCRIPTION_ACTIVATED") as [-> | Hactivated].
  { unfold WebhookHandler.handleSubscriptionActivated, await, resolve.
    destruct (BillingService.syncSubscriptionStatus _ _ _ _) as [st' [e | v]].
    - cbn; auto.
    - eexists _, _. split; [reflexivity |]. left. auto. }
  destruct (String.eqb_spec eventType "SUBSCRIPTION_CANCELED") as [-> | Hcanceled].
  { unfold WebhookHandler.handleSubscriptionCanceled, await, try_catch, resolve.
    destruct (BillingService.cancelSubscription _ _ _) as [st1 [e | []]].
    - destruct (BillingService.syncSubscriptionStatus _ _ _ _) as [st' [e' | v]].
      + cbn; auto.
      + eexists _, _. split; [reflexivity |]. right. left. auto.
    - eexists _, _. split; [reflexivity |]. right. left. auto. }
  destruct (String.eqb_spec eventType "SUBSCRIPTION_UPDATED") as [-> | Hupdated];
    [| destruct (String.eqb_spec eventType "SUBSCRIPTION_RENEWED") as [-> | Hrenewed]];
    cbn [orb].
  1, 2: unfold WebhookHandler.handleSubscriptionUpdated, await, resolve;
        destruct (BillingService.syncSubscriptionStatus _ _ _ _) as [st' [e | v]];
        [ cbn; auto
        | eexists _, _; split; [reflexivity |]; right; right; left; auto ].
  cbn. eexists _, _. split; [reflexivity |]. right. right. right.
  split; [| auto]. cbn. intuition congruence.
Qed.

(** ** webhook-handler.ts: what an event can and cannot do *)

(** X8. Tenant isolation.  Whatever the event and its outcome,
    [handleEvent] creates and deletes no record and changes no tenant id,
    customer id or subscription id, and at most one record differs
    afterwards.  After a success the only record that can differ is the
    one of the tenant named in the result, and a success that names no
    tenant has left the store as it was. *)
Theorem handleEvent_tenant_isolation (rt : Runtime) (this : WebhookHandlerConfig)
    (ev : AsaasWebhookEvent) (accessToken : option string) (st : Store) :
  let out := WebhookHandler.handleEvent rt this ev accessToken st in
  same_tenants st out.1
  /\ (forall id1 id2, out.1 !! id1 <> st !! id1 -> out.1 !! id2 <> st !! id2 -> id1 = id2)
  /\ (success out.2 = true ->
      forall id, tenantId out.2 <> Some id -> out.1 !! id = st !! id)
  /\ (success out.2 = true -> tenantId out.2 = None -> out.1 = st).
Proof.
  cbv zeta. unfold WebhookHandler.handleEvent.
  assert (Hsame : same_tenants st st) by apply (touches_only_refl "").
  assert (Hone : forall id st',
            touches_only id st st' ->
            forall id1 id2, st' !! id1 <> st !! id1 -> st' !! id2 <> st !! id2 -> id1 = id2).
  { intros id st' [_ Hothers] id1 id2 H1 H2.
    destruct (decide (id1 = id)) as [-> | Hne1]; [| now specialize (Hothers id1 Hne1)].
    destruct (decide (id2 = id)) as [-> | Hne2]; [reflexivity | now specialize (Hothers id2 Hne2)]. }
  destruct (handleEvent_try_cases rt this ev accessToken st)
    as [(m & et & ->) | [[-> _] | [[-> _] | [(pay & tenant & _ & ->) | (sub & tenant & _ & ->)]]]];
    cbn; try (split; [exact Hsame | split; [congruence | split; reflexivity]]).
  - pose proof (touches_payment_switch rt this (event ev) tenant pay st) as Htouch.
    pose proof (payment_switch_report rt this (event ev) tenant pay st) as Hreport.
    destruct (payment_switch rt this (event ev) tenant pay st) as [st' [e | r]]; cbn in *.
    + split; [apply Htouch |]. split; [apply (Hone _ _ Htouch) | split; discriminate].
    + destruct Hreport as (reported & act & -> & _). cbn.
      split; [apply Htouch |]. split; [apply (Hone _ _ Htouch) |].
      split; [| discriminate].
      intros _ id Hid. apply Htouch. congruence.
  - pose proof (touches_subscription_switch rt this (event ev) tenant sub st) as Htouch.
    pose proof (subscription_switch_report rt this (event ev) tenant sub st) as Hreport.
    destruct (subscription_switch rt this (event ev) tenant sub st) as [st' [e | r]]; cbn in *.
    + split; [apply Htouch |]. split; [apply (Hone _ _ Htouch) | split; discriminate].
    + destruct Hreport as (reported & act & -> & _). cbn.
      split; [apply Htouch |]. split; [apply (Hone _ _ Htouch) |].
      split; [| discriminate].
      intros _ id Hid. apply Htouch. congruence.
Qed.

(** X9. The result of [handleEvent] is well formed.  A success carries an
    action and no error; a failure carries an error message, no action
    and no tenant, and reports the event type as received.  The reported
    event type differs from the received one only for PAYMENT_RECEIVED,
    reported as PAYMENT_CONFIRMED, and SUBSCRIPTION_RENEWED, reported as
    SUBSCRIPTION_UPDATED. *)
Theorem handleEvent_result_shape (rt : Runtime) (this : WebhookHandlerConfig)
    (ev : AsaasWebhookEvent) (accessToken : option string) (st : Store) :
  let out := WebhookHandler.handleEvent rt this ev accessToken st in
  (success out.2 = true -> error out.2 = None /\ exists act, action out.2 = Some act)
  /\ (success out.2 = false ->
      eventType out.2 = event ev /\ tenantId out.2 = None
      /\ action out.2 = None /\ exists message, error out.2 = Some message)
  /\ (eventType out.2 <> event ev ->
      (event ev = "PAYMENT_RECEIVED" /\ eventType out.2 = "PAYMENT_CONFIRMED")
      \/ (event ev = "SUBSCRIPTION_RENEWED" /\ eventType out.2 = "SUBSCRIPTION_UPDATED")).
Proof.
  cbv zeta. unfold WebhookHandler.handleEvent.
  destruct (handleEvent_try_cases rt this ev accessToken st)
    as [(m & et & ->) | [[-> _] | [[-> _] | [(pay & tenant & _ & ->) | (sub & tenant & _ & ->)]]]];
    cbn.
  - repeat split; try discriminate; try contradiction; eauto.
  - repeat split; try discriminate; try contradiction; eauto.
  - repeat split; try discriminate; try contradiction; eauto.
  - pose proof (payment_switch_report rt this (event ev) tenant pay st) as Hreport.
    destruct (payment_switch rt this (event ev) tenant pay st) as [st' [e | r]]; cbn in *.
    + repeat split; try discriminate; try contradiction; eauto.
    + destruct Hreport as (reported & act & -> & Hcase). cbn.
      split; [eauto |]. split; [discriminate |]. intros Hne. left.
      destruct Hcase as [(_ & -> & _) | [([Hev | Hev] & -> & _) | [(_ & -> & _)
                         | [(_ & -> & _) | (_ & -> & _)]]]];
        try contradiction; [| now split].
      rewrite Hev in Hne. contradiction.
  - pose proof (subscription_switch_report rt this (event ev) tenant sub st) as Hreport.
    destruct (subscription_switch rt this (event ev) tenant sub st) as [st' [e | r]]; cbn in *.
    + repeat split; try discriminate; try contradiction; eauto.
    + destruct Hreport as (reported & act & -> & Hcase). cbn.
      split; [eauto |]. split; [discriminate |]. intros Hne. right.
      destruct Hcase as [(_ & -> & _) | [(_ & -> & _) | [([Hev | Hev] & -> & _)
                         | (_ & -> & _)]]];
        try contradiction; [| now split].
      rewrite Hev in Hne. contradiction.
Qed.

(** X10. Only seven event types can change the store: the confirmation
    and overdue events of a payment and the activation, cancellation,
    update and renewal of a subscription.  Every other event, known or
    not, leaves the store as it was; so do PAYMENT_CREATED and
    PAYMENT_REFUNDED, which are only registered. *)
Theorem store_changing_events (rt : Runtime) (this : WebhookHandlerConfig)
    (ev : AsaasWebhookEvent) (accessToken : option string) (st : Store) :
  ~ In (event ev) ["PAYMENT_CONFIRMED"; "PAYMENT_RECEIVED"; "PAYMENT_OVERDUE";
                   "SUBSCRIPTION_ACTIVATED"; "SUBSCRIPTION_CANCELED";
                   "SUBSCRIPTION_UPDATED"; "SUBSCRIPTION_RENEWED"] ->
  (WebhookHandler.handleEvent rt this ev accessToken st).1 = st.
Proof.
  intros Hother. unfold WebhookHandler.handleEvent.
  destruct (handleEvent_try_cases rt this ev accessToken st)
    as [(m & et & ->) | [[-> _] | [[-> _] | [(pay & tenant & _ & ->) | (sub & tenant & _ & ->)]]]];
    try reflexivity.
  - pose proof (payment_switch_report rt this (event ev) tenant pay st) as Hreport.
    destruct (payment_switch rt this (event ev) tenant pay st) as [st' [e | r]]; cbn in *.
    + apply Hreport.
    + destruct Hreport as (reported & act & _ & Hcase).
      destruct Hcase as [(_ & _ & _ & ->) | [([Hev | Hev] & _) | [(Hev & _)
                         | [(_ & _ & _ & ->) | (_ & _ & _ & ->)]]]];
        try reflexivity; exfalso; apply Hother; rewrite Hev; auto 10.
  - pose proof (subscription_switch_report rt this (event ev) tenant sub st) as Hreport.
    destruct (subscription_switch rt this (event ev) tenant sub st) as [st' [e | r]]; cbn in *.
    + exfalso. apply Hother. intuition.
    + destruct Hreport as (reported & act & _ & Hcase).
      destruct Hcase as [(Hev & _) | [(Hev & _) | [([Hev | Hev] & _) | (_ & _ & _ & ->)]]];
        try reflexivity; exfalso; apply Hother; rewrite Hev; auto 10.
Qed.

Lemma store_changing_events_witness :
  ~ In (event (example_event "PAYMENT_REFUNDED"))
       ["PAYMENT_CONFIRMED"; "PAYMENT_RECEIVED"; "PAYMENT_OVERDUE";
        "SUBSCRIPTION_ACTIVATED"; "SUBSCRIPTION_CANCELED";
        "SUBSCRIPTION_UPDATED"; "SUBSCRIPTION_RENEWED"]
  /\ (WebhookHandler.handleEvent example_runtime (example_handler "ACTIVE")
        (example_event "PAYMENT_REFUNDED") None (example_store OVERDUE)).1
     = example_store OVERDUE.
Proof.
  assert (Hother : ~ In (event (example_event "PAYMENT_REFUNDED"))
                     ["PAYMENT_CONFIRMED"; "PAYMENT_RECEIVED"; "PAYMENT_OVERDUE";
                      "SUBSCRIPTION_ACTIVATED"; "SUBSCRIPTION_CANCELED";
                      "SUBSCRIPTION_UPDATED"; "SUBSCRIPTION_RENEWED"]).
  { cbn. intuition discriminate. }
  split; [exact Hother |].
  exact (store_changing_events example_runtime (example_handler "ACTIVE")
           (example_event "PAYMENT_REFUNDED") None (example_store OVERDUE) Hother).
Defined.

(** X11. A required event is never ignored: the action reported for an
    event of [requiredAsaasEvents] is [tenant_not_found] or the action of
    the handler dedicated to that event type: [payment_registered] for
    PAYMENT_CREATED, [tenant_activated] for PAYMENT_CONFIRMED and
    PAYMENT_RECEIVED, [tenant_overdue] or [overdue_warning] for
    PAYMENT_OVERDUE, [refund_registered] for PAYMENT_REFUNDED,
    [subscription_synced] for SUBSCRIPTION_ACTIVATED and [tenant_canceled]
    for SUBSCRIPTION_CANCELED. *)
Theorem required_events_never_ignored (rt : Runtime) (this : WebhookHandlerConfig)
    (ev : AsaasWebhookEvent) (accessToken : option string) (st : Store) (act : string) :
  In (event ev) requiredAsaasEvents ->
  action (WebhookHandler.handleEvent rt this ev accessToken st).2 = Some act ->
  act = "tenant_not_found"
  \/ (event ev = "PAYMENT_CREATED" /\ act = "payment_registered")
  \/ ((event ev = "PAYMENT_CONFIRMED" \/ event ev = "PAYMENT_RECEIVED")
      /\ act = "tenant_activated")
  \/ (event ev = "PAYMENT_OVERDUE" /\ (act = "tenant_overdue" \/ act = "overdue_warning"))
  \/ (event ev = "PAYMENT_REFUNDED" /\ act = "refund_registered")
  \/ (event ev = "SUBSCRIPTION_ACTIVATED" /\ act = "subscription_synced")
  \/ (event ev = "SUBSCRIPTION_CANCELED" /\ act = "tenant_canceled").
Proof.
  intros Hrequired. unfold WebhookHandler.handleEvent.
  assert (Hclass : isPaymentEvent (event ev) || isSubscriptionEvent (event ev) = true).
  { repeat (destruct Hrequired as [<- | Hrequired]; [reflexivity |]). destruct Hrequired. }
  destruct (handleEvent_try_cases rt this ev accessToken st)
    as [(m & et & ->) | [[-> _] | [[-> Hnone] | [(pay & tenant & Hpay & ->)
                                                 | (sub & tenant & Hsub & ->)]]]];
    cbn.
  - discriminate.
  - intros [= <-]. auto.
  - congruence.
  - pose proof (payment_switch_report rt this (event ev) tenant pay st) as Hreport.
    destruct (payment_switch rt this (event ev) tenant pay st) as [st' [e | r]]; cbn in *;
      [discriminate |].
    destruct Hreport as (reported & act' & -> & Hcase). cbn. intros [= ->].
    destruct Hcase as [(Hev & _ & -> & _) | [(Hev & _ & ->) | [(Hev & _ & Hact)
                       | [(Hev & _ & -> & _) | (Hev & _)]]]]; auto 10.
    exfalso. apply Hev.
    repeat (destruct Hrequired as [Hr | Hrequired];
            [rewrite <- Hr in *; first [now auto 10 | now vm_compute in Hpay] |]).
    destruct Hrequired.
  - pose proof (subscription_switch_report rt this (event ev) tenant sub st) as Hreport.
    destruct (subscription_switch rt this (event ev) tenant sub st) as [st' [e | r]]; cbn in *;
      [discriminate |].
    destruct Hreport as (reported & act' & -> & Hcase). cbn. intros [= ->].
    destruct Hcase as [(Hev & _ & ->) | [(Hev & _ & ->) | [(Hev & _) | (Hev & _)]]]; auto 10.
    + exfalso.
      repeat (destruct Hrequired as [Hr | Hrequired];
              [rewrite <- Hr in *; destruct Hev as [Hev | Hev]; discriminate Hev |]).
      destruct Hrequired.
    + exfalso. apply Hev.
      repeat (destruct Hrequired as [Hr | Hrequired];
              [rewrite <- Hr in *; first [now auto 10 | now vm_compute in Hsub] |]).
      destruct Hrequired.
Qed.

Lemma required_events_never_ignored_witness :
  In (event (example_event "PAYMENT_OVERDUE")) requiredAsaasEvents
  /\ action (WebhookHandler.handleEvent example_runtime (example_handler "ACTIVE")
               (example_event "PAYMENT_OVERDUE") None (example_store OVERDUE)).2
     = Some "tenant_overdue"
  /\ ("tenant_overdue" = "tenant_not_found"
      \/ (event (example_event "PAYMENT_OVERDUE") = "PAYMENT_CREATED"
          /\ "tenant_overdue" = "payment_registered")
      \/ ((event (example_event "PAYMENT_OVERDUE") = "PAYMENT_CONFIRMED"
           \/ event (example_event "PAYMENT_OVERDUE") = "PAYMENT_RECEIVED")
          /\ "tenant_overdue" = "tenant_activated")
      \/ (event (example_event "PAYMENT_OVERDUE") = "PAYMENT_OVERDUE"
          /\ ("tenant_overdue" = "tenant_overdue" \/ "tenant_overdue" = "overdue_warning"))
      \/ (event (example_event "PAYMENT_OVERDUE") = "PAYMENT_REFUNDED"
          /\ "tenant_overdue" = "refund_registered")
      \/ (event (example_event "PAYMENT_OVERDUE") = "SUBSCRIPTION_ACTIVATED"
          /\ "tenant_overdue" = "subscription_synced")
      \/ (event (example_event "PAYMENT_OVERDUE") = "SUBSCRIPTION_CANCELED"
          /\ "tenant_overdue" = "tenant_canceled")).
Proof.
  assert (Hrequired : In (event (example_event "PAYMENT_OVERDUE")) requiredAsaasEvents)
    by (cbn; auto 10).
  assert (Haction : action (WebhookHandler.handleEvent example_runtime (example_handler "ACTIVE")
                              (example_event "PAYMENT_OVERDUE") None (example_store OVERDUE)).2
                    = Some "tenant_overdue") by (vm_compute; reflexivity).
  split; [exact Hrequired |]. split; [exact Haction |].
  exact (required_events_never_ignored example_runtime (example_handler "ACTIVE")
           (example_event "PAYMENT_OVERDUE") None (example_store OVERDUE) "tenant_overdue"
           Hrequired Haction).
Defined.

(** X12. The access token check decides exactly the two notions of the
    statements: the token is accepted when none is configured, when the
    configured one is the empty string, or when the presented one is the
    configured one; it is refused otherwise.  An empty configured token
    switches the check off. *)
Theorem validateAccessToken_decides (this : WebhookHandlerConfig) (accessToken : option string) :
  (WebhookHandler.validateAccessToken this accessToken = true <-> token_accepted this accessToken)
  /\ (WebhookHandler.validateAccessToken this accessToken = false
      <-> token_mismatch this accessToken)
  /\ (webhookAccessToken this = Some "" ->
      forall presented, WebhookHandler.validateAccessToken this presented = true).
Proof.
  assert (Hsplit : token_accepted this accessToken \/ token_mismatch this accessToken).
  { unfold token_accepted, token_mismatch.
    destruct (webhookAccessToken this) as [t |]; [| auto].
    destruct (String.eqb_spec t "") as [-> | Hne]; [auto |].
    destruct (decide (accessToken = Some t)) as [-> | Hdiff]; [auto |].
    right. exists t. auto. }
  split; [| split].
  - split; [| apply validateAccessToken_accepted].
    intros Hvalid. destruct Hsplit as [Hacc | Hmis]; [exact Hacc |].
    apply validateAccessToken_mismatch in Hmis. congruence.
  - split; [| apply validateAccessToken_mismatch].
    intros Hvalid. destruct Hsplit as [Hacc | Hmis]; [| exact Hmis].
    apply validateAccessToken_accepted in Hacc. congruence.
  - intros Hempty presented. apply validateAccessToken_accepted. right. now left.
Qed.

(** X13. A payment event needs its payment object and a subscription
    event its subscription object: a known event of either family that
    comes without it fails with the corresponding message and leaves the
    store as it was. *)
Theorem payload_required (rt : Runtime) (this : WebhookHandlerConfig)
    (ev : AsaasWebhookEvent) (accessToken : option string) (st : Store) :
  token_accepted this accessToken ->
  In (event ev) AsaasEventType_values ->
  (isPaymentEvent (event ev) = true -> payment ev = None ->
   WebhookHandler.handleEvent rt this ev accessToken st =
     (st, mkResult false (event ev) None None
            (Some "Payment payload is required for payment events")))
  /\ (isSubscriptionEvent (event ev) = true -> subscription ev = None ->
      WebhookHandler.handleEvent rt this ev accessToken st =
        (st, mkResult false (event ev) None None
               (Some "Subscription payload is required for subscription events"))).
Proof.
  intros Htoken Hknown.
  apply validateAccessToken_accepted in Htoken. apply isAsaasEventType_In in Hknown.
  unfold WebhookHandler.handleEvent, WebhookHandler.handleEvent_try.
  rewrite Htoken, Hknown. cbn [negb]. split.
  - intros Hpay Hnone. rewrite Hpay. unfold WebhookHandler.handlePaymentEvent.
    rewrite Hnone. reflexivity.
  - intros Hsub Hnone. pose proof (prefixes_disjoint (event ev)) as Hdisjoint.
    rewrite Hsub, andb_true_r in Hdisjoint. rewrite Hdisjoint, Hsub.
    unfold WebhookHandler.handleSubscriptionEvent. rewrite Hnone. reflexivity.
Qed.

Lemma payload_required_witness :
  token_accepted (example_handler "ACTIVE") None
  /\ In "PAYMENT_OVERDUE" AsaasEventType_values
  /\ WebhookHandler.handleEvent example_runtime (example_handler "ACTIVE")
       (mkEvent "PAYMENT_OVERDUE" None (Some example_subscription)) None (example_store ACTIVE)
     = (example_store ACTIVE,
        mkResult false "PAYMENT_OVERDUE" None None
          (Some "Payment payload is required for payment events")).
Proof.
  assert (Hknown : In (event (mkEvent "PAYMENT_OVERDUE" None (Some example_subscription)))
                     AsaasEventType_values) by (cbn; auto 20).
  split; [apply example_token_accepted |]. split; [exact Hknown |].
  apply (payload_required example_runtime (example_handler "ACTIVE")
           (mkEvent "PAYMENT_OVERDUE" None (Some example_subscription)) None
           (example_store ACTIVE) (example_token_accepted "ACTIVE" None) Hknown);
    reflexivity.
Defined.

(** X14. An event for which no tenant is found is acknowledged, not
    failed: the result is a success with action [tenant_not_found] and
    without tenant, and the store is left as it was. *)
Theorem unresolved_tenant_acknowledged (rt : Runtime) (this : WebhookHandlerConfig)
    (ev : AsaasWebhookEvent) (accessToken : option string) (st : Store) :
  token_accepted this accessToken ->
  In (event ev) AsaasEventType_values ->
  (forall pay, isPaymentEvent (event ev) = true -> payment ev = Some pay ->
               payment_unresolved this st pay ->
               WebhookHandler.handleEvent rt this ev accessToken st =
                 (st, mkResult true (event ev) None (Some "tenant_not_found") None))
  /\ (forall sub, isSubscriptionEvent (event ev) = true -> subscription ev = Some sub ->
                  subscription_unresolved this st sub ->
                  WebhookHandler.handleEvent rt this ev accessToken st =
                    (st, mkResult true (event ev) None (Some "tenant_not_found") None)).
Proof.
  intros Htoken Hknown.
  apply validateAccessToken_accepted in Htoken. apply isAsaasEventType_In in Hknown.
  unfold WebhookHandler.handleEvent, WebhookHandler.handleEvent_try.
  rewrite Htoken, Hknown. cbn [negb]. split.
  - intros pay Hpay Hsome Hnone. rewrite Hpay, Hsome.
    now rewrite (handlePaymentEvent_unresolved rt this (event ev) pay st Hnone).
  - intros sub Hsub Hsome Hnone. pose proof (prefixes_disjoint (event ev)) as Hdisjoint.
    rewrite Hsub, andb_true_r in Hdisjoint. rewrite Hdisjoint, Hsub, Hsome.
    now rewrite (handleSubscriptionEvent_unresolved rt this (event ev) sub st Hnone).
Qed.

Lemma unresolved_tenant_acknowledged_witness :
  token_accepted (example_handler "ACTIVE") None
  /\ In "PAYMENT_CONFIRMED" AsaasEventType_values
  /\ payment_unresolved (example_handler "ACTIVE") (example_store OVERDUE)
       (mkPayment "pay_2" "cus_2" None "1970-01-01" None)
  /\ WebhookHandler.handleEvent example_runtime (example_handler "ACTIVE")
       (mkEvent "PAYMENT_CONFIRMED" (Some (mkPayment "pay_2" "cus_2" None "1970-01-01" None)) None)
       None (example_store OVERDUE)
     = (example_store OVERDUE,
        mkResult true "PAYMENT_CONFIRMED" None (Some "tenant_not_found") None).
Proof.
  pose (pay := mkPayment "pay_2" "cus_2" None "1970-01-01" None).
  assert (Hknown : In (event (mkEvent "PAYMENT_CONFIRMED" (Some pay) None))
                     AsaasEventType_values) by (cbn; auto 20).
  assert (Hnone : payment_unresolved (example_handler "ACTIVE") (example_store OVERDUE) pay).
  { split; [discriminate | reflexivity]. }
  split; [apply example_token_accepted |]. split; [exact Hknown |]. split; [exact Hnone |].
  destruct (unresolved_tenant_acknowledged example_runtime (example_handler "ACTIVE")
              (mkEvent "PAYMENT_CONFIRMED" (Some pay) None) None
              (example_store OVERDUE) (example_token_accepted "ACTIVE" None) Hknown)
    as [Hpayment _].
  apply (Hpayment pay); [reflexivity | reflexivity | exact Hnone].
Defined.

(** ** Sequences of events *)

Lemma after_events_snoc (this : WebhookHandlerConfig)
    (deliveries : list (Runtime * AsaasWebhookEvent * option string))
    (d : Runtime * AsaasWebhookEvent * option string) (st : Store) :
  after_events this (deliveries ++ [d])%list st
  = (WebhookHandler.handleEvent d.1.1 this d.1.2 d.2 (after_events this deliveries st)).1.
Proof. unfold after_events. now rewrite fold_left_app. Qed.

(** X15. Along any sequence of deliveries, with any clocks, payloads and
    tokens, the status of a stored tenant moves along the transition
    table: the status after the sequence is reachable from the status
    before it.  Hence [canceled] is terminal, no tenant ever returns to
    [trial], and [pending_payment] is entered from [trial] only. *)
Theorem after_events_reachable (this : WebhookHandlerConfig)
    (deliveries : list (Runtime * AsaasWebhookEvent * option string))
    (st : Store) (id : string) (s : BillingStatus) :
  stored_status st id = Some s ->
  exists s',
    stored_status (after_events this deliveries st) id = Some s'
    /\ rtc (fun a b => isValidTransition a b = true) s s'
    /\ (s = CANCELED -> s' = CANCELED)
    /\ (s' = TRIAL -> s = TRIAL)
    /\ (s' = PENDING_PAYMENT -> s = TRIAL \/ s = PENDING_PAYMENT).
Proof.
  intros Hs.
  assert (Hpath : exists s', stored_status (after_events this deliveries st) id = Some s'
                             /\ rtc (fun a b => isValidTransition a b = true) s s').
  { induction deliveries as [| d deliveries IH] using rev_ind.
    - exists s. split; [exact Hs | constructor].
    - destruct IH as (s1 & Hs1 & Hpath). rewrite after_events_snoc.
      destruct (handleEvent_legal d.1.1 this d.1.2 d.2 (after_events this deliveries st)
                  id s1 Hs1) as (s2 & Hs2 & [-> | Hstep]).
      + exists s1. auto.
      + exists s2. split; [exact Hs2 |]. eapply rtc_r; eassumption. }
  destruct Hpath as (s' & Hs' & Hpath). exists s'.
  split; [exact Hs' |]. split; [exact Hpath |].
  split; [| split].
  - intros ->. inversion Hpath as [| ? next ? Hstep Hrest]; subst; [reflexivity |].
    destruct next; discriminate Hstep.
  - clear Hs Hs'. induction Hpath as [| a b c Hstep _ IH]; [auto |].
    intros Hc. specialize (IH Hc). subst b. destruct a; discriminate Hstep.
  - clear Hs Hs'. induction Hpath as [| a b c Hstep _ IH]; [auto |].
    intros Hc. destruct (IH Hc) as [-> | ->]; destruct a; try discriminate Hstep; auto.
Qed.

Lemma after_events_reachable_witness :
  stored_status (example_store OVERDUE) "tenant-1" = Some OVERDUE
  /\ exists s',
       stored_status
         (after_events (example_handler "ACTIVE")
            [(example_runtime, example_event "PAYMENT_OVERDUE", None);
             (example_runtime, example_event "SUBSCRIPTION_CANCELED", None);
             (example_runtime, example_event "PAYMENT_CONFIRMED", None)]
            (example_store OVERDUE)) "tenant-1" = Some s'
       /\ rtc (fun a b => isValidTransition a b = true) OVERDUE s'.
Proof.
  assert (Hs : stored_status (example_store OVERDUE) "tenant-1" = Some OVERDUE) by reflexivity.
  split; [exact Hs |].
  destruct (after_events_reachable (example_handler "ACTIVE")
              [(example_runtime, example_event "PAYMENT_OVERDUE", None);
               (example_runtime, example_event "SUBSCRIPTION_CANCELED", None);
               (example_runtime, example_event "PAYMENT_CONFIRMED", None)]
              (example_store OVERDUE) "tenant-1" OVERDUE Hs) as (s' & Hs' & Hpath & _).
  exists s'. split; [exact Hs' | exact Hpath].
Defined.

(** ** The services behind the events *)

(** X16. A confirmed payment restores full access.  For PAYMENT_CONFIRMED
    and PAYMENT_RECEIVED alike, when the tenant is stored with any status
    but [canceled], the event succeeds with action [tenant_activated],
    both reported as PAYMENT_CONFIRMED; afterwards the tenant is [active],
    its [daysOverdue] is cleared, its [lastPaymentDate] is the confirmed
    date of the payment when it has one and the time of processing
    otherwise, every other field of the metadata and the ids of the
    record are as before, no other record has changed, and an enforcer
    that reads the same store lets the tenant through. *)
Theorem payment_confirmed_restores_access (rt : Runtime) (this : WebhookHandlerConfig)
    (ev : AsaasWebhookEvent) (accessToken : option string) (st : Store)
    (pay : AsaasPaymentPayload) (tenant tb : TenantBillingData) :
  token_accepted this accessToken ->
  event ev = "PAYMENT_CONFIRMED" \/ event ev = "PAYMENT_RECEIVED" ->
  payment ev = Some pay ->
  payment_resolves this st pay tenant ->
  st !! tenant_id tenant = Some tb ->
  billingStatus tb <> CANCELED ->
  exists st',
    WebhookHandler.handleEvent rt this ev accessToken st =
      (st', mkResult true "PAYMENT_CONFIRMED" (Some (tenant_id tenant))
              (Some "tenant_activated") None)
    /\ stored_status st' (tenant_id tenant) = Some ACTIVE
    /\ stored_daysOverdue st' (tenant_id tenant) = None
    /\ (forall m, subscriptionMetadata tb = Some m ->
          exists m',
            (st' !! tenant_id tenant) ≫= subscriptionMetadata = Some m'
            /\ (forall confirmed, payment_confirmedDate pay = Some confirmed ->
                                  confirmed <> "" ->
                                  lastPaymentDate m' = Some (Date_parse rt confirmed))
            /\ (payment_confirmedDate pay = None \/ payment_confirmedDate pay = Some "" ->
                lastPaymentDate m' = Some (JsNum (Date_now rt)))
            /\ daysOverdue m' = None
            /\ planId m' = planId m
            /\ planName m' = planName m
            /\ priceInCents m' = priceInCents m
            /\ currency m' = currency m
            /\ cycle m' = cycle m
            /\ trialEndDate m' = trialEndDate m
            /\ nextBillingDate m' = nextBillingDate m
            /\ custom m' = custom m)
    /\ (exists tb',
          st' !! tenant_id tenant = Some tb'
          /\ same_tenant tb tb'
          /\ (subscriptionMetadata tb = None -> subscriptionMetadata tb' = None))
    /\ (forall id, id <> tenant_id tenant -> st' !! id = st !! id)
    /\ BillingService.isTenantInGoodStanding st' (tenant_id tenant) = true
    /\ (forall enforcer,
          BillingEnforcer.requireActive enforcer st' (tenant_id tenant) = inr true).
Proof.
  intros Htoken Hevent Hpayment Hresolved Hstored Hstatus.
  apply validateAccessToken_accepted in Htoken.
  assert (Htry : WebhookHandler.handleEvent_try rt this ev accessToken st
                 = WebhookHandler.handlePaymentConfirmed rt this tenant pay st).
  { unfold WebhookHandler.handleEvent_try. rewrite Htoken, Hpayment. cbn [negb].
    destruct Hevent as [-> | ->].
    - change (isAsaasEventType "PAYMENT_CONFIRMED") with true.
      change (isPaymentEvent "PAYMENT_CONFIRMED") with true. cbn [negb].
      now rewrite (handlePaymentEvent_resolved rt this _ pay st tenant Hresolved).
    - change (isAsaasEventType "PAYMENT_RECEIVED") with true.
      change (isPaymentEvent "PAYMENT_RECEIVED") with true. cbn [negb].
      now rewrite (handlePaymentEvent_resolved rt this _ pay st tenant Hresolved). }
  unfold WebhookHandler.handleEvent. rewrite Htry.
  unfold WebhookHandler.handlePaymentConfirmed, BillingService.handlePaymentConfirmed.
  unfold await at 1.
  set (paymentDate := if truthy (payment_confirmedDate pay) then _ else _).
  rewrite (service_handlePaymentConfirmed_run _ paymentDate st tb Hstored). cbv zeta.
  assert (Hallowed : bool_decide (billingStatus tb = ACTIVE)
                     || isValidTransition (billingStatus tb) ACTIVE = true).
  { destruct (billingStatus tb); try reflexivity. contradiction. }
  rewrite Hallowed. unfold resolve. eexists. split; [reflexivity |].
  unfold stored_status, stored_daysOverdue, BillingService.isTenantInGoodStanding,
    BillingEnforcer.requireActive.
  rewrite !lookup_insert_eq. cbn.
  split; [reflexivity |]. split; [now destruct (subscriptionMetadata tb) |].
  split; [| split; [| split; [| split; reflexivity]]].
  - intros m Hm. rewrite Hm. cbn. eexists. split; [reflexivity |]. cbn.
    split; [| split; [| repeat split; reflexivity]].
    + intros confirmed Hconfirmed Hne. subst paymentDate. rewrite Hconfirmed. cbn.
      apply String.eqb_neq in Hne. now rewrite Hne.
    + intros [Hnone | Hempty]; subst paymentDate; [rewrite Hnone | rewrite Hempty]; reflexivity.
  - eexists. split; [reflexivity |]. split; [repeat split |].
    cbn. now intros ->.
  - intros id Hid. now rewrite lookup_insert_ne.
Qed.

Lemma payment_confirmed_restores_access_witness :
  token_accepted (example_handler "ACTIVE") None
  /\ payment_resolves (example_handler "ACTIVE") (example_store SUSPENDED) example_payment
       (example_tenant SUSPENDED)
  /\ exists st',
       WebhookHandler.handleEvent example_runtime (example_handler "ACTIVE")
         (example_event "PAYMENT_RECEIVED") None (example_store SUSPENDED) =
         (st', mkResult true "PAYMENT_CONFIRMED" (Some "tenant-1")
                 (Some "tenant_activated") None)
       /\ stored_status st' "tenant-1" = Some ACTIVE
       /\ stored_daysOverdue st' "tenant-1" = None.
Proof.
  split; [apply example_token_accepted |]. split; [apply example_payment_resolves |].
  destruct (payment_confirmed_restores_access example_runtime (example_handler "ACTIVE")
              (example_event "PAYMENT_RECEIVED") None (example_store SUSPENDED)
              example_payment (example_tenant SUSPENDED) (example_tenant SUSPENDED)
              (example_token_accepted "ACTIVE" None) (or_intror eq_refl) eq_refl
              (example_payment_resolves "ACTIVE" SUSPENDED) (example_stored SUSPENDED))
    as (st' & Hrun & Hstatus & Hdays & _); [discriminate |].
  exists st'. auto.
Defined.

(** X17. The dunning cycle.  From [active], an overdue notice below the
    suspension threshold makes the tenant [overdue] (limited access), a
    later one at or above the threshold makes it [suspended] (no
    access), and a confirmed payment brings it back to [active] with
    [daysOverdue] cleared; each step is one call of the service and none
    of them throws. *)
Theorem dunning_cycle (this : SubscriptionServiceConfig) (id : string) (st : Store)
    (tb : TenantBillingData) (thr d1 d2 : Z) (paymentDate : JsDate) :
  st !! id = Some tb ->
  billingStatus tb = ACTIVE ->
  spec_threshold (daysUntilSuspension this) (JsNum thr) ->
  d1 < thr <= d2 ->
  exists st1 st2 st3,
    SubscriptionService.handlePaymentOverdue this id (JsNum d1) st = (st1, inr tt)
    /\ SubscriptionService.handlePaymentOverdue this id (JsNum d2) st1 = (st2, inr tt)
    /\ SubscriptionService.handlePaymentConfirmed id paymentDate st2 = (st3, inr tt)
    /\ (stored_status st1 id = Some OVERDUE
        /\ BillingEnforcer.hasLimitedAccessOnly st1 id = true)
    /\ (stored_status st2 id = Some SUSPENDED
        /\ BillingEnforcer.isSuspendedOrCanceled st2 id = true
        /\ (forall m, subscriptionMetadata tb = Some m ->
                      stored_daysOverdue st2 id = Some (JsNum d2)))
    /\ (stored_status st3 id = Some ACTIVE
        /\ BillingService.isTenantInGoodStanding st3 id = true
        /\ stored_daysOverdue st3 id = None).
Proof.
  intros Hstored Hactive Hthr [Hbelow Habove].
  assert (Hlow : (if js_geb (JsNum d1) (nullish (daysUntilSuspension this) (JsNum 15))
                  then SUSPENDED else OVERDUE) = OVERDUE).
  { apply (target_computed _ _ (JsNum thr)); [exact Hthr |]. cbn. right. auto. }
  assert (Hhigh : (if js_geb (JsNum d2) (nullish (daysUntilSuspension this) (JsNum 15))
                   then SUSPENDED else OVERDUE) = SUSPENDED).
  { apply (target_computed _ _ (JsNum thr)); [exact Hthr |]. cbn. left. auto. }
  eexists _, _, _.
  split.
  { rewrite (service_handlePaymentOverdue_run this id (JsNum d1) st tb Hstored).
    cbv zeta. rewrite Hlow, Hactive. reflexivity. }
  split.
  { rewrite (service_handlePaymentOverdue_run this id (JsNum d2) _ _ (lookup_insert_eq _ _ _)).
    cbv zeta. rewrite Hhigh. reflexivity. }
  split.
  { rewrite (service_handlePaymentConfirmed_run id paymentDate _ _ (lookup_insert_eq _ _ _)).
    reflexivity. }
  unfold stored_status, stored_daysOverdue, BillingEnforcer.hasLimitedAccessOnly,
    BillingEnforcer.isSuspendedOrCanceled, BillingService.isTenantInGoodStanding.
  rewrite !lookup_insert_eq. cbn.
  repeat split.
  - intros m Hm. rewrite Hm. reflexivity.
  - now destruct (subscriptionMetadata tb).
Qed.

Lemma dunning_cycle_witness :
  example_store ACTIVE !! "tenant-1" = Some (example_tenant ACTIVE)
  /\ spec_threshold (daysUntilSuspension (mkSubscriptionServiceConfig (example_client "ACTIVE") None))
       (JsNum 15)
  /\ 3 < 15 <= 16
  /\ exists st1 st2 st3,
       SubscriptionService.handlePaymentOverdue
         (mkSubscriptionServiceConfig (example_client "ACTIVE") None) "tenant-1" (JsNum 3)
         (example_store ACTIVE) = (st1, inr tt)
       /\ SubscriptionService.handlePaymentOverdue
            (mkSubscriptionServiceConfig (example_client "ACTIVE") None) "tenant-1" (JsNum 16)
            st1 = (st2, inr tt)
       /\ SubscriptionService.handlePaymentConfirmed "tenant-1" (JsNum 0) st2 = (st3, inr tt)
       /\ stored_status st3 "tenant-1" = Some ACTIVE.
Proof.
  assert (Hthr : spec_threshold
                   (daysUntilSuspension (mkSubscriptionServiceConfig (example_client "ACTIVE") None))
                   (JsNum 15)) by (right; split; reflexivity).
  assert (Hdays : 3 < 15 <= 16) by lia.
  split; [reflexivity |]. split; [exact Hthr |]. split; [exact Hdays |].
  destruct (dunning_cycle (mkSubscriptionServiceConfig (example_client "ACTIVE") None)
              "tenant-1" (example_store ACTIVE) (example_tenant ACTIVE) 15 3 16 (JsNum 0)
              eq_refl eq_refl Hthr Hdays)
    as (st1 & st2 & st3 & H1 & H2 & H3 & _ & _ & Hfinal & _).
  exists st1, st2, st3. auto.
Defined.

Lemma mapAsaasStatusToBillingStatus_idempotent (snapshot : AsaasSubscriptionResponse)
    (s : BillingStatus) :
  SubscriptionService.mapAsaasStatusToBillingStatus snapshot
    (SubscriptionService.mapAsaasStatusToBillingStatus snapshot s)
  = SubscriptionService.mapAsaasStatusToBillingStatus snapshot s.
Proof.
  unfold SubscriptionService.mapAsaasStatusToBillingStatus.
  destruct (remote_deleted snapshot); [reflexivity |].
  destruct (String.eqb (remote_status snapshot) "ACTIVE"); [now destruct s |].
  destruct (String.eqb (remote_status snapshot) "INACTIVE"); [reflexivity |].
  destruct (String.eqb (remote_status snapshot) "EXPIRED"); reflexivity.
Qed.

(** X18. A sync is idempotent against an unchanged remote snapshot, and
    the record it returns is the one it has stored: a sync that returns,
    run again on the store it has produced, changes nothing and returns
    the same record.  For a tenant without subscription id the sync is a
    read. *)
Theorem syncSubscriptionStatus_idempotent (rt : Runtime) (this : SubscriptionServiceConfig)
    (id : string) (st st1 : Store) (synced : TenantBillingData) :
  SubscriptionService.syncSubscriptionStatus rt this id st = (st1, inr synced) ->
  st1 !! id = Some synced
  /\ SubscriptionService.syncSubscriptionStatus rt this id st1 = (st1, inr synced)
  /\ (exists tb, st !! id = Some tb /\ same_tenant tb synced
                 /\ (truthy (asaasSubscriptionId tb) = false -> st1 = st /\ synced = tb)).
Proof.
  intros Hrun.
  destruct (st !! id) as [tb |] eqn:Hget.
  2: { unfold SubscriptionService.syncSubscriptionStatus in Hrun. unfold await at 1 in Hrun.
       unfold getTenantBilling in Hrun. rewrite Hget in Hrun. discriminate Hrun. }
  destruct (truthy (asaasSubscriptionId tb)) eqn:Htruthy.
  2: { assert (Hread : forall s, s !! id = Some tb ->
                 SubscriptionService.syncSubscriptionStatus rt this id s = (s, inr tb)).
       { intros s Hs. unfold SubscriptionService.syncSubscriptionStatus. unfold await at 1.
         unfold getTenantBilling. now rewrite Hs, Htruthy. }
       rewrite (Hread st Hget) in Hrun. injection Hrun as <- <-.
       split; [exact Hget |]. split; [now apply Hread |].
       exists tb. repeat split; auto. }
  destruct (client_getSubscription (asaasClient this) (nullish (asaasSubscriptionId tb) ""))
    as [e | snapshot] eqn:Hsnapshot.
  { unfold SubscriptionService.syncSubscriptionStatus in Hrun. unfold await at 1 in Hrun.
    unfold getTenantBilling in Hrun. rewrite Hget, Htruthy in Hrun. cbn [negb] in Hrun.
    unfold await at 1 in Hrun. unfold external in Hrun. rewrite Hsnapshot in Hrun.
    discriminate Hrun. }
  rewrite (syncSubscriptionStatus_run rt this id st tb snapshot Hget Htruthy Hsnapshot) in Hrun.
  cbv zeta in Hrun.
  set (newStatus := SubscriptionService.mapAsaasStatusToBillingStatus snapshot (billingStatus tb))
    in *.
  set (m' := if truthy (remote_nextDueDate snapshot) then _ else _) in *.
  destruct (bool_decide (newStatus = billingStatus tb)
            || isValidTransition (billingStatus tb) newStatus); [| discriminate Hrun].
  injection Hrun as <- <-.
  split; [apply lookup_insert_eq |]. split.
  - rewrite (syncSubscriptionStatus_run rt this id _ (with_status_metadata newStatus m' tb)
               snapshot (lookup_insert_eq _ _ _) Htruthy Hsnapshot).
    cbv zeta. cbn [billingStatus with_status_metadata subscriptionMetadata].
    fold newStatus. subst newStatus. rewrite mapAsaasStatusToBillingStatus_idempotent.
    rewrite bool_decide_eq_true_2 by reflexivity. cbn [orb].
    assert (Hsame : with_status_metadata
                      (SubscriptionService.mapAsaasStatusToBillingStatus snapshot (billingStatus tb))
                      (if truthy (remote_nextDueDate snapshot)
                       then option_map
                              (set_nextBillingDate
                                 (Date_parse rt (nullish (remote_nextDueDate snapshot) ""))) m'
                       else m')
                      (with_status_metadata
                         (SubscriptionService.mapAsaasStatusToBillingStatus snapshot
                            (billingStatus tb)) m' tb)
                    = with_status_metadata
                        (SubscriptionService.mapAsaasStatusToBillingStatus snapshot
                           (billingStatus tb)) m' tb).
    { subst m'. destruct (truthy (remote_nextDueDate snapshot)); [| reflexivity].
      destruct (subscriptionMetadata tb); reflexivity. }
    rewrite Hsame. now rewrite insert_insert_eq.
  - exists tb. split; [reflexivity |]. split; [repeat split |]. congruence.
Qed.

Lemma syncSubscriptionStatus_idempotent_witness :
  exists st1 synced,
    SubscriptionService.syncSubscriptionStatus example_runtime
      (mkSubscriptionServiceConfig (example_client "INACTIVE") None) "tenant-1"
      (example_store OVERDUE) = (st1, inr synced)
    /\ billingStatus synced = SUSPENDED
    /\ SubscriptionService.syncSubscriptionStatus example_runtime
         (mkSubscriptionServiceConfig (example_client "INACTIVE") None) "tenant-1" st1
       = (st1, inr synced).
Proof.
  eexists _, _.
  assert (Hrun : SubscriptionService.syncSubscriptionStatus example_runtime
                   (mkSubscriptionServiceConfig (example_client "INACTIVE") None) "tenant-1"
                   (example_store OVERDUE)
                 = (<["tenant-1" := example_tenant SUSPENDED]> (example_store OVERDUE),
                    inr (example_tenant SUSPENDED))).
  { rewrite (syncSubscriptionStatus_run example_runtime _ "tenant-1" (example_store OVERDUE)
               (example_tenant OVERDUE) (mkSubscription "INACTIVE" false None));
      reflexivity. }
  split; [exact Hrun |]. split; [reflexivity |].
  apply (syncSubscriptionStatus_idempotent example_runtime
           (mkSubscriptionServiceConfig (example_client "INACTIVE") None) "tenant-1"
           (example_store OVERDUE) _ _ Hrun).
Defined.

Lemma cancelSubscription_run (this : SubscriptionServiceConfig) (id : string) (st : Store)
    (tb : TenantBillingData) (sid : string) :
  st !! id = Some tb ->
  asaasSubscriptionId tb = Some sid -> sid <> "" ->
  billingStatus tb <> CANCELED ->
  (client_cancelSubscription (asaasClient this) sid = inr tt ->
   SubscriptionService.cancelSubscription this id st
   = (<[id := set_billingStatus CANCELED tb]> st, inr tt))
  /\ (forall e, client_cancelSubscription (asaasClient this) sid = inl e ->
                exists e', SubscriptionService.cancelSubscription this id st = (st, inl e')).
Proof.
  intros Hstored Hsid Hne Hstatus.
  assert (Hvalid : isValidTransition (billingStatus tb) CANCELED = true).
  { destruct (billingStatus tb); try reflexivity. contradiction. }
  apply String.eqb_neq in Hne.
  assert (Hrun : SubscriptionService.cancelSubscription this id st
                 = match client_cancelSubscription (asaasClient this) sid with
                   | inl e => SubscriptionService.cancelSubscription_catch id e st
                   | inr _ => (<[id := set_billingStatus CANCELED tb]> st, inr tt)
                   end).
  { unfold SubscriptionService.cancelSubscription, try_catch. unfold await at 1.
    unfold getTenantBilling. rewrite Hstored, Hsid. cbn [truthy nullish]. rewrite Hne, Hvalid.
    cbn [negb]. unfold await, external, updateTenantBilling.
    destruct (client_cancelSubscription (asaasClient this) sid) as [e | []]; [reflexivity |].
    now rewrite (alter_stored _ _ _ _ Hstored). }
  rewrite Hrun. split.
  - now intros ->.
  - intros e ->. destruct e; eexists; reflexivity.
Qed.

(** X19. Cancellation.  When the tenant is stored with a subscription id
    and a status other than [canceled] and the payment processor accepts
    the cancellation, [cancelSubscription] returns, the tenant is
    [canceled] and nothing else has changed; and it returns in no other
    case.  Otherwise it throws one of its two errors and the store is as
    it was: [Tenant not found] for a tenant that is not stored,
    [Tenant has no active subscription] without subscription id, the
    invalid transition for a tenant that is already [canceled], and a
    refusal of the payment processor wrapped as a
    [SubscriptionCancellationError] with the tenant id. *)
Theorem cancelSubscription_characterised (this : SubscriptionServiceConfig) (id : string)
    (st : Store) :
  (forall tb sid,
     st !! id = Some tb ->
     asaasSubscriptionId tb = Some sid -> sid <> "" ->
     billingStatus tb <> CANCELED ->
     client_cancelSubscription (asaasClient this) sid = inr tt ->
     SubscriptionService.cancelSubscription this id st
     = (<[id := set_billingStatus CANCELED tb]> st, inr tt))
  /\ match SubscriptionService.cancelSubscription this id st with
     | (st', inr _) =>
         exists tb sid,
           st !! id = Some tb
           /\ asaasSubscriptionId tb = Some sid /\ sid <> ""
           /\ billingStatus tb <> CANCELED
           /\ client_cancelSubscription (asaasClient this) sid = inr tt
           /\ st' = <[id := set_billingStatus CANCELED tb]> st
     | (st', inl e) =>
         st' = st
         /\ match e with
            | SubscriptionCancellationError _ _ | InvalidBillingTransitionError _ _ => True
            | _ => False
            end
         /\ (forall tb sid code message,
               st !! id = Some tb ->
               asaasSubscriptionId tb = Some sid -> sid <> "" ->
               billingStatus tb <> CANCELED ->
               client_cancelSubscription (asaasClient this) sid
               = inl (AsaasApiError code message) ->
               e = SubscriptionCancellationError id
                     (String.append "Failed to cancel subscription: " message))
     end
  /\ (st !! id = None ->
      SubscriptionService.cancelSubscription this id st
      = (st, inl (SubscriptionCancellationError "unknown" "Tenant not found")))
  /\ (forall tb,
        st !! id = Some tb ->
        (asaasSubscriptionId tb = None \/ asaasSubscriptionId tb = Some "" ->
         SubscriptionService.cancelSubscription this id st
         = (st, inl (SubscriptionCancellationError "unknown"
                       "Tenant has no active subscription")))
        /\ (forall sid, asaasSubscriptionId tb = Some sid -> sid <> "" ->
                        billingStatus tb = CANCELED ->
                        SubscriptionService.cancelSubscription this id st
                        = (st, inl (InvalidBillingTransitionError CANCELED CANCELED)))).
Proof.
  split; [| split; [| split]].
  - intros tb sid Hstored Hsid Hne Hstatus Hclient.
    now apply (cancelSubscription_run this id st tb sid Hstored Hsid Hne Hstatus).
  - unfold SubscriptionService.cancelSubscription, try_catch. unfold await at 1.
    unfold getTenantBilling.
    destruct (st !! id) as [tb |] eqn:Hstored.
    2: { cbn. split; [reflexivity |]. split; [exact I |].
         intros tb' sid' code message Hnone. discriminate Hnone. }
    destruct (asaasSubscriptionId tb) as [sid |] eqn:Hsid.
    2: { cbn. split; [reflexivity |]. split; [exact I |].
         intros tb' sid' code message [= <-]. rewrite Hsid. discriminate. }
    cbn [truthy nullish].
    destruct (String.eqb_spec sid "") as [-> | Hne]; cbn [negb].
    { cbn. split; [reflexivity |]. split; [exact I |]. intros tb' sid' code message [= <-].
      rewrite Hsid. intros [= <-]. contradiction. }
    destruct (isValidTransition (billingStatus tb) CANCELED) eqn:Hvalid; cbn [negb].
    2: { cbn. split; [reflexivity |]. split; [exact I |].
         intros tb' sid' code message [= <-] _ _ Hstatus.
         destruct (billingStatus tb); try discriminate Hvalid. contradiction. }
    unfold await, external, updateTenantBilling.
    destruct (client_cancelSubscription (asaasClient this) sid) as [e | []] eqn:Hclient.
    + assert (Hcatch : exists e',
                SubscriptionService.cancelSubscription_catch id e st = (st, inl e')
                /\ match e' with
                   | SubscriptionCancellationError _ _ | InvalidBillingTransitionError _ _ => True
                   | _ => False
                   end
                /\ (forall code message, e = AsaasApiError code message ->
                      e' = SubscriptionCancellationError id
                             (String.append "Failed to cancel subscription: " message))).
      { destruct e; eexists; (split; [reflexivity |]); (split; [exact I |]);
          intros code message' Heq; try discriminate Heq. now injection Heq as <- <-. }
      destruct Hcatch as (e' & -> & Hclass & Hwrapped).
      split; [reflexivity |]. split; [exact Hclass |].
      intros tb' sid' code message [= <-]. rewrite Hsid. intros [= <-] _ _ Herror.
      apply (Hwrapped code message). congruence.
    + exists tb, sid. repeat split; auto.
      * intros Hcanceled. rewrite Hcanceled in Hvalid. discriminate Hvalid.
      * now rewrite (alter_stored _ _ _ _ Hstored).
  - intros Hnone. unfold SubscriptionService.cancelSubscription, try_catch. unfold await at 1.
    unfold getTenantBilling. rewrite Hnone. reflexivity.
  - intros tb Hstored.
    assert (Hbody : forall r,
              (if negb (truthy (asaasSubscriptionId tb)) then
                 throw (SubscriptionCancellationError "unknown" "Tenant has no active subscription")
               else if negb (isValidTransition (billingStatus tb) CANCELED) then
                 throw (InvalidBillingTransitionError (billingStatus tb) CANCELED)
               else
                 external (client_cancelSubscription (asaasClient this)
                             (nullish (asaasSubscriptionId tb) "")) ;;;
                 updateTenantBilling id (mkPatch (Some CANCELED) None)) st = (st, inl r) ->
              SubscriptionService.cancelSubscription this id st
              = SubscriptionService.cancelSubscription_catch id r st).
    { intros r Hr. unfold SubscriptionService.cancelSubscription, try_catch. unfold await at 1.
      unfold getTenantBilling. rewrite Hstored. now rewrite Hr. }
    split.
    + intros Hmissing. rewrite (Hbody (SubscriptionCancellationError "unknown"
                                          "Tenant has no active subscription")); [reflexivity |].
      destruct Hmissing as [-> | ->]; reflexivity.
    + intros sid Hsid Hne Hcanceled.
      rewrite (Hbody (InvalidBillingTransitionError CANCELED CANCELED)); [reflexivity |].
      rewrite Hsid, Hcanceled. cbn. apply String.eqb_neq in Hne. now rewrite Hne.
Qed.

Lemma cancelSubscription_characterised_witness :
  SubscriptionService.cancelSubscription
    (mkSubscriptionServiceConfig (example_client "ACTIVE") None) "tenant-1" (example_store OVERDUE)
  = (<["tenant-1" := example_tenant CANCELED]> (example_store OVERDUE), inr tt).
Proof.
  destruct (cancelSubscription_characterised
              (mkSubscriptionServiceConfig (example_client "ACTIVE") None) "tenant-1"
              (example_store OVERDUE)) as [Hreturns _].
  apply (Hreturns (example_tenant OVERDUE) "sub_1");
    [reflexivity | reflexivity | discriminate | discriminate | reflexivity].
Defined.

(** A client whose cancellation is refused by the payment processor. *)
Lemma cancelSubscription_refused_example :
  let refusing :=
    mkSubscriptionServiceConfig
      (mkClient (fun _ => inr (mkSubscription "ACTIVE" false None))
                (fun _ => inl (AsaasApiError 500 "boom"))) None in
  SubscriptionService.cancelSubscription refusing "tenant-1" (example_store OVERDUE)
  = (example_store OVERDUE,
     inl (SubscriptionCancellationError "tenant-1" "Failed to cancel subscription: boom")).
Proof. reflexivity. Qed.

(** X20. The action reported for PAYMENT_OVERDUE and the status change
    are decided by two different thresholds.  For an [active] tenant and
    a payment late by fewer days than the suspension threshold, the
    tenant becomes [overdue] (limited access) whatever the action says:
    the action is [tenant_overdue] from [daysUntilOverdueStatus] days on
    (1 by default) and [overdue_warning] below, so a payment late by
    less than a day is reported as a warning and still makes the tenant
    [overdue]. *)
Theorem overdue_warning_changes_status (rt : Runtime) (this : WebhookHandlerConfig)
    (ev : AsaasWebhookEvent) (accessToken : option string) (st : Store)
    (pay : AsaasPaymentPayload) (tenant tb : TenantBillingData) (x y w : Z) :
  token_accepted this accessToken ->
  event ev = "PAYMENT_OVERDUE" ->
  payment ev = Some pay ->
  payment_resolves this st pay tenant ->
  st !! tenant_id tenant = Some tb ->
  billingStatus tb = ACTIVE ->
  spec_daysOverdue (Date_now rt) (Date_parse rt (payment_dueDate pay)) (JsNum x) ->
  spec_threshold (daysUntilSuspension (subscriptionService (billingService this))) (JsNum y) ->
  daysUntilOverdueStatus this = Some (JsNum w)
  \/ (daysUntilOverdueStatus this = None /\ w = 1) ->
  x < y ->
  exists st',
    WebhookHandler.handleEvent rt this ev accessToken st =
      (st', mkResult true "PAYMENT_OVERDUE" (Some (tenant_id tenant))
              (Some (if w <=? x then "tenant_overdue" else "overdue_warning")) None)
    /\ stored_status st' (tenant_id tenant) = Some OVERDUE
    /\ BillingEnforcer.hasLimitedAccessOnly st' (tenant_id tenant) = true
    /\ (x = 0 -> w = 1 ->
        action (WebhookHandler.handleEvent rt this ev accessToken st).2
        = Some "overdue_warning").
Proof.
  intros Htoken Hevent Hpayment Hresolved Hstored Hactive Hdays Hthreshold Hwarning Hbelow.
  assert (Htarget : spec_target (JsNum x) (JsNum y) OVERDUE) by (cbn; right; auto).
  pose proof (handleEvent_payment_overdue_run rt this ev accessToken st pay tenant tb
                (JsNum x) (JsNum y) OVERDUE Htoken Hevent Hpayment Hresolved Hstored
                Hdays Hthreshold Htarget) as Hrun.
  cbv zeta in Hrun. rewrite Hactive in Hrun.
  change (bool_decide (ACTIVE = OVERDUE)) with false in Hrun.
  change (isValidTransition ACTIVE OVERDUE) with true in Hrun. cbv iota in Hrun.
  assert (Hw : nullish (daysUntilOverdueStatus this) (JsNum 1) = JsNum w).
  { destruct Hwarning as [-> | [-> ->]]; reflexivity. }
  rewrite Hw in Hrun. cbn [js_geb] in Hrun.
  eexists. split; [exact Hrun |].
  unfold stored_status, BillingEnforcer.hasLimitedAccessOnly. rewrite !lookup_insert_eq.
  split; [reflexivity |]. split; [reflexivity |].
  intros -> ->. rewrite Hrun. reflexivity.
Qed.

Lemma overdue_warning_changes_status_witness :
  let sameDay := mkRuntime 5 (fun _ => JsNum 0) in
  spec_daysOverdue (Date_now sameDay) (Date_parse sameDay (payment_dueDate example_payment))
    (JsNum 0)
  /\ exists st',
       WebhookHandler.handleEvent sameDay (example_handler "ACTIVE")
         (example_event "PAYMENT_OVERDUE") None (example_store ACTIVE) =
         (st', mkResult true "PAYMENT_OVERDUE" (Some "tenant-1") (Some "overdue_warning") None)
       /\ stored_status st' "tenant-1" = Some OVERDUE.
Proof.
  cbv zeta.
  assert (Hdays : spec_daysOverdue (Date_now (mkRuntime 5 (fun _ => JsNum 0)))
                    (Date_parse (mkRuntime 5 (fun _ => JsNum 0)) (payment_dueDate example_payment))
                    (JsNum 0)).
  { apply (daysOverdue_valid _ 0 0). unfold is_floor_days, day_ms. cbn. lia. }
  split; [exact Hdays |].
  destruct (overdue_warning_changes_status (mkRuntime 5 (fun _ => JsNum 0))
              (example_handler "ACTIVE") (example_event "PAYMENT_OVERDUE") None
              (example_store ACTIVE) example_payment (example_tenant ACTIVE)
              (example_tenant ACTIVE) 0 15 1
              (example_token_accepted "ACTIVE" None) eq_refl eq_refl
              (example_payment_resolves "ACTIVE" ACTIVE) (example_stored ACTIVE) eq_refl
              Hdays (example_threshold "ACTIVE") (or_introl eq_refl) ltac:(lia))
    as (st' & Hrun & Hstatus & _).
  exists st'. split; [exact Hrun | exact Hstatus].
Defined.

(** ** Redelivery of an event *)

(** A computation run again on the store it has produced gives the same
    outcome. *)
Lemma then_resolve_rerun {A B : Type} (c : Async A) (b : B) (st : Store) :
  c (c st).1 = c st ->
  (c ;;; resolve b) ((c ;;; resolve b) st).1 = (c ;;; resolve b) st.
Proof.
  intros Hc. unfold await, resolve.
  destruct (c st) as [st' [e | a]] eqn:Hrun; cbn [fst] in *; now rewrite Hc.
Qed.

Lemma handlePaymentConfirmed_rerun (id : string) (paymentDate : JsDate) (st : Store) :
  SubscriptionService.handlePaymentConfirmed id paymentDate
    (SubscriptionService.handlePaymentConfirmed id paymentDate st).1
  = SubscriptionService.handlePaymentConfirmed id paymentDate st.
Proof.
  destruct (st !! id) as [tb |] eqn:Hstored.
  - rewrite (service_handlePaymentConfirmed_run id paymentDate st tb Hstored). cbv zeta.
    destruct (bool_decide (billingStatus tb = ACTIVE) || isValidTransition (billingStatus tb) ACTIVE)
      eqn:Hallowed.
    + cbn [fst].
      rewrite (service_handlePaymentConfirmed_run id paymentDate _ _ (lookup_insert_eq _ _ _)).
      cbv zeta. cbn [billingStatus with_status_metadata subscriptionMetadata orb fst].
      rewrite insert_insert_eq. do 2 f_equal. unfold with_status_metadata. cbn.
      now destruct (subscriptionMetadata tb).
    + cbn [fst]. rewrite (service_handlePaymentConfirmed_run id paymentDate st tb Hstored).
      cbv zeta. now rewrite Hallowed.
  - assert (Hthrow : SubscriptionService.handlePaymentConfirmed id paymentDate st
                     = (st, inl (BillingStatusInvalidError CANCELED "Tenant not found"))).
    { unfold SubscriptionService.handlePaymentConfirmed. run_async. now rewrite Hstored. }
    rewrite Hthrow. cbn [fst]. now rewrite Hthrow.
Qed.

Lemma handlePaymentOverdue_rerun (this : SubscriptionServiceConfig) (id : string)
    (d : JsNumber) (st : Store) :
  SubscriptionService.handlePaymentOverdue this id d
    (SubscriptionService.handlePaymentOverdue this id d st).1
  = SubscriptionService.handlePaymentOverdue this id d st.
Proof.
  destruct (st !! id) as [tb |] eqn:Hstored.
  - rewrite (service_handlePaymentOverdue_run this id d st tb Hstored). cbv zeta.
    set (target := if js_geb d _ then SUSPENDED else OVERDUE).
    assert (Hagain : forall s,
              billingStatus s = target ->
              subscriptionMetadata s = option_map (set_daysOverdue d) (subscriptionMetadata tb) ->
              tenant_id s = tenant_id tb -> asaasCustomerId s = asaasCustomerId tb ->
              asaasSubscriptionId s = asaasSubscriptionId tb ->
              SubscriptionService.handlePaymentOverdue this id d (<[id := s]> st)
              = (<[id := s]> st, inr tt)).
    { intros s Hs Hm Hid Hcus Hsub.
      rewrite (service_handlePaymentOverdue_run this id d _ _ (lookup_insert_eq _ _ _)).
      cbv zeta. fold target. rewrite Hs, bool_decide_eq_true_2 by reflexivity.
      rewrite insert_insert_eq. do 2 f_equal. destruct s as [tid cus sub status m]. cbn in *.
      subst. unfold with_status_metadata. cbn. f_equal.
      now destruct (subscriptionMetadata tb). }
    destruct (bool_decide (billingStatus tb = target)) eqn:Heq.
    + cbn [fst]. apply bool_decide_eq_true in Heq. now apply Hagain.
    + destruct (isValidTransition (billingStatus tb) target) eqn:Hvalid; cbn [fst].
      * now apply Hagain.
      * rewrite (service_handlePaymentOverdue_run this id d st tb Hstored). cbv zeta.
        fold target. now rewrite Heq, Hvalid.
  - assert (Hthrow : SubscriptionService.handlePaymentOverdue this id d st
                     = (st, inl (BillingStatusInvalidError CANCELED "Tenant not found"))).
    { unfold SubscriptionService.handlePaymentOverdue. run_async. now rewrite Hstored. }
    rewrite Hthrow. cbn [fst]. now rewrite Hthrow.
Qed.

Lemma syncSubscriptionStatus_rerun (rt : Runtime) (this : SubscriptionServiceConfig)
    (id : string) (st : Store) :
  SubscriptionService.syncSubscriptionStatus rt this id
    (SubscriptionService.syncSubscriptionStatus rt this id st).1
  = SubscriptionService.syncSubscriptionStatus rt this id st.
Proof.
  assert (Hfixed : forall r,
            SubscriptionService.syncSubscriptionStatus rt this id st = (st, r) ->
            SubscriptionService.syncSubscriptionStatus rt this id
              (SubscriptionService.syncSubscriptionStatus rt this id st).1
            = SubscriptionService.syncSubscriptionStatus rt this id st).
  { intros r Hr. rewrite Hr. cbn [fst]. now rewrite Hr. }
  destruct (st !! id) as [tb |] eqn:Hstored.
  2: { eapply Hfixed. unfold SubscriptionService.syncSubscriptionStatus. unfold await at 1.
       unfold getTenantBilling. rewrite Hstored. reflexivity. }
  destruct (truthy (asaasSubscriptionId tb)) eqn:Htruthy.
  2: { eapply Hfixed. unfold SubscriptionService.syncSubscriptionStatus. unfold await at 1.
       unfold getTenantBilling. rewrite Hstored, Htruthy. reflexivity. }
  destruct (client_getSubscription (asaasClient this) (nullish (asaasSubscriptionId tb) ""))
    as [e | snapshot] eqn:Hsnapshot.
  { eapply Hfixed. unfold SubscriptionService.syncSubscriptionStatus. unfold await at 1.
    unfold getTenantBilling. rewrite Hstored, Htruthy. cbn [negb].
    unfold await at 1. unfold external. rewrite Hsnapshot. reflexivity. }
  pose proof (syncSubscriptionStatus_run rt this id st tb snapshot Hstored Htruthy Hsnapshot)
    as Hrun. cbv zeta in Hrun.
  set (newStatus := SubscriptionService.mapAsaasStatusToBillingStatus snapshot (billingStatus tb))
    in *.
  set (m' := if truthy (remote_nextDueDate snapshot) then _ else _) in *.
  destruct (bool_decide (newStatus = billingStatus tb)
            || isValidTransition (billingStatus tb) newStatus); [| now apply (Hfixed _ Hrun)].
  rewrite Hrun. cbn [fst].
  rewrite (syncSubscriptionStatus_run rt this id _ (with_status_metadata newStatus m' tb)
             snapshot (lookup_insert_eq _ _ _) Htruthy Hsnapshot).
  cbv zeta. cbn [billingStatus with_status_metadata subscriptionMetadata].
  fold newStatus. subst newStatus. rewrite mapAsaasStatusToBillingStatus_idempotent.
  rewrite bool_decide_eq_true_2 by reflexivity. cbn [orb].
  rewrite insert_insert_eq.
  assert (Hsame : (if truthy (remote_nextDueDate snapshot)
                   then option_map
                          (set_nextBillingDate
                             (Date_parse rt (nullish (remote_nextDueDate snapshot) ""))) m'
                   else m') = m').
  { subst m'. destruct (truthy (remote_nextDueDate snapshot)); [| reflexivity].
    now destruct (subscriptionMetadata tb). }
  rewrite Hsame. reflexivity.
Qed.

Lemma payment_switch_tenant_id (rt : Runtime) (this : WebhookHandlerConfig) (eventType : string)
    (tenant tenant' : TenantBillingData) (pay : AsaasPaymentPayload) :
  tenant_id tenant' = tenant_id tenant ->
  payment_switch rt this eventType tenant' pay = payment_switch rt this eventType tenant pay.
Proof.
  intros Hid. unfold payment_switch, WebhookHandler.handlePaymentCreated,
    WebhookHandler.handlePaymentConfirmed, WebhookHandler.handlePaymentOverdue,
    WebhookHandler.handlePaymentRefunded.
  now rewrite Hid.
Qed.

Lemma subscription_switch_tenant_id (rt : Runtime) (this : WebhookHandlerConfig)
    (eventType : string) (tenant tenant' : TenantBillingData) (sub : AsaasSubscriptionPayload) :
  tenant_id tenant' = tenant_id tenant ->
  subscription_switch rt this eventType tenant' sub
  = subscription_switch rt this eventType tenant sub.
Proof.
  intros Hid. unfold subscription_switch, WebhookHandler.handleSubscriptionActivated,
    WebhookHandler.handleSubscriptionCanceled, WebhookHandler.handleSubscriptionUpdated.
  now rewrite Hid.
Qed.

Lemma payment_switch_rerun (rt : Runtime) (this : WebhookHandlerConfig) (eventType : string)
    (tenant : TenantBillingData) (pay : AsaasPaymentPayload) (st : Store) :
  payment_switch rt this eventType tenant pay
    (payment_switch rt this eventType tenant pay st).1
  = payment_switch rt this eventType tenant pay st.
Proof.
  unfold payment_switch.
  destruct (String.eqb eventType "PAYMENT_CREATED"); [reflexivity |].
  destruct (String.eqb eventType "PAYMENT_CONFIRMED" || String.eqb eventType "PAYMENT_RECEIVED").
  { unfold WebhookHandler.handlePaymentConfirmed, BillingService.handlePaymentConfirmed.
    apply then_resolve_rerun, handlePaymentConfirmed_rerun. }
  destruct (String.eqb eventType "PAYMENT_OVERDUE").
  { unfold WebhookHandler.handlePaymentOverdue, BillingService.handlePaymentOverdue.
    cbv zeta. apply then_resolve_rerun, handlePaymentOverdue_rerun. }
  destruct (String.eqb eventType "PAYMENT_REFUNDED"); reflexivity.
Qed.

Lemma subscription_switch_rerun (rt : Runtime) (this : WebhookHandlerConfig)
    (eventType : string) (tenant : TenantBillingData) (sub : AsaasSubscriptionPayload)
    (st : Store) :
  eventType <> "SUBSCRIPTION_CANCELED" ->
  subscription_switch rt this eventType tenant sub
    (subscription_switch rt this eventType tenant sub st).1
  = subscription_switch rt this eventType tenant sub st.
Proof.
  intros Hother. unfold subscription_switch.
  destruct (String.eqb eventType "SUBSCRIPTION_ACTIVATED").
  { unfold WebhookHandler.handleSubscriptionActivated, BillingService.syncSubscriptionStatus.
    apply then_resolve_rerun, syncSubscriptionStatus_rerun. }
  destruct (String.eqb_spec eventType "SUBSCRIPTION_CANCELED"); [contradiction |].
  destruct (String.eqb eventType "SUBSCRIPTION_UPDATED" || String.eqb eventType "SUBSCRIPTION_RENEWED").
  { unfold WebhookHandler.handleSubscriptionUpdated, BillingService.syncSubscriptionStatus.
    apply then_resolve_rerun, syncSubscriptionStatus_rerun. }
  reflexivity.
Qed.

(** X21. Redelivery is harmless.  An event other than
    SUBSCRIPTION_CANCELED that is delivered again, with the same clock
    and against the same remote snapshot, to the store its first
    delivery has produced gives the same result and leaves that store as
    it is, provided the lookups find the same tenant as before. *)
Theorem redelivery_idempotent (rt : Runtime) (this : WebhookHandlerConfig)
    (ev : AsaasWebhookEvent) (accessToken : option string) (st : Store) :
  event ev <> "SUBSCRIPTION_CANCELED" ->
  resolves_alike this ev st (WebhookHandler.handleEvent rt this ev accessToken st).1 ->
  WebhookHandler.handleEvent rt this ev accessToken
    (WebhookHandler.handleEvent rt this ev accessToken st).1
  = WebhookHandler.handleEvent rt this ev accessToken st.
Proof.
  intros Hother.
  assert (Hlift : forall st',
            WebhookHandler.handleEvent_try rt this ev accessToken st'
            = WebhookHandler.handleEvent_try rt this ev accessToken st ->
            (WebhookHandler.handleEvent rt this ev accessToken st).1 = st' ->
            WebhookHandler.handleEvent rt this ev accessToken st'
            = WebhookHandler.handleEvent rt this ev accessToken st).
  { intros st' Htry _. unfold WebhookHandler.handleEvent. now rewrite Htry. }
  assert (Hstore : (WebhookHandler.handleEvent rt this ev accessToken st).1
                   = (WebhookHandler.handleEvent_try rt this ev accessToken st).1).
  { unfold WebhookHandler.handleEvent.
    now destruct (WebhookHandler.handleEvent_try rt this ev accessToken st) as [st' [e | r]]. }
  rewrite Hstore. intros [Hpayments Hsubscriptions].
  apply Hlift; [| exact Hstore].
  unfold WebhookHandler.handleEvent_try in *.
  destruct (negb (WebhookHandler.validateAccessToken this accessToken)); [reflexivity |].
  destruct (negb (isAsaasEventType (event ev))); [reflexivity |].
  destruct (isPaymentEvent (event ev)).
  - destruct (payment ev) as [pay |]; [| reflexivity].
    destruct (payment_lookup_cases this st pay) as [Hnone | [tenant Hfound]].
    + rewrite (handlePaymentEvent_unresolved rt this _ pay st Hnone). cbn [fst].
      now rewrite (handlePaymentEvent_unresolved rt this _ pay st Hnone).
    + rewrite (handlePaymentEvent_resolved rt this _ pay st tenant Hfound) in *.
      fold (payment_switch rt this (event ev) tenant pay) in *.
      destruct (Hpayments pay tenant eq_refl Hfound) as (tenant' & Hfound' & Hid).
      rewrite (handlePaymentEvent_resolved rt this _ pay _ tenant' Hfound').
      fold (payment_switch rt this (event ev) tenant' pay).
      rewrite (payment_switch_tenant_id rt this _ tenant tenant' pay Hid).
      apply payment_switch_rerun.
  - destruct (isSubscriptionEvent (event ev)); [| reflexivity].
    destruct (subscription ev) as [sub |]; [| reflexivity].
    destruct (subscription_lookup_cases this st sub) as [Hnone | [tenant Hfound]].
    + rewrite (handleSubscriptionEvent_unresolved rt this _ sub st Hnone). cbn [fst].
      now rewrite (handleSubscriptionEvent_unresolved rt this _ sub st Hnone).
    + rewrite (handleSubscriptionEvent_resolved rt this _ sub st tenant Hfound) in *.
      fold (subscription_switch rt this (event ev) tenant sub) in *.
      destruct (Hsubscriptions sub tenant eq_refl Hfound) as (tenant' & Hfound' & Hid).
      rewrite (handleSubscriptionEvent_resolved rt this _ sub _ tenant' Hfound').
      fold (subscription_switch rt this (event ev) tenant' sub).
      rewrite (subscription_switch_tenant_id rt this _ tenant tenant' sub Hid).
      now apply subscription_switch_rerun.
Qed.

Lemma example_resolves_alike (remote eventType : string) (s : BillingStatus) (st' : Store)
    (t' : TenantBillingData) :
  st' !! "tenant-1" = Some t' ->
  tenant_id t' = "tenant-1" ->
  resolves_alike (example_handler remote) (example_event eventType) (example_store s) st'.
Proof.
  intros Hstored Hid. split.
  - intros pay tenant [= <-] Hfound. exists t'. split.
    + left. exists "sub_1". split; [reflexivity |]. split; [discriminate | exact Hstored].
    + rewrite Hid.
      destruct Hfound as [(sub & [= <-] & _ & Hfind) | [_ Hfind]];
        vm_compute in Hfind; now injection Hfind as <-.
  - intros sub tenant [= <-] Hfound. exists t'. split.
    + left. exact Hstored.
    + rewrite Hid.
      destruct Hfound as [Hfind | [_ Hfind]]; vm_compute in Hfind; now injection Hfind as <-.
Qed.

Lemma redelivery_idempotent_witness :
  let first :=
    WebhookHandler.handleEvent example_runtime (example_handler "ACTIVE")
      (example_event "PAYMENT_OVERDUE") None (example_store OVERDUE) in
  stored_status first.1 "tenant-1" = Some SUSPENDED
  /\ WebhookHandler.handleEvent example_runtime (example_handler "ACTIVE")
       (example_event "PAYMENT_OVERDUE") None first.1 = first.
Proof.
  cbv zeta. split; [reflexivity |].
  apply (redelivery_idempotent example_runtime (example_handler "ACTIVE")
           (example_event "PAYMENT_OVERDUE") None (example_store OVERDUE)).
  - discriminate.
  - eapply example_resolves_alike; reflexivity.
Defined.



(** X23. A PAYMENT_OVERDUE event whose due date does not parse.  The
    number of days is then NaN, which is below every threshold: whatever
    the configuration, such an event suspends no tenant; from [overdue],
    or from a status that may become [overdue], it succeeds as an
    [overdue_warning], the tenant is [overdue], and NaN is what is stored
    as [daysOverdue]. *)
Theorem invalid_due_date_marks_overdue (rt : Runtime) (this : WebhookHandlerConfig)
    (ev : AsaasWebhookEvent) (accessToken : option string) (st : Store)
    (pay : AsaasPaymentPayload) (tenant tb : TenantBillingData) :
  token_accepted this accessToken ->
  event ev = "PAYMENT_OVERDUE" ->
  payment ev = Some pay ->
  payment_resolves this st pay tenant ->
  st !! tenant_id tenant = Some tb ->
  Date_parse rt (payment_dueDate pay) = JsNaN ->
  (billingStatus tb <> SUSPENDED ->
   stored_status (WebhookHandler.handleEvent rt this ev accessToken st).1 (tenant_id tenant)
   <> Some SUSPENDED)
  /\ (billingStatus tb = OVERDUE \/ isValidTransition (billingStatus tb) OVERDUE = true ->
      exists st',
        WebhookHandler.handleEvent rt this ev accessToken st =
          (st', mkResult true "PAYMENT_OVERDUE" (Some (tenant_id tenant))
                  (Some "overdue_warning") None)
        /\ stored_status st' (tenant_id tenant) = Some OVERDUE
        /\ (forall m, subscriptionMetadata tb = Some m ->
                      stored_daysOverdue st' (tenant_id tenant) = Some JsNaN)).
Proof.
  intros Htoken Hevent Hpayment Hresolved Hstored Hinvalid.
  assert (Hdays : spec_daysOverdue (Date_now rt) (Date_parse rt (payment_dueDate pay)) JsNaN).
  { rewrite Hinvalid. constructor. }
  assert (Hthreshold : exists thr,
            spec_threshold (daysUntilSuspension (subscriptionService (billingService this))) thr).
  { destruct (daysUntilSuspension (subscriptionService (billingService this))) as [thr |].
    - exists thr. now left.
    - exists (JsNum 15). now right. }
  destruct Hthreshold as [thr Hthreshold].
  pose proof (handleEvent_payment_overdue_run rt this ev accessToken st pay tenant tb
                JsNaN thr OVERDUE Htoken Hevent Hpayment Hresolved Hstored
                Hdays Hthreshold eq_refl) as Hrun.
  cbv zeta in Hrun. cbn [js_geb] in Hrun. split.
  - intros Hstatus. rewrite Hrun. unfold stored_status.
    destruct (bool_decide (billingStatus tb = OVERDUE));
      [| destruct (isValidTransition (billingStatus tb) OVERDUE)]; cbn [fst].
    + rewrite lookup_insert_eq. cbn. congruence.
    + rewrite lookup_insert_eq. cbn. discriminate.
    + rewrite Hstored. cbn. congruence.
  - intros Hmay.
    assert (Hstore : exists s,
              WebhookHandler.handleEvent rt this ev accessToken st =
                (<[tenant_id tenant :=
                     with_status_metadata s
                       (option_map (set_daysOverdue JsNaN) (subscriptionMetadata tb)) tb]> st,
                 mkResult true "PAYMENT_OVERDUE" (Some (tenant_id tenant))
                   (Some "overdue_warning") None)
              /\ s = OVERDUE).
    { rewrite Hrun. destruct (bool_decide (billingStatus tb = OVERDUE)) eqn:Heq.
      - apply bool_decide_eq_true in Heq. eauto.
      - destruct Hmay as [Hmay | Hmay].
        + apply bool_decide_eq_false in Heq. contradiction.
        + rewrite Hmay. eauto. }
    destruct Hstore as (s & -> & ->). eexists. split; [reflexivity |].
    unfold stored_status, stored_daysOverdue. rewrite !lookup_insert_eq. cbn.
    split; [reflexivity |]. intros m ->. reflexivity.
Qed.

Lemma invalid_due_date_marks_overdue_witness :
  let unparsed := mkRuntime (40 * day_ms) (fun _ => JsNaN) in
  exists st',
    WebhookHandler.handleEvent unparsed (example_handler "ACTIVE")
      (example_event "PAYMENT_OVERDUE") None (example_store ACTIVE) =
      (st', mkResult true "PAYMENT_OVERDUE" (Some "tenant-1") (Some "overdue_warning") None)
    /\ stored_status st' "tenant-1" = Some OVERDUE
    /\ stored_daysOverdue st' "tenant-1" = Some JsNaN.
Proof.
  cbv zeta.
  destruct (invalid_due_date_marks_overdue (mkRuntime (40 * day_ms) (fun _ => JsNaN))
              (example_handler "ACTIVE") (example_event "PAYMENT_OVERDUE") None
              (example_store ACTIVE) example_payment (example_tenant ACTIVE)
              (example_tenant ACTIVE) (example_token_accepted "ACTIVE" None) eq_refl eq_refl
              (example_payment_resolves "ACTIVE" ACTIVE) (example_stored ACTIVE) eq_refl)
    as [_ Hmarks].
  destruct (Hmarks (or_intror eq_refl)) as (st' & Hrun & Hstatus & Hdays).
  exists st'. split; [exact Hrun |]. split; [exact Hstatus |].
  exact (Hdays example_metadata eq_refl).
Defined.

(** ** utils/dates.ts *)

(** X24. The seconds-or-milliseconds heuristic of [parseDate] on an
    integer number.  An integer below 10^12 is read as seconds, any other
    as milliseconds; so the current time in seconds parses to the current
    time cut to the second, while a time in milliseconds is read as such
    only from 10^12 on (September 2001): below, it parses to a date a
    thousand times further from the epoch. *)
Theorem parseDate_number_heuristic (rt : Runtime) (n : Z) :
  (n < 10 ^ 12 -> Z.abs n <= 8640000000000 ->
   Dates.parseDate rt (Dates.InNumber (JsNum n)) = JsNum (n * 1000))
  /\ (10 ^ 12 <= n <= 8640000000000000 ->
      Dates.parseDate rt (Dates.InNumber (JsNum n)) = JsNum n)
  /\ (Dates.parseDate rt (Dates.InNumber (JsNum n)) = JsNum n
      <-> n = 0 \/ 10 ^ 12 <= n <= 8640000000000000)
  /\ (0 <= Date_now rt < 10 ^ 15 ->
      exists cut,
        Dates.parseDate rt (Dates.InNumber (Dates.nowSeconds rt)) = JsNum cut
        /\ cut <= Date_now rt < cut + 1000)
  /\ Dates.parseDate rt (Dates.InNumber JsNaN) = JsNaN.
Proof.
  unfold Dates.parseDate, Dates.nowSeconds, js_ltb, js_floor_div, js_mul_const, Date_of_number.
  change (10 ^ 12) with 1000000000000. change (10 ^ 15) with 1000000000000000.
  split; [| split; [| split; [| split]]].
  - intros Hsmall Hrange.
    destruct (Z.ltb_spec n 1000000000000); [| lia].
    destruct (Z.leb_spec (Z.abs (n * 1000)) 8640000000000000); [reflexivity | lia].
  - intros [Hlow Hhigh].
    destruct (Z.ltb_spec n 1000000000000); [lia |].
    destruct (Z.leb_spec (Z.abs n) 8640000000000000); [reflexivity | lia].
  - destruct (Z.ltb_spec n 1000000000000).
    + destruct (Z.leb_spec (Z.abs (n * 1000)) 8640000000000000).
      * split; [intros [= Heq]; lia | intros [-> | ?]; [reflexivity | lia]].
      * split; [discriminate | lia].
    + destruct (Z.leb_spec (Z.abs n) 8640000000000000).
      * split; [lia | reflexivity].
      * split; [discriminate | lia].
  - intros Hnow.
    assert (Hcut : Date_now rt / 1000 * 1000 <= Date_now rt < Date_now rt / 1000 * 1000 + 1000).
    { pose proof (Z.div_mod (Date_now rt) 1000 ltac:(lia)).
      pose proof (Z.mod_pos_bound (Date_now rt) 1000 ltac:(lia)). lia. }
    assert (Hq : 0 <= Date_now rt / 1000) by (apply Z.div_pos; lia).
    destruct (Z.ltb_spec (Date_now rt / 1000) 1000000000000).
    + destruct (Z.leb_spec (Z.abs (Date_now rt / 1000 * 1000)) 8640000000000000); [| lia].
      eexists. split; [reflexivity | exact Hcut].
    + lia.
  - reflexivity.
Qed.

Lemma parseDate_number_heuristic_witness :
  Dates.parseDate example_runtime (Dates.InNumber (JsNum 1700000000)) = JsNum 1700000000000
  /\ Dates.parseDate example_runtime (Dates.InNumber (JsNum 1700000000000)) = JsNum 1700000000000
  /\ exists cut,
       Dates.parseDate example_runtime (Dates.InNumber (Dates.nowSeconds example_runtime))
       = JsNum cut
       /\ cut <= Date_now example_runtime < cut + 1000.
Proof.
  destruct (parseDate_number_heuristic example_runtime 1700000000) as (Hseconds & _).
  destruct (parseDate_number_heuristic example_runtime 1700000000000)
    as (_ & Hmillis & _ & Hnow & _).
  split; [apply Hseconds; [reflexivity | discriminate] |].
  split; [apply Hmillis; split; discriminate |].
  apply Hnow. split; [discriminate | reflexivity].
Defined.

(** X25. [isPast] and [isFuture] exclude each other; for a valid date
    exactly one of them holds unless the date is the current instant,
    for which neither does; an invalid date is neither past nor
    future. *)
Theorem isPast_isFuture_exclusive (rt : Runtime) (date : Dates.DateInput) :
  Dates.isPast rt date && Dates.isFuture rt date = false
  /\ (forall t, Dates.parseDate rt date = JsNum t ->
        (Dates.isPast rt date = true <-> t < Date_now rt)
        /\ (Dates.isFuture rt date = true <-> Date_now rt < t)
        /\ (Dates.isPast rt date || Dates.isFuture rt date = false <-> t = Date_now rt))
  /\ (Dates.parseDate rt date = JsNaN ->
      Dates.isPast rt date = false /\ Dates.isFuture rt date = false).
Proof.
  unfold Dates.isPast, Dates.isFuture, Dates.now, js_gtb, js_ltb.
  destruct (Dates.parseDate rt date) as [t |]; [| repeat split; discriminate].
  split; [| split; [| discriminate]].
  - destruct (Z.ltb_spec t (Date_now rt)), (Z.ltb_spec (Date_now rt) t); try reflexivity. lia.
  - intros t' [= <-].
    destruct (Z.ltb_spec t (Date_now rt)), (Z.ltb_spec (Date_now rt) t); cbn;
      repeat split; intros; try discriminate; try reflexivity; lia.
Qed.

Lemma js_double_opp (x : Z) : js_double (- x) = - js_double x.
Proof.
  unfold js_double. rewrite Z.abs_opp, Z.even_opp.
  destruct (Z.abs x <=? 2 ^ 53); [reflexivity |].
  destruct (Z.even x) eqn:Heven; [reflexivity |].
  assert (Hodd : Z.odd x = true) by (rewrite <- Z.negb_even, Heven; reflexivity).
  apply Z.odd_spec in Hodd. destruct Hodd as [k ->].
  replace (2 * k + 1 - 1) with (k * 2) by lia.
  replace (- (2 * k + 1) - 1) with ((- (k + 1)) * 2) by lia.
  rewrite !Z.div_mul by lia. rewrite Z.even_opp, Z.add_1_r, Z.even_succ, <- Z.negb_even.
  destruct (Z.even k); cbn; lia.
Qed.

Lemma js_double_near (x : Z) : x - 1 <= js_double x <= x + 1.
Proof.
  unfold js_double.
  destruct (Z.abs x <=? 2 ^ 53); [lia |].
  destruct (Z.even x); [lia |].
  destruct (Z.even ((x - 1) / 2)); lia.
Qed.

Lemma js_double_exact (x : Z) : Z.abs x <= 2 ^ 53 -> js_double x = x.
Proof.
  intros Hsmall. unfold js_double.
  destruct (Z.leb_spec (Z.abs x) (2 ^ 53)); [reflexivity | lia].
Qed.

(** X26. Differences between dates.  [diffInDays], [diffInHours] and
    [diffInMinutes] are symmetric; on valid dates they are non-negative
    and consistent with each other (the days are the hours by 24, the
    hours the minutes by 60).  For a distance of at most 2^53 ms they are
    the floors of the absolute distance, zero exactly below one unit;
    beyond, the distance is first rounded to a double, which moves it by
    at most one millisecond: the two ends of the range of valid dates
    are 200000000 days apart for [diffInDays], one more than the floor of
    their exact distance.  With an invalid date the three are NaN. *)
Theorem diff_consistent (rt : Runtime) (date1 date2 : Dates.DateInput) :
  Dates.diffInDays rt date1 date2 = Dates.diffInDays rt date2 date1
  /\ Dates.diffInHours rt date1 date2 = Dates.diffInHours rt date2 date1
  /\ Dates.diffInMinutes rt date1 date2 = Dates.diffInMinutes rt date2 date1
  /\ (forall t1 t2,
        Dates.parseDate rt date1 = JsNum t1 ->
        Dates.parseDate rt date2 = JsNum t2 ->
        exists days hours minutes,
          Dates.diffInDays rt date1 date2 = JsNum days
          /\ Dates.diffInHours rt date1 date2 = JsNum hours
          /\ Dates.diffInMinutes rt date1 date2 = JsNum minutes
          /\ 0 <= days
          /\ days = hours / 24
          /\ hours = minutes / 60
          /\ (Z.abs (t1 - t2) - 1) / day_ms <= days <= (Z.abs (t1 - t2) + 1) / day_ms
          /\ (Z.abs (t1 - t2) <= 2 ^ 53 ->
              days * day_ms <= Z.abs (t1 - t2) < (days + 1) * day_ms
              /\ hours * 3600000 <= Z.abs (t1 - t2) < (hours + 1) * 3600000
              /\ minutes * 60000 <= Z.abs (t1 - t2) < (minutes + 1) * 60000
              /\ (days = 0 <-> Z.abs (t1 - t2) < day_ms)))
  /\ (Dates.parseDate rt date1 = JsNaN \/ Dates.parseDate rt date2 = JsNaN ->
      Dates.diffInDays rt date1 date2 = JsNaN
      /\ Dates.diffInHours rt date1 date2 = JsNaN
      /\ Dates.diffInMinutes rt date1 date2 = JsNaN)
  /\ Dates.diffInDays rt (Dates.InDate (JsNum 8640000000000000))
       (Dates.InDate (JsNum (- 8639999999999999))) = JsNum 200000000.
Proof.
  unfold Dates.diffInDays, Dates.diffInHours, Dates.diffInMinutes. cbv zeta.
  assert (Hsym : js_abs (js_sub_double (Dates.parseDate rt date1) (Dates.parseDate rt date2))
                 = js_abs (js_sub_double (Dates.parseDate rt date2) (Dates.parseDate rt date1))).
  { destruct (Dates.parseDate rt date1) as [t1 |], (Dates.parseDate rt date2) as [t2 |];
      try reflexivity. cbn. f_equal.
    replace (t2 - t1) with (- (t1 - t2)) by lia. rewrite js_double_opp. lia. }
  rewrite Hsym. split; [reflexivity |]. split; [reflexivity |]. split; [reflexivity |].
  rewrite <- Hsym. clear Hsym. split; [| split].
  - intros t1 t2 -> ->. cbn [js_sub_double js_abs js_floor_div].
    change (1000 * 60 * 60 * 24) with 86400000. change (1000 * 60 * 60) with 3600000.
    change (1000 * 60) with 60000.
    set (distance := Z.abs (js_double (t1 - t2))).
    assert (Hpos : 0 <= distance) by (subst distance; lia).
    assert (Hnear : Z.abs (t1 - t2) - 1 <= distance <= Z.abs (t1 - t2) + 1).
    { subst distance. pose proof (js_double_near (t1 - t2)). lia. }
    eexists _, _, _. split; [reflexivity |]. split; [reflexivity |]. split; [reflexivity |].
    unfold day_ms.
    split; [apply Z.div_pos; lia |].
    split; [rewrite Z.div_div by lia; reflexivity |].
    split; [rewrite Z.div_div by lia; reflexivity |].
    split; [split; apply Z.div_le_mono; lia |].
    intros Hexact.
    assert (Hdistance : distance = Z.abs (t1 - t2)).
    { subst distance. now rewrite js_double_exact. }
    rewrite <- Hdistance.
    pose proof (Z.div_mod distance 86400000 ltac:(lia)).
    pose proof (Z.mod_pos_bound distance 86400000 ltac:(lia)).
    pose proof (Z.div_mod distance 3600000 ltac:(lia)).
    pose proof (Z.mod_pos_bound distance 3600000 ltac:(lia)).
    pose proof (Z.div_mod distance 60000 ltac:(lia)).
    pose proof (Z.mod_pos_bound distance 60000 ltac:(lia)).
    split; [lia |]. split; [lia |]. split; [lia |].
    split; [intros Hzero; lia | intros Hsmall; apply Z.div_small; lia].
  - intros [-> | ->]; [| destruct (Dates.parseDate rt date1)]; cbn; auto.
  - reflexivity.
Qed.

Lemma diff_consistent_witness :
  exists days hours minutes,
    Dates.diffInDays example_runtime (Dates.InDate (JsNum 0)) (Dates.InDate (JsNum 90000000))
    = JsNum days
    /\ Dates.diffInHours example_runtime (Dates.InDate (JsNum 0)) (Dates.InDate (JsNum 90000000))
       = JsNum hours
    /\ Dates.diffInMinutes example_runtime (Dates.InDate (JsNum 0))
         (Dates.InDate (JsNum 90000000)) = JsNum minutes
    /\ days = hours / 24 /\ hours = minutes / 60.
Proof.
  destruct (diff_consistent example_runtime (Dates.InDate (JsNum 0))
              (Dates.InDate (JsNum 90000000))) as (_ & _ & _ & Hvalid & _).
  destruct (Hvalid 0 90000000 eq_refl eq_refl)
    as (days & hours & minutes & Hd & Hh & Hm & _ & Hdh & Hhm & _).
  exists days, hours, minutes. auto.
Defined.

(** [formatRelative] on a valid date [t], in terms of the age
    [now - t] in milliseconds and in whole days. *)
Lemma formatRelative_age (rt : Runtime) (t : Z) :
  let age := Date_now rt - t in
  let days := age / day_ms in
  Dates.formatRelative rt (Dates.InDate (JsNum t)) =
  if age / 1000 <? 60 then "just now"
  else if age / 60000 <? 60 then Dates.ago (JsNum (age / 60000)) "minute"
  else if age / 3600000 <? 24 then Dates.ago (JsNum (age / 3600000)) "hour"
  else if days <? 7 then Dates.ago (JsNum days) "day"
  else if days / 7 <? 4 then Dates.ago (JsNum (days / 7)) "week"
  else if days / 30 <? 12 then Dates.ago (JsNum (days / 30)) "month"
  else Dates.ago (JsNum (days / 365)) "year".
Proof.
  cbv zeta. unfold Dates.formatRelative, Dates.parseDate, Dates.now. cbv zeta.
  cbn [js_sub js_floor_div js_ltb]. unfold day_ms.
  rewrite !Z.div_div by lia.
  change (1000 * 60) with 60000. change (60000 * 60) with 3600000.
  change (3600000 * 24) with 86400000.
  rewrite <- !(Z.div_div _ 86400000) by lia. reflexivity.
Qed.

(** X27. The bands of [formatRelative] on a valid date, by its age
    [now - t]: below one minute (a date in the future included) the text
    is [just now]; then the age is given in whole minutes below one
    hour, in whole hours below one day, in whole days below 7 days, in
    whole weeks below 28 days, in months of 30 days below 360 days, and
    in years of 365 days from 360 days on. *)
Theorem formatRelative_bands (rt : Runtime) (t : Z) :
  let age := Date_now rt - t in
  let days := age / day_ms in
  let text := Dates.formatRelative rt (Dates.InDate (JsNum t)) in
  (age < 60000 -> text = "just now")
  /\ (60000 <= age < 3600000 -> text = Dates.ago (JsNum (age / 60000)) "minute")
  /\ (3600000 <= age < day_ms -> text = Dates.ago (JsNum (age / 3600000)) "hour")
  /\ (day_ms <= age < 7 * day_ms -> text = Dates.ago (JsNum days) "day")
  /\ (7 * day_ms <= age < 28 * day_ms -> text = Dates.ago (JsNum (days / 7)) "week")
  /\ (28 * day_ms <= age < 360 * day_ms -> text = Dates.ago (JsNum (days / 30)) "month")
  /\ (360 * day_ms <= age -> text = Dates.ago (JsNum (days / 365)) "year").
Proof.
  cbv zeta. rewrite formatRelative_age. cbv zeta. unfold day_ms.
  set (age := Date_now rt - t).
  pose proof (Z.div_mod age 1000 ltac:(lia)) as Hsec.
  pose proof (Z.mod_pos_bound age 1000 ltac:(lia)) as Hsec'.
  pose proof (Z.div_mod age 60000 ltac:(lia)) as Hmin.
  pose proof (Z.mod_pos_bound age 60000 ltac:(lia)) as Hmin'.
  pose proof (Z.div_mod age 3600000 ltac:(lia)) as Hhour.
  pose proof (Z.mod_pos_bound age 3600000 ltac:(lia)) as Hhour'.
  pose proof (Z.div_mod age 86400000 ltac:(lia)) as Hday.
  pose proof (Z.mod_pos_bound age 86400000 ltac:(lia)) as Hday'.
  set (days := age / 86400000) in *.
  pose proof (Z.div_mod days 7 ltac:(lia)) as Hweek.
  pose proof (Z.mod_pos_bound days 7 ltac:(lia)) as Hweek'.
  pose proof (Z.div_mod days 30 ltac:(lia)) as Hmonth.
  pose proof (Z.mod_pos_bound days 30 ltac:(lia)) as Hmonth'.
  repeat split; intros Hband;
    repeat match goal with
           | |- context [?a <? ?b] => destruct (Z.ltb_spec a b); try lia
           end;
    reflexivity.
Qed.

Lemma formatRelative_bands_witness :
  (2 * day_ms <= Date_now example_runtime - 14 * day_ms < 7 * day_ms
   /\ Dates.formatRelative example_runtime (Dates.InDate (JsNum (14 * day_ms))) = "2 days ago")
  /\ (3600000 <= Date_now example_runtime - (16 * day_ms - 3600000) < day_ms
      /\ Dates.formatRelative example_runtime (Dates.InDate (JsNum (16 * day_ms - 3600000)))
         = "1 hour ago").
Proof.
  destruct (formatRelative_bands example_runtime (14 * day_ms)) as (_ & _ & _ & Hdays & _).
  destruct (formatRelative_bands example_runtime (16 * day_ms - 3600000))
    as (_ & _ & Hhours & _).
  cbv zeta in Hdays, Hhours.
  assert (Hd : day_ms <= Date_now example_runtime - 14 * day_ms < 7 * day_ms)
    by (vm_compute; split; [discriminate | reflexivity]).
  assert (Hh : 3600000 <= Date_now example_runtime - (16 * day_ms - 3600000) < day_ms)
    by (vm_compute; split; [discriminate | reflexivity]).
  split.
  - split; [vm_compute; split; [discriminate | reflexivity] |].
    rewrite (Hdays Hd). reflexivity.
  - split; [exact Hh |]. rewrite (Hhours Hh). reflexivity.
Defined.

(** X28. Edge cases of [formatRelative].  A date in the future reads
    [just now]; an age of 28 or 29 days reads [0 months ago] and one of
    360 to 364 days [0 years ago]; the singular is used for exactly one
    unit; an invalid date reads [NaN years ago]. *)
Theorem formatRelative_edges (rt : Runtime) (t : Z) (date : Dates.DateInput) :
  let age := Date_now rt - t in
  (Date_now rt <= t -> Dates.formatRelative rt (Dates.InDate (JsNum t)) = "just now")
  /\ (28 * day_ms <= age < 30 * day_ms ->
      Dates.formatRelative rt (Dates.InDate (JsNum t)) = "0 months ago")
  /\ (360 * day_ms <= age < 365 * day_ms ->
      Dates.formatRelative rt (Dates.InDate (JsNum t)) = "0 years ago")
  /\ (60000 <= age < 120000 ->
      Dates.formatRelative rt (Dates.InDate (JsNum t)) = "1 minute ago")
  /\ (day_ms <= age < 2 * day_ms ->
      Dates.formatRelative rt (Dates.InDate (JsNum t)) = "1 day ago")
  /\ (Dates.parseDate rt date = JsNaN -> Dates.formatRelative rt date = "NaN years ago").
Proof.
  cbv zeta. rewrite formatRelative_age. cbv zeta. unfold day_ms.
  set (age := Date_now rt - t).
  pose proof (Z.div_mod age 1000 ltac:(lia)) as Hsec.
  pose proof (Z.mod_pos_bound age 1000 ltac:(lia)) as Hsec'.
  pose proof (Z.div_mod age 60000 ltac:(lia)) as Hmin.
  pose proof (Z.mod_pos_bound age 60000 ltac:(lia)) as Hmin'.
  pose proof (Z.div_mod age 3600000 ltac:(lia)) as Hhour.
  pose proof (Z.mod_pos_bound age 3600000 ltac:(lia)) as Hhour'.
  pose proof (Z.div_mod age 86400000 ltac:(lia)) as Hday.
  pose proof (Z.mod_pos_bound age 86400000 ltac:(lia)) as Hday'.
  set (days := age / 86400000) in *.
  pose proof (Z.div_mod days 7 ltac:(lia)) as Hweek.
  pose proof (Z.mod_pos_bound days 7 ltac:(lia)) as Hweek'.
  pose proof (Z.div_mod days 30 ltac:(lia)) as Hmonth.
  pose proof (Z.mod_pos_bound days 30 ltac:(lia)) as Hmonth'.
  pose proof (Z.div_mod days 365 ltac:(lia)) as Hyear.
  pose proof (Z.mod_pos_bound days 365 ltac:(lia)) as Hyear'.
  split; [| split; [| split; [| split; [| split]]]].
  - intros Hfuture. destruct (Z.ltb_spec (age / 1000) 60); [reflexivity | lia].
  - intros Hband.
    repeat match goal with
           | |- context [?a <? ?b] => destruct (Z.ltb_spec a b); try lia
           end.
    replace (days / 30) with 0 by lia. reflexivity.
  - intros Hband.
    repeat match goal with
           | |- context [?a <? ?b] => destruct (Z.ltb_spec a b); try lia
           end.
    replace (days / 365) with 0 by lia. reflexivity.
  - intros Hband.
    repeat match goal with
           | |- context [?a <? ?b] => destruct (Z.ltb_spec a b); try lia
           end.
    replace (age / 60000) with 1 by lia. reflexivity.
  - intros Hband.
    repeat match goal with
           | |- context [?a <? ?b] => destruct (Z.ltb_spec a b); try lia
           end.
    replace days with 1 by lia. reflexivity.
  - intros Hinvalid. unfold Dates.formatRelative. cbv zeta. rewrite Hinvalid. reflexivity.
Qed.

Lemma formatRelative_edges_witness :
  (28 * day_ms <= Date_now example_runtime - (- 12 * day_ms) < 30 * day_ms
   /\ Dates.formatRelative example_runtime (Dates.InDate (JsNum (- 12 * day_ms)))
      = "0 months ago")
  /\ Dates.formatRelative example_runtime (Dates.InDate (JsNum (17 * day_ms))) = "just now".
Proof.
  destruct (formatRelative_edges example_runtime (- 12 * day_ms) (Dates.InDate JsNaN))
    as (_ & Hmonths & _).
  destruct (formatRelative_edges example_runtime (17 * day_ms) (Dates.InDate JsNaN))
    as (Hfuture & _).
  cbv zeta in Hmonths.
  assert (Hband : 28 * day_ms <= Date_now example_runtime - (- 12 * day_ms) < 30 * day_ms)
    by (vm_compute; split; [discriminate | reflexivity]).
  split; [split; [exact Hband | exact (Hmonths Hband)] |].
  apply Hfuture. vm_compute. discriminate.
Defined.
